(** * Enscribe: ENS contract naming

    A shallow embedding of the naming library (utils.ts, L1Naming.ts,
    L2Naming.ts and the successive revisions of naming.ts) and the
    properties of its naming protocol.

    Conventions of the embedding.
    - A JavaScript string is a [string]; code units above 255 are outside
      the model.  [toLowerCase] and [trim] follow ECMAScript on the code
      units 0..255.
    - An [async] function is a computation in the monad [Async]: it takes
      the state of the outside world and gives back either a value or a
      thrown exception, together with the new state.  A thrown exception
      keeps the effects performed before it.
    - The viem client, the hash functions, [fetch], the clock and the
      network table of contracts.ts are not part of the library: they are
      the fields of an environment [Env], over an arbitrary type of world
      states.  A read is a function of the current world (its answer may be
      a failure); writes, receipts, telemetry posts and UUID generation may
      change the world.
    - Every call that reaches the client or the telemetry endpoint is
      recorded, in order, in a trace that the program itself never reads.
    - Console output ([console.log], [process.stdout.write]) is left out. *)

From Stdlib Require Import String Ascii List ZArith Bool Lia DecimalString.
Import ListNotations.
Local Open Scope string_scope.
Local Open Scope Z_scope.

Set Implicit Arguments.

(* ================================================================== *)
(** ** JavaScript values and strings *)
(* ================================================================== *)

Inductive JsNumber : Type :=
| JNum (z : Z)
| JNaN.

(** Truthiness of a number: [0] and [NaN] are falsy. *)
Definition truthy_number (n : JsNumber) : bool :=
  match n with
  | JNum z => negb (z =? 0)
  | JNaN => false
  end.

(** Truthiness of a string: only the empty string is falsy. *)
Definition truthy_string (s : string) : bool :=
  negb (String.eqb s "").

Inductive Value : Type :=
| VBool (b : bool)
| VString (s : string)
| VNumber (n : JsNumber)
| VUndefined.

Definition truthy (v : Value) : bool :=
  match v with
  | VBool b => b
  | VString s => truthy_string s
  | VNumber n => truthy_number n
  | VUndefined => false
  end.

Definition value_eqb (a b : Value) : bool :=
  match a, b with
  | VBool x, VBool y => Bool.eqb x y
  | VString x, VString y => String.eqb x y
  | VNumber (JNum x), VNumber (JNum y) => x =? y
  | VUndefined, VUndefined => true
  | _, _ => false
  end.

Definition of_option_string (o : option string) : Value :=
  match o with
  | Some s => VString s
  | None => VUndefined
  end.

Definition lower_ascii (c : ascii) : ascii :=
  let n := N_of_ascii c in
  if ((65 <=? n) && (n <=? 90))%N then ascii_of_N (n + 32)
  else if ((192 <=? n) && (n <=? 222) && negb (n =? 215))%N then ascii_of_N (n + 32)
  else c.

(** [String.prototype.toLowerCase]. *)
Fixpoint toLowerCase (s : string) : string :=
  match s with
  | EmptyString => EmptyString
  | String c r => String (lower_ascii c) (toLowerCase r)
  end.

Definition isWhiteSpace (c : ascii) : bool :=
  let n := N_of_ascii c in
  ((n =? 9) || (n =? 10) || (n =? 11) || (n =? 12) || (n =? 13)
   || (n =? 32) || (n =? 160))%N.

Fixpoint trimStart (s : string) : string :=
  match s with
  | EmptyString => EmptyString
  | String c r => if isWhiteSpace c then trimStart r else s
  end.

Fixpoint trimEnd (s : string) : string :=
  match s with
  | EmptyString => EmptyString
  | String c r =>
      match trimEnd r with
      | EmptyString => if isWhiteSpace c then EmptyString else String c EmptyString
      | r' => String c r'
      end
  end.

(** [String.prototype.trim]. *)
Definition trim (s : string) : string := trimEnd (trimStart s).

(** [s.slice(n)] for a non-negative [n]. *)
Fixpoint slice (n : nat) (s : string) : string :=
  match n, s with
  | O, _ => s
  | S n', EmptyString => EmptyString
  | S n', String _ r => slice n' r
  end.

(** [s.split(".")]: the list of the segments between the dots; never
    empty. *)
Fixpoint split_dot (s : string) : list string :=
  match s with
  | EmptyString => [EmptyString]
  | String c r =>
      if Ascii.eqb c "."%char then EmptyString :: split_dot r
      else match split_dot r with
           | p :: ps => String c p :: ps
           | [] => [String c EmptyString]
           end
  end.

(** [parts.join(".")]. *)
Definition join_dot (parts : list string) : string := String.concat "." parts.

(** Rendering of a number inside a template literal. *)
Definition string_of_Z (z : Z) : string := NilZero.string_of_int (Z.to_int z).

Definition string_of_chain_id (o : option Z) : string :=
  match o with
  | Some z => string_of_Z z
  | None => "undefined"
  end.

(* ================================================================== *)
(** ** Exceptions and outcomes *)
(* ================================================================== *)

Inductive Exn : Type :=
| Error (message : string)
| TypeError (message : string).

Inductive Outcome (A : Type) : Type :=
| Ok (a : A)
| Throw (e : Exn).
Arguments Ok {A} a.
Arguments Throw {A} e.

(* ================================================================== *)
(** ** types.ts *)
(* ================================================================== *)

Record ENSContracts : Type := {
  ENS_REGISTRY : string;
  PUBLIC_RESOLVER : string;
  NAME_WRAPPER : string;
  REVERSE_REGISTRAR : string;
  L2_REVERSE_REGISTRAR : option string;
  COIN_TYPE : option Z
}.

Inductive ContractType : Type :=
| Ownable
| ReverseClaimer
| Unknown.

Definition ContractType_string (t : ContractType) : string :=
  match t with
  | Ownable => "Ownable"
  | ReverseClaimer => "ReverseClaimer"
  | Unknown => "Unknown"
  end.

(** The parts of a viem wallet client that the library reads. *)
Record Account : Type := { address : string }.
Record Chain : Type := { id : Z; chain_key : string }.
Record WalletClient : Type := {
  account : option Account;
  chain : option Chain
}.

(** [walletClient.account?.address]. *)
Definition account_address (wc : WalletClient) : option string :=
  option_map address (account wc).

(** [walletClient.chain?.id]. *)
Definition chain_id (wc : WalletClient) : option Z :=
  option_map id (chain wc).

(** [Number(contracts.COIN_TYPE)]. *)
Definition Number_of (o : option Z) : JsNumber :=
  match o with
  | Some z => JNum z
  | None => JNaN
  end.

Record CreateSubnameResult : Type := {
  created : bool;
  cs_transactionHash : option string
}.

Record SetForwardResolutionResult : Type := {
  fr_set : bool;
  fr_transactionHash : option string
}.

Record SetReverseResolutionResult : Type := {
  rr_set : bool;
  rr_transactionHash : option string;
  rr_reason : option string
}.

Record Transactions : Type := {
  subname : option string;
  forwardResolution : option string;
  reverseResolution : option string;
  l2ForwardResolution : option string;
  l2ReverseResolution : option string
}.

Definition no_transactions : Transactions :=
  {| subname := None; forwardResolution := None; reverseResolution := None;
     l2ForwardResolution := None; l2ReverseResolution := None |}.

Record NameContractResult : Type := {
  success : bool;
  res_name : string;
  res_contractAddress : string;
  transactions : Transactions;
  res_contractType : ContractType;
  explorerUrl : string
}.

(** The options of the three naming steps share one shape: the options of
    [createSubname] and [setReverseResolution] have no [coinType]. *)
Record StepOptions : Type := {
  name : string;
  contractAddress : string;
  walletClient : WalletClient;
  contracts : ENSContracts;
  contractType : ContractType;
  correlationId : option string;
  opType : option string;
  coinType : option JsNumber;
  enableMetrics : option bool
}.

(** A destructuring default: [x = d]. *)
Definition default {A : Type} (d : A) (o : option A) : A :=
  match o with
  | Some a => a
  | None => d
  end.

(** [coinType ? a : b]. *)
Definition coinType_truthy (o : option JsNumber) : bool :=
  match o with
  | Some n => truthy_number n
  | None => false
  end.

(* ================================================================== *)
(** ** The client interface *)
(* ================================================================== *)

Inductive Abi : Type :=
| ensRegistryABI
| ownableContractABI
| nameWrapperABI
| publicResolverABI
| reverseRegistrarABI
| setNameForAddrABI.   (* the ABI literal of the L2 reverse registrar *)

Record ContractCall : Type := {
  call_address : option string;
  call_abi : Abi;
  functionName : string;
  args : list Value
}.

(** The JSON body posted by [logMetric]. *)
Record Metric : Type := {
  co_id : option string;
  contract_address : string;
  ens_name : string;
  deployer_address : option string;
  network : option Z;
  timestamp : Z;
  step : string;
  txn_hash : string;
  contract_type : string;
  op_type : string;
  source : string
}.

Inductive Event : Type :=
| EvRead (wc : WalletClient) (c : ContractCall)
| EvWrite (wc : WalletClient) (c : ContractCall)
| EvWait (wc : WalletClient) (hash : string)
| EvFetch (url : string) (body : Metric).

Definition is_write (e : Event) : bool :=
  match e with EvWrite _ _ => true | _ => false end.

Definition is_read (e : Event) : bool :=
  match e with EvRead _ _ => true | _ => false end.

Definition is_chain_call (e : Event) : bool :=
  match e with EvRead _ _ | EvWrite _ _ | EvWait _ _ => true | EvFetch _ _ => false end.

(** The write calls of a trace, in order. *)
Definition writes (tr : list Event) : list Event := filter is_write tr.

(** The read calls of a trace, in order. *)
Definition reads (tr : list Event) : list Event := filter is_read tr.

Record Env (World : Type) : Type := {
  env_isAddress : string -> bool;
  env_namehash : string -> string;
  env_toBytes : string -> list Byte.byte;
  env_keccak256 : list Byte.byte -> string;
  env_readContract : WalletClient -> ContractCall -> World -> Outcome Value;
  env_writeContract : WalletClient -> ContractCall -> World -> Outcome string * World;
  env_waitForTransactionReceipt : WalletClient -> string -> World -> Outcome unit * World;
  env_fetch : string -> Metric -> World -> Outcome unit * World;
  env_Date_now : World -> Z;
  env_randomUUID : World -> string * World;
  env_getContractAddresses : string -> Outcome ENSContracts
}.

(* ================================================================== *)
(** ** The monad of asynchronous computations *)
(* ================================================================== *)

Section Async.
Variable World : Type.

Definition St : Type := (World * list Event)%type.

Definition Async (A : Type) : Type := St -> Outcome A * St.

Definition ret {A : Type} (a : A) : Async A := fun s => (Ok a, s).

Definition throw {A : Type} (e : Exn) : Async A := fun s => (Throw e, s).

Definition bind {A B : Type} (m : Async A) (k : A -> Async B) : Async B :=
  fun s =>
    match m s with
    | (Ok a, s') => k a s'
    | (Throw e, s') => (Throw e, s')
    end.

(** [try { m } catch (err) { h err }]. *)
Definition try_catch {A : Type} (m : Async A) (h : Exn -> Async A) : Async A :=
  fun s =>
    match m s with
    | (Ok a, s') => (Ok a, s')
    | (Throw e, s') => h e s'
    end.

(** A synchronous function that may throw. *)
Definition lift {A : Type} (o : Outcome A) : Async A := fun s => (o, s).
End Async.

Arguments ret {World A} a.
Arguments throw {World A} e.
Arguments bind {World A B} m k.
Arguments try_catch {World A} m h.
Arguments lift {World A} o.

Declare Scope async_scope.
Delimit Scope async_scope with async.
Notation "'let*' x ':=' m 'in' k" := (bind m (fun x => k))
  (at level 10, x name, m at level 100, k at level 200) : async_scope.
Notation "m ';;' k" := (bind m (fun _ => k))
  (at level 100, k at level 200, right associativity) : async_scope.
Local Open Scope async_scope.

(** The outcome of a run, the world it leaves and the calls it made. *)
Definition outcome {World A : Type} (r : Outcome A * St World) : Outcome A := fst r.
Definition final_world {World A : Type} (r : Outcome A * St World) : World := fst (snd r).
Definition final_trace {World A : Type} (r : Outcome A * St World) : list Event := snd (snd r).

(* ================================================================== *)
(** ** viem actions, as seen by the library *)
(* ================================================================== *)

Section Client.
Context {World : Type} (E : Env World).

Definition readContract (wc : WalletClient) (c : ContractCall) : Async World Value :=
  fun s => (env_readContract E wc c (fst s), (fst s, (snd s ++ [EvRead wc c])%list)).

Definition writeContract (wc : WalletClient) (c : ContractCall) : Async World string :=
  fun s =>
    let (r, w) := env_writeContract E wc c (fst s) in
    (r, (w, (snd s ++ [EvWrite wc c])%list)).

Definition waitForTransactionReceipt (wc : WalletClient) (hash : string)
  : Async World unit :=
  fun s =>
    let (r, w) := env_waitForTransactionReceipt E wc hash (fst s) in
    (r, (w, (snd s ++ [EvWait wc hash])%list)).

Definition fetch (url : string) (body : Metric) : Async World unit :=
  fun s =>
    let (r, w) := env_fetch E url body (fst s) in
    (r, (w, (snd s ++ [EvFetch url body])%list)).

Definition Date_now : Async World Z :=
  fun s => (Ok (env_Date_now E (fst s)), s).

Definition randomUUID : Async World string :=
  fun s => let (u, w) := env_randomUUID E (fst s) in (Ok u, (w, snd s)).

Definition namehash (n : string) : string := env_namehash E n.

(** [keccak256(toBytes(label))]. *)
Definition labelhash (label : string) : string :=
  env_keccak256 E (env_toBytes E label).

(** [namehash(address.slice(2).toLowerCase() + "." + "addr.reverse")]. *)
Definition reverse_node (addr : string) : string :=
  namehash (toLowerCase (slice 2 addr) ++ "." ++ "addr.reverse").

(** The TypeError of [receiver.toLowerCase()] on a value that is not a
    string, with the text Node gives it: the text names the receiver, or
    says that the receiver is undefined. *)
Definition toLowerCase_error (receiver : string) (v : Value) : Exn :=
  match v with
  | VUndefined =>
      TypeError "Cannot read properties of undefined (reading 'toLowerCase')"
  | _ => TypeError (receiver ++ ".toLowerCase is not a function")
  end.

(** [receiver.toLowerCase()] on a value received from the client, held in
    the variable [receiver]. *)
Definition value_toLowerCase (receiver : string) (v : Value) : Async World string :=
  match v with
  | VString s => ret (toLowerCase s)
  | _ => throw (toLowerCase_error receiver v)
  end.

(** [a === walletClient.account?.address.toLowerCase()], for a string
    [a]; on strings [==] is the same test. *)
Definition equals_account (a : string) (wc : WalletClient) : bool :=
  match account_address wc with
  | Some c => String.eqb a (toLowerCase c)
  | None => false
  end.
End Client.

(* ================================================================== *)
(** ** utils.ts *)
(* ================================================================== *)

Module Utils.

(** [isEmpty]: the argument has type [string], so the [value == null]
    disjunct is false. *)
Definition isEmpty (value : string) : bool :=
  (String.length (trim value) =? 0)%nat.

Definition isAddressEmpty (address : string) : bool := isEmpty address.

Record ParsedName : Type := { label : string; parent : string }.

Definition parseNormalizedName (normalizedName : string) : Outcome ParsedName :=
  let parts := split_dot normalizedName in
  if (List.length parts <? 2)%nat
  then Throw (Error "Invalid normalized name: must have at least one dot")
  else Ok {| label := List.hd "" parts; parent := join_dot (List.tl parts) |}.

Definition METRICS_URL : string := "https://app.enscribe.xyz/api/v1/metrics".

Record NetworkInfo : Type := { isL2 : bool; networkName : string }.

Definition getNetworkInfo (chainName : string) : NetworkInfo :=
  let chainLower := toLowerCase chainName in
  if String.eqb chainLower "linea-sepolia" || String.eqb chainLower "linea"
     || String.eqb chainLower "optimism-sepolia" || String.eqb chainLower "optimism"
     || String.eqb chainLower "arbitrum-sepolia" || String.eqb chainLower "arbitrum"
     || String.eqb chainLower "scroll-sepolia" || String.eqb chainLower "scroll"
     || String.eqb chainLower "base-sepolia" || String.eqb chainLower "base"
  then {| isL2 := true; networkName := chainLower |}
  else {| isL2 := false; networkName := chainLower |}.

Section WithEnv.
Context {World : Type} (E : Env World).

Definition isAddressValid (address : string) : bool :=
  if isEmpty address then false
  else if negb (env_isAddress E address) then false
  else true.

(** The guard that opens every probe. *)
Definition address_rejected (address : string) : bool :=
  isAddressEmpty address || negb (isAddressValid address).

Definition owner_call (address : string) : ContractCall :=
  {| call_address := Some address; call_abi := ownableContractABI;
     functionName := "owner"; args := [] |}.

Definition registry_owner_call (ensRegistry node : string) : ContractCall :=
  {| call_address := Some ensRegistry; call_abi := ensRegistryABI;
     functionName := "owner"; args := [VString node] |}.

Definition isOwnable (address : string) (walletClient : WalletClient)
  : Async World bool :=
  if address_rejected address then ret false
  else
    try_catch
      (readContract E walletClient (owner_call address) ;;
       ret true)
      (fun _ => ret false).

Definition isReverseClaimable (address : string) (walletClient : WalletClient)
           (ensRegistry : string) : Async World bool :=
  if address_rejected address then ret false
  else
    try_catch
      (let reversedNode := reverse_node E address in
       let* resolvedAddr :=
         readContract E walletClient (registry_owner_call ensRegistry reversedNode) in
       let* lowered := value_toLowerCase "resolvedAddr" resolvedAddr in
       if equals_account lowered walletClient then ret true else ret false)
      (fun _ => ret false).

Definition detectContractType (contractAddress : string)
           (walletClient : WalletClient) (ensRegistry : string)
  : Async World ContractType :=
  let* ownable := isOwnable contractAddress walletClient in
  if ownable then ret Ownable
  else
    let* claimable := isReverseClaimable contractAddress walletClient ensRegistry in
    if claimable then ret ReverseClaimer
    else ret Unknown.

(** [walletClient] has a non-null type, so [!walletClient] is false. *)
Definition isContractOwner (address : string) (walletClient : WalletClient)
           (ensRegistry : string) : Async World bool :=
  if address_rejected address then ret false
  else
    try_catch
      (let* ownerAddress := readContract E walletClient (owner_call address) in
       let* lowered := value_toLowerCase "ownerAddress" ownerAddress in
       ret (equals_account lowered walletClient))
      (fun _ =>
         let reversedNode := reverse_node E address in
         let* resolvedAddr :=
           readContract E walletClient (registry_owner_call ensRegistry reversedNode) in
         let* lowered := value_toLowerCase "resolvedAddr" resolvedAddr in
         ret (equals_account lowered walletClient)).

Definition logMetric (correlationId : option string) (timestamp : Z)
           (chainId : option Z) (contractAddress : string)
           (senderAddress : option string) (name step txnHash : string)
           (contractType opType : string) : Async World unit :=
  fetch E METRICS_URL
        {| co_id := correlationId;
           contract_address := contractAddress;
           ens_name := name;
           deployer_address := senderAddress;
           network := chainId;
           timestamp := timestamp / 1000;
           step := step;
           txn_hash := txnHash;
           contract_type := contractType;
           op_type := opType;
           source := "enscribe" |}.
End WithEnv.

End Utils.

(* ================================================================== *)
(** ** Calls shared by the naming modules *)
(* ================================================================== *)

Definition zero : Value := VNumber (JNum 0).

Definition recordExists_call (c : ENSContracts) (node : string) : ContractCall :=
  {| call_address := Some (ENS_REGISTRY c); call_abi := ensRegistryABI;
     functionName := "recordExists"; args := [VString node] |}.

Definition resolver_call (c : ENSContracts) (node : string) : ContractCall :=
  {| call_address := Some (ENS_REGISTRY c); call_abi := ensRegistryABI;
     functionName := "resolver"; args := [VString node] |}.

Definition isWrapped_call (c : ENSContracts) (node : string) : ContractCall :=
  {| call_address := Some (NAME_WRAPPER c); call_abi := nameWrapperABI;
     functionName := "isWrapped"; args := [VString node] |}.

(** [NameWrapper.setSubnodeRecord(parentNode, label, owner, resolver, ttl,
    fuses, expiry)]. *)
Definition wrapper_setSubnodeRecord_call (c : ENSContracts) (parentNode label : string)
           (owner resolver : Value) : ContractCall :=
  {| call_address := Some (NAME_WRAPPER c); call_abi := nameWrapperABI;
     functionName := "setSubnodeRecord";
     args := [VString parentNode; VString label; owner; resolver; zero; zero; zero] |}.

(** [ENSRegistry.setSubnodeRecord(parentNode, labelHash, owner, resolver,
    ttl)]. *)
Definition registry_setSubnodeRecord_call (c : ENSContracts) (parentNode labelHash : string)
           (owner resolver : Value) : ContractCall :=
  {| call_address := Some (ENS_REGISTRY c); call_abi := ensRegistryABI;
     functionName := "setSubnodeRecord";
     args := [VString parentNode; VString labelHash; owner; resolver; zero] |}.

Definition addr_call (c : ENSContracts) (node : string) : ContractCall :=
  {| call_address := Some (PUBLIC_RESOLVER c); call_abi := publicResolverABI;
     functionName := "addr"; args := [VString node] |}.

Definition addr_coin_call (c : ENSContracts) (node : string) (coin : JsNumber)
  : ContractCall :=
  {| call_address := Some (PUBLIC_RESOLVER c); call_abi := publicResolverABI;
     functionName := "addr"; args := [VString node; VNumber coin] |}.

Definition setAddr_call (c : ENSContracts) (node target : string) : ContractCall :=
  {| call_address := Some (PUBLIC_RESOLVER c); call_abi := publicResolverABI;
     functionName := "setAddr"; args := [VString node; VString target] |}.

Definition setAddr_coin_call (c : ENSContracts) (node : string) (coin : JsNumber)
           (target : string) : ContractCall :=
  {| call_address := Some (PUBLIC_RESOLVER c); call_abi := publicResolverABI;
     functionName := "setAddr"; args := [VString node; VNumber coin; VString target] |}.

(** The request of [coinType ? readContract(.. addr(node, coinType))
    : readContract(.. addr(node))]. *)
Definition current_addr_call (c : ENSContracts) (node : string)
           (coinType : option JsNumber) : ContractCall :=
  match coinType with
  | Some coin => if truthy_number coin then addr_coin_call c node coin else addr_call c node
  | None => addr_call c node
  end.

(** The request of [coinType ? writeContract(.. setAddr(node, coinType,
    contractAddress)) : writeContract(.. setAddr(node, contractAddress))]. *)
Definition new_addr_call (c : ENSContracts) (node : string)
           (coinType : option JsNumber) (target : string) : ContractCall :=
  match coinType with
  | Some coin =>
      if truthy_number coin then setAddr_coin_call c node coin target
      else setAddr_call c node target
  | None => setAddr_call c node target
  end.

Definition setName_call (c : ENSContracts) (reversedNode normalizedName : string)
  : ContractCall :=
  {| call_address := Some (PUBLIC_RESOLVER c); call_abi := publicResolverABI;
     functionName := "setName"; args := [VString reversedNode; VString normalizedName] |}.

(** [ReverseRegistrar.setNameForAddr(addr, owner, resolver, name)]. *)
Definition setNameForAddr4_call (c : ENSContracts) (target : string) (owner : Value)
           (normalizedName : string) : ContractCall :=
  {| call_address := Some (REVERSE_REGISTRAR c); call_abi := reverseRegistrarABI;
     functionName := "setNameForAddr";
     args := [VString target; owner; VString (PUBLIC_RESOLVER c); VString normalizedName] |}.

(** [ReverseRegistrar.setNameForAddr(addr, name)]. *)
Definition setNameForAddr2_call (c : ENSContracts) (target normalizedName : string)
  : ContractCall :=
  {| call_address := Some (REVERSE_REGISTRAR c); call_abi := reverseRegistrarABI;
     functionName := "setNameForAddr";
     args := [VString target; VString normalizedName] |}.

Definition unsupported_contract_type : Exn :=
  Error "Only Ownable, ERC173 and ReverseClaimer contracts can be named.".

Definition default_opType : string := "enscribe-nameexisting".

Section Telemetry.
Context {World : Type} (E : Env World).

(** [await logMetric(correlationId, Date.now(), walletClient.chain?.id!,
    contractAddress, walletClient.account?.address!, normalizedName, step,
    txn, contractType, opType)]. *)
Definition report (correlationId : option string) (wc : WalletClient)
           (contractAddress normalizedName step txn contractType opType : string)
  : Async World unit :=
  let* now := Date_now E in
  Utils.logMetric E correlationId now (chain_id wc) contractAddress
                  (account_address wc) normalizedName step txn contractType opType.

(** [if (enableMetrics) { await logMetric(...) }]. *)
Definition report_if (enabled : bool) (correlationId : option string)
           (wc : WalletClient)
           (contractAddress normalizedName step txn contractType opType : string)
  : Async World unit :=
  if enabled
  then report correlationId wc contractAddress normalizedName step txn contractType opType
  else ret tt.
End Telemetry.

(* ================================================================== *)
(** ** L1Naming.ts *)
(* ================================================================== *)

Module L1Naming.
Section WithEnv.
Context {World : Type} (E : Env World).

Definition createSubname (options : StepOptions)
  : Async World CreateSubnameResult :=
  let normalizedName := name options in
  let walletClient := walletClient options in
  let contracts := contracts options in
  let opType := default default_opType (opType options) in
  let enableMetrics := default false (enableMetrics options) in
  let* parsed := lift (Utils.parseNormalizedName normalizedName) in
  let parentNode := namehash E (Utils.parent parsed) in
  let labelHash := labelhash E (Utils.label parsed) in
  let fullNameNode := namehash E normalizedName in
  let* nameExists :=
    readContract E walletClient (recordExists_call contracts fullNameNode) in
  if truthy nameExists
  then ret {| created := false; cs_transactionHash := None |}
  else
    let* isWrapped :=
      readContract E walletClient (isWrapped_call contracts parentNode) in
    let* txn :=
      if truthy isWrapped
      then
        let* txn :=
          writeContract E walletClient
            (wrapper_setSubnodeRecord_call contracts parentNode
               (Utils.label parsed)
               (of_option_string (account_address walletClient))
               (VString (PUBLIC_RESOLVER contracts))) in
        waitForTransactionReceipt E walletClient txn ;;
        report_if E enableMetrics (correlationId options) walletClient
                  (contractAddress options) normalizedName
                  "subname::setSubnodeRecord" txn
                  (ContractType_string (contractType options)) opType ;;
        ret txn
      else
        let* txn :=
          writeContract E walletClient
            (registry_setSubnodeRecord_call contracts parentNode labelHash
               (of_option_string (account_address walletClient))
               (VString (PUBLIC_RESOLVER contracts))) in
        waitForTransactionReceipt E walletClient txn ;;
        report_if E enableMetrics (correlationId options) walletClient
                  (contractAddress options) normalizedName
                  "subname::setSubnodeRecord" txn
                  (ContractType_string (contractType options)) opType ;;
        ret txn in
    ret {| created := true; cs_transactionHash := Some txn |}.

Definition setForwardResolution (options : StepOptions)
  : Async World SetForwardResolutionResult :=
  let normalizedName := name options in
  let contractAddress := contractAddress options in
  let walletClient := walletClient options in
  let contracts := contracts options in
  let opType := default default_opType (opType options) in
  let enableMetrics := default false (enableMetrics options) in
  let fullNameNode := namehash E normalizedName in
  let* currentAddr :=
    readContract E walletClient
      (current_addr_call contracts fullNameNode (coinType options)) in
  let* lowered := value_toLowerCase "currentAddr" currentAddr in
  if String.eqb lowered (toLowerCase contractAddress)
  then ret {| fr_set := false; fr_transactionHash := None |}
  else
    let* txn :=
      writeContract E walletClient
        (new_addr_call contracts fullNameNode (coinType options) contractAddress) in
    waitForTransactionReceipt E walletClient txn ;;
    report_if E enableMetrics (correlationId options) walletClient
              contractAddress normalizedName "fwdres::setAddr" txn
              (ContractType_string (contractType options)) opType ;;
    ret {| fr_set := true; fr_transactionHash := Some txn |}.

Definition not_owner : SetReverseResolutionResult :=
  {| rr_set := false; rr_transactionHash := None; rr_reason := Some "not_owner" |}.

Definition setReverseResolution (options : StepOptions)
  : Async World SetReverseResolutionResult :=
  let normalizedName := name options in
  let contractAddress := contractAddress options in
  let walletClient := walletClient options in
  let contracts := contracts options in
  let opType := default default_opType (opType options) in
  let enableMetrics := default false (enableMetrics options) in
  let* isOwner :=
    Utils.isContractOwner E contractAddress walletClient (ENS_REGISTRY contracts) in
  if negb isOwner then ret not_owner
  else
    let* txn :=
      match contractType options with
      | ReverseClaimer =>
          let reversedNode := reverse_node E contractAddress in
          let* txn :=
            writeContract E walletClient
              (setName_call contracts reversedNode normalizedName) in
          waitForTransactionReceipt E walletClient txn ;;
          report_if E enableMetrics (correlationId options) walletClient
                    contractAddress normalizedName "revres::setName" txn
                    "ReverseClaimer" opType ;;
          ret txn
      | Ownable =>
          let* txn :=
            writeContract E walletClient
              (setNameForAddr4_call contracts contractAddress
                 (of_option_string (account_address walletClient))
                 normalizedName) in
          waitForTransactionReceipt E walletClient txn ;;
          report_if E enableMetrics (correlationId options) walletClient
                    contractAddress normalizedName "revres::setNameForAddr" txn
                    "Ownable" opType ;;
          ret txn
      | Unknown => throw unsupported_contract_type
      end in
    ret {| rr_set := true; rr_transactionHash := Some txn; rr_reason := None |}.
End WithEnv.
End L1Naming.

(* ================================================================== *)
(** ** L2Naming.ts *)
(* ================================================================== *)

Module L2Naming.
Section WithEnv.
Context {World : Type} (E : Env World).

Definition createSubname (options : StepOptions)
  : Async World CreateSubnameResult :=
  let normalizedName := name options in
  let walletClient := walletClient options in
  let contracts := contracts options in
  let opType := default default_opType (opType options) in
  let enableMetrics := default false (enableMetrics options) in
  let* parsed := lift (Utils.parseNormalizedName normalizedName) in
  let parentNode := namehash E (Utils.parent parsed) in
  let labelHash := labelhash E (Utils.label parsed) in
  let fullNameNode := namehash E normalizedName in
  let* nameExists :=
    readContract E walletClient (recordExists_call contracts fullNameNode) in
  if truthy nameExists
  then ret {| created := false; cs_transactionHash := None |}
  else
    (* get the resolver for the parent node *)
    let* resolver :=
      readContract E walletClient (resolver_call contracts parentNode) in
    let* txn :=
      writeContract E walletClient
        (registry_setSubnodeRecord_call contracts parentNode labelHash
           (of_option_string (account_address walletClient)) resolver) in
    waitForTransactionReceipt E walletClient txn ;;
    report_if E enableMetrics (correlationId options) walletClient
              (contractAddress options) normalizedName
              "subname::setSubnodeRecord" txn
              (ContractType_string (contractType options)) opType ;;
    ret {| created := true; cs_transactionHash := Some txn |}.

Definition setForwardResolution (options : StepOptions)
  : Async World SetForwardResolutionResult :=
  let normalizedName := name options in
  let contractAddress := contractAddress options in
  let walletClient := walletClient options in
  let contracts := contracts options in
  let opType := default default_opType (opType options) in
  let enableMetrics := default false (enableMetrics options) in
  let fullNameNode := namehash E normalizedName in
  let* currentAddr :=
    readContract E walletClient
      (current_addr_call contracts fullNameNode (coinType options)) in
  let* lowered := value_toLowerCase "currentAddr" currentAddr in
  if String.eqb lowered (toLowerCase contractAddress)
  then ret {| fr_set := false; fr_transactionHash := None |}
  else
    let* txn :=
      writeContract E walletClient
        (new_addr_call contracts fullNameNode (coinType options) contractAddress) in
    waitForTransactionReceipt E walletClient txn ;;
    report_if E enableMetrics (correlationId options) walletClient
              contractAddress normalizedName "fwdres::setAddr" txn
              (ContractType_string (contractType options)) opType ;;
    ret {| fr_set := true; fr_transactionHash := Some txn |}.

Definition not_owner : SetReverseResolutionResult :=
  {| rr_set := false; rr_transactionHash := None; rr_reason := Some "not_owner" |}.

Definition setReverseResolution (options : StepOptions)
  : Async World SetReverseResolutionResult :=
  let normalizedName := name options in
  let contractAddress := contractAddress options in
  let walletClient := walletClient options in
  let contracts := contracts options in
  let opType := default default_opType (opType options) in
  let enableMetrics := default false (enableMetrics options) in
  let* isOwner :=
    Utils.isContractOwner E contractAddress walletClient (ENS_REGISTRY contracts) in
  if negb isOwner then ret not_owner
  else
    let* txn :=
      match contractType options with
      | Ownable =>
          let* txn :=
            writeContract E walletClient
              (setNameForAddr2_call contracts contractAddress normalizedName) in
          waitForTransactionReceipt E walletClient txn ;;
          report_if E enableMetrics (correlationId options) walletClient
                    contractAddress normalizedName "revres::setNameForAddr" txn
                    "Ownable" opType ;;
          ret txn
      | ReverseClaimer =>
          let reversedNode := reverse_node E contractAddress in
          let* txn :=
            writeContract E walletClient
              (setName_call contracts reversedNode normalizedName) in
          waitForTransactionReceipt E walletClient txn ;;
          report_if E enableMetrics (correlationId options) walletClient
                    contractAddress normalizedName "revres::setName" txn
                    "ReverseClaimer" opType ;;
          ret txn
      | Unknown => throw unsupported_contract_type
      end in
    ret {| rr_set := true; rr_transactionHash := Some txn; rr_reason := None |}.
End WithEnv.
End L2Naming.

(* ================================================================== *)
(** ** naming.ts, the revision that exports the steps itself *)
(* ================================================================== *)

(** [if (r.flag && r.transactionHash) { transactions.k = r.transactionHash }]:
    the hash that is recorded, if any. *)
Definition recorded (flag : bool) (hash : option string) : option string :=
  match hash with
  | Some h => if flag && truthy_string h then Some h else None
  | None => None
  end.

(** Assignment to one key of the sparse [transactions] object; [None]
    leaves the key as it is. *)
Definition set_subname (h : option string) (t : Transactions) : Transactions :=
  match h with
  | Some _ =>
      {| subname := h; forwardResolution := forwardResolution t;
         reverseResolution := reverseResolution t;
         l2ForwardResolution := l2ForwardResolution t;
         l2ReverseResolution := l2ReverseResolution t |}
  | None => t
  end.

Definition set_forwardResolution (h : option string) (t : Transactions) : Transactions :=
  match h with
  | Some _ =>
      {| subname := subname t; forwardResolution := h;
         reverseResolution := reverseResolution t;
         l2ForwardResolution := l2ForwardResolution t;
         l2ReverseResolution := l2ReverseResolution t |}
  | None => t
  end.

Definition set_reverseResolution (h : option string) (t : Transactions) : Transactions :=
  match h with
  | Some _ =>
      {| subname := subname t; forwardResolution := forwardResolution t;
         reverseResolution := h;
         l2ForwardResolution := l2ForwardResolution t;
         l2ReverseResolution := l2ReverseResolution t |}
  | None => t
  end.

Definition set_l2ForwardResolution (h : option string) (t : Transactions) : Transactions :=
  match h with
  | Some _ =>
      {| subname := subname t; forwardResolution := forwardResolution t;
         reverseResolution := reverseResolution t;
         l2ForwardResolution := h;
         l2ReverseResolution := l2ReverseResolution t |}
  | None => t
  end.

Definition set_l2ReverseResolution (h : option string) (t : Transactions) : Transactions :=
  match h with
  | Some _ =>
      {| subname := subname t; forwardResolution := forwardResolution t;
         reverseResolution := reverseResolution t;
         l2ForwardResolution := l2ForwardResolution t;
         l2ReverseResolution := h |}
  | None => t
  end.

Definition explorer_url (wc : WalletClient) (normalizedName : string) : string :=
  "https://app.enscribe.xyz/explore/" ++ string_of_chain_id (chain_id wc)
    ++ "/" ++ normalizedName.

(** [L2ReverseRegistrar.setNameForAddr(addr, name)], through the ABI
    literal. *)
Definition l2_setNameForAddr_call (l2c : ENSContracts) (target normalizedName : string)
  : ContractCall :=
  {| call_address := L2_REVERSE_REGISTRAR l2c; call_abi := setNameForAddrABI;
     functionName := "setNameForAddr";
     args := [VString target; VString normalizedName] |}.

Module NamingStandalone.

Record NameContractOptions : Type := {
  nc_name : string;
  nc_contractAddress : string;
  l1WalletClient : WalletClient;
  l1Contracts : ENSContracts;
  l2WalletClient : option WalletClient;
  l2Contracts : option ENSContracts;
  nc_correlationId : option string;
  nc_opType : option string;
  nc_enableMetrics : option bool
}.

Section WithEnv.
Context {World : Type} (E : Env World).

(** The three probes are, word for word, those of utils.ts. *)
Definition isOwnable := Utils.isOwnable E.
Definition isReverseClaimable := Utils.isReverseClaimable E.
Definition isContractOwner := Utils.isContractOwner E.

Definition detectContractType (contractAddress : string)
           (walletClient : WalletClient) (ensRegistry : string)
  : Async World ContractType :=
  let* claimable := isReverseClaimable contractAddress walletClient ensRegistry in
  if claimable then ret ReverseClaimer
  else
    let* ownable := isOwnable contractAddress walletClient in
    if ownable then ret Ownable
    else ret Unknown.

(** The destructuring default [correlationId = randomUUID()]. *)
Definition correlationId_or_fresh (o : option string) : Async World string :=
  match o with
  | Some c => ret c
  | None => randomUUID E
  end.

Definition with_correlationId (options : StepOptions) (c : string) : StepOptions :=
  {| name := name options; contractAddress := contractAddress options;
     walletClient := walletClient options; contracts := contracts options;
     contractType := contractType options; correlationId := Some c;
     opType := opType options; coinType := coinType options;
     enableMetrics := enableMetrics options |}.

(** After the default of [correlationId], the bodies of the three steps
    are those of L1Naming.ts. *)
Definition createSubname (options : StepOptions)
  : Async World CreateSubnameResult :=
  let* c := correlationId_or_fresh (correlationId options) in
  L1Naming.createSubname E (with_correlationId options c).

Definition setForwardResolution (options : StepOptions)
  : Async World SetForwardResolutionResult :=
  let* c := correlationId_or_fresh (correlationId options) in
  L1Naming.setForwardResolution E (with_correlationId options c).

Definition setReverseResolution (options : StepOptions)
  : Async World SetReverseResolutionResult :=
  let* c := correlationId_or_fresh (correlationId options) in
  L1Naming.setReverseResolution E (with_correlationId options c).

(** The reverse record on the secondary network: whatever is thrown
    inside is swallowed. *)
Definition l2_reverse (l2wc : WalletClient) (l2c : ENSContracts)
           (contractAddress normalizedName : string)
           (correlationId : string) (contractType : ContractType)
           (opType : string) (enableMetrics : bool) (t : Transactions)
  : Async World Transactions :=
  try_catch
    (readContract E l2wc (Utils.owner_call contractAddress) ;;
     let* txn :=
       writeContract E l2wc
         (l2_setNameForAddr_call l2c contractAddress normalizedName) in
     waitForTransactionReceipt E l2wc txn ;;
     report_if E enableMetrics (Some correlationId) l2wc contractAddress
               normalizedName "revres::setNameForAddr" txn
               (ContractType_string contractType) opType ;;
     ret (set_l2ReverseResolution (Some txn) t))
    (fun _ => ret t).

Definition nameContract (options : NameContractOptions)
  : Async World NameContractResult :=
  let normalizedName := nc_name options in
  let contractAddress := nc_contractAddress options in
  let l1WalletClient := l1WalletClient options in
  let l1Contracts := l1Contracts options in
  let* correlationId := correlationId_or_fresh (nc_correlationId options) in
  let opType := default default_opType (nc_opType options) in
  let enableMetrics := default false (nc_enableMetrics options) in
  let transactions := no_transactions in
  let* contractType :=
    detectContractType contractAddress l1WalletClient (ENS_REGISTRY l1Contracts) in
  let step (coin : option JsNumber) : StepOptions :=
    {| name := normalizedName; contractAddress := contractAddress;
       walletClient := l1WalletClient; contracts := l1Contracts;
       contractType := contractType; correlationId := Some correlationId;
       opType := Some opType; coinType := coin;
       enableMetrics := Some enableMetrics |} in
  let* subnameResult := createSubname (step None) in
  let transactions :=
    set_subname (recorded (created subnameResult)
                          (cs_transactionHash subnameResult)) transactions in
  let* forwardResResult := setForwardResolution (step None) in
  let transactions :=
    set_forwardResolution (recorded (fr_set forwardResResult)
                                    (fr_transactionHash forwardResResult))
                          transactions in
  let* reverseResResult := setReverseResolution (step None) in
  let transactions :=
    set_reverseResolution (recorded (rr_set reverseResResult)
                                    (rr_transactionHash reverseResResult))
                          transactions in
  let* transactions :=
    match l2WalletClient options, l2Contracts options with
    | Some l2wc, Some l2c =>
        let* l2ForwardResResult :=
          setForwardResolution (step (Some (Number_of (COIN_TYPE l2c)))) in
        let transactions :=
          set_l2ForwardResolution
            (recorded (fr_set l2ForwardResResult)
                      (fr_transactionHash l2ForwardResResult)) transactions in
        l2_reverse l2wc l2c contractAddress normalizedName correlationId
                   contractType opType enableMetrics transactions
    | _, _ => ret transactions
    end in
  let explorerUrl := explorer_url l1WalletClient normalizedName in
  ret {| success := true; res_name := normalizedName;
         res_contractAddress := contractAddress;
         transactions := transactions;
         res_contractType := contractType;
         explorerUrl := explorerUrl |}.
End WithEnv.
End NamingStandalone.

(* ================================================================== *)
(** ** naming.ts, the current revision *)
(* ================================================================== *)

Module Naming.

Record NameContractOptions : Type := {
  nc_name : string;
  nc_contractAddress : string;
  nc_walletClient : WalletClient;
  l2WalletClient : option WalletClient;
  chainName : string;
  nc_opType : option string;
  nc_enableMetrics : option bool
}.

Section WithEnv.
Context {World : Type} (E : Env World).

Definition nameContract (options : NameContractOptions)
  : Async World NameContractResult :=
  let normalizedName := nc_name options in
  let contractAddress := nc_contractAddress options in
  let walletClient := nc_walletClient options in
  let opType := default default_opType (nc_opType options) in
  let enableMetrics := default false (nc_enableMetrics options) in
  let* correlationId := randomUUID E in
  let transactions := no_transactions in
  let networkInfo := Utils.getNetworkInfo (chainName options) in
  let* contracts := lift (env_getContractAddresses E (Utils.networkName networkInfo)) in
  let* contractType :=
    Utils.detectContractType E contractAddress walletClient (ENS_REGISTRY contracts) in
  let step (coin : option JsNumber) : StepOptions :=
    {| name := normalizedName; contractAddress := contractAddress;
       walletClient := walletClient; contracts := contracts;
       contractType := contractType; correlationId := Some correlationId;
       opType := Some opType; coinType := coin;
       enableMetrics := Some enableMetrics |} in
  let* transactions :=
    if negb (Utils.isL2 networkInfo)
    then
      let* subnameResult := L1Naming.createSubname E (step None) in
      let transactions :=
        set_subname (recorded (created subnameResult)
                              (cs_transactionHash subnameResult)) transactions in
      let* forwardResResult := L1Naming.setForwardResolution E (step None) in
      let transactions :=
        set_forwardResolution (recorded (fr_set forwardResResult)
                                        (fr_transactionHash forwardResResult))
                              transactions in
      let* reverseResResult := L1Naming.setReverseResolution E (step None) in
      ret (set_reverseResolution (recorded (rr_set reverseResResult)
                                           (rr_transactionHash reverseResResult))
                                 transactions)
    else
      let* subnameResult := L2Naming.createSubname E (step None) in
      let transactions :=
        set_subname (recorded (created subnameResult)
                              (cs_transactionHash subnameResult)) transactions in
      let* l2ForwardResResult :=
        L2Naming.setForwardResolution E
          (step (Some (Number_of (COIN_TYPE contracts)))) in
      let transactions :=
        set_forwardResolution (recorded (fr_set l2ForwardResResult)
                                        (fr_transactionHash l2ForwardResResult))
                              transactions in
      let* l2ReverseResResult := L2Naming.setReverseResolution E (step None) in
      ret (set_reverseResolution (recorded (rr_set l2ReverseResResult)
                                           (rr_transactionHash l2ReverseResResult))
                                 transactions) in
  let explorerUrl := explorer_url walletClient normalizedName in
  ret {| success := true; res_name := normalizedName;
         res_contractAddress := contractAddress;
         transactions := transactions;
         res_contractType := contractType;
         explorerUrl := explorerUrl |}.
End WithEnv.
End Naming.

(* ================================================================== *)
(** ** naming.ts, the first revision: one function for the whole protocol *)
(* ================================================================== *)

Module NamingMonolith.

Record NameContractOptions : Type := {
  nc_name : string;
  nc_contractAddress : string;
  l1WalletClient : WalletClient;
  l1Contracts : ENSContracts;
  l2WalletClient : option WalletClient;
  l2Contracts : option ENSContracts;
  nc_correlationId : option string;
  nc_opType : option string
}.

Section WithEnv.
Context {World : Type} (E : Env World).

(** The three probes are those of utils.ts, with console output added. *)
Definition isOwnable := Utils.isOwnable E.
Definition isReverseClaimable := Utils.isReverseClaimable E.
Definition isContractOwner := Utils.isContractOwner E.

Definition detectContractType (contractAddress : string)
           (walletClient : WalletClient) (ensRegistry : string)
  : Async World ContractType :=
  let* claimable := isReverseClaimable contractAddress walletClient ensRegistry in
  if claimable then ret ReverseClaimer
  else
    let* ownable := isOwnable contractAddress walletClient in
    if ownable then ret Ownable
    else ret Unknown.

Definition nameContract (options : NameContractOptions)
  : Async World NameContractResult :=
  let normalizedName := nc_name options in
  let contractAddress := nc_contractAddress options in
  let l1WalletClient := l1WalletClient options in
  let l1Contracts := l1Contracts options in
  let* correlationId :=
    NamingStandalone.correlationId_or_fresh E (nc_correlationId options) in
  let opType := default default_opType (nc_opType options) in
  let* parsed := lift (Utils.parseNormalizedName normalizedName) in
  let parentNode := namehash E (Utils.parent parsed) in
  let labelHash := labelhash E (Utils.label parsed) in
  let fullNameNode := namehash E normalizedName in
  let transactions := no_transactions in
  let* nameExists :=
    readContract E l1WalletClient (recordExists_call l1Contracts fullNameNode) in
  let* contractType :=
    detectContractType contractAddress l1WalletClient (ENS_REGISTRY l1Contracts) in
  let log (wc : WalletClient) (step txn ctype : string) : Async World unit :=
    report E (Some correlationId) wc contractAddress normalizedName step txn
           ctype opType in
  (* Create subname if it doesn't exist *)
  let* transactions :=
    if negb (truthy nameExists)
    then
      let* isWrapped :=
        readContract E l1WalletClient (isWrapped_call l1Contracts parentNode) in
      let* txn :=
        if truthy isWrapped
        then
          let* txn :=
            writeContract E l1WalletClient
              (wrapper_setSubnodeRecord_call l1Contracts parentNode
                 (Utils.label parsed)
                 (of_option_string (account_address l1WalletClient))
                 (VString (PUBLIC_RESOLVER l1Contracts))) in
          waitForTransactionReceipt E l1WalletClient txn ;;
          log l1WalletClient "subname::setSubnodeRecord" txn
              (ContractType_string contractType) ;;
          ret txn
        else
          let* txn :=
            writeContract E l1WalletClient
              (registry_setSubnodeRecord_call l1Contracts parentNode labelHash
                 (of_option_string (account_address l1WalletClient))
                 (VString (PUBLIC_RESOLVER l1Contracts))) in
          waitForTransactionReceipt E l1WalletClient txn ;;
          log l1WalletClient "subname::setSubnodeRecord" txn
              (ContractType_string contractType) ;;
          ret txn in
      ret (set_subname (Some txn) transactions)
    else ret transactions in
  (* Set forward resolution *)
  let* currentAddr :=
    readContract E l1WalletClient (addr_call l1Contracts fullNameNode) in
  let* lowered := value_toLowerCase "currentAddr" currentAddr in
  let* transactions :=
    if negb (String.eqb lowered (toLowerCase contractAddress))
    then
      let* txn :=
        writeContract E l1WalletClient
          (setAddr_call l1Contracts fullNameNode contractAddress) in
      waitForTransactionReceipt E l1WalletClient txn ;;
      log l1WalletClient "fwdres::setAddr" txn (ContractType_string contractType) ;;
      ret (set_forwardResolution (Some txn) transactions)
    else ret transactions in
  (* Set reverse resolution *)
  let* isOwner :=
    isContractOwner contractAddress l1WalletClient (ENS_REGISTRY l1Contracts) in
  let* transactions :=
    if isOwner
    then
      let* txn :=
        match contractType with
        | ReverseClaimer =>
            let reversedNode := reverse_node E contractAddress in
            let* txn :=
              writeContract E l1WalletClient
                (setName_call l1Contracts reversedNode normalizedName) in
            waitForTransactionReceipt E l1WalletClient txn ;;
            log l1WalletClient "revres::setName" txn "ReverseClaimer" ;;
            ret txn
        | Ownable =>
            let* txn :=
              writeContract E l1WalletClient
                (setNameForAddr4_call l1Contracts contractAddress
                   (of_option_string (account_address l1WalletClient))
                   normalizedName) in
            waitForTransactionReceipt E l1WalletClient txn ;;
            log l1WalletClient "revres::setNameForAddr" txn "Ownable" ;;
            ret txn
        | Unknown => throw unsupported_contract_type
        end in
      ret (set_reverseResolution (Some txn) transactions)
    else ret transactions in
  (* Handle L2 if provided *)
  let* transactions :=
    match l2WalletClient options, l2Contracts options with
    | Some l2wc, Some l2c =>
        let coin := Number_of (COIN_TYPE l2c) in
        let* l2CurrentAddr :=
          readContract E l1WalletClient
            (addr_coin_call l1Contracts fullNameNode coin) in
        let* l2lowered := value_toLowerCase "l2CurrentAddr" l2CurrentAddr in
        let* transactions :=
          if negb (String.eqb l2lowered (toLowerCase contractAddress))
          then
            let* txn :=
              writeContract E l1WalletClient
                (setAddr_coin_call l1Contracts fullNameNode coin contractAddress) in
            waitForTransactionReceipt E l1WalletClient txn ;;
            log l1WalletClient "fwdres::setAddr" txn
                (ContractType_string contractType) ;;
            ret (set_l2ForwardResolution (Some txn) transactions)
          else ret transactions in
        NamingStandalone.l2_reverse E l2wc l2c contractAddress normalizedName
          correlationId contractType opType true transactions
    | _, _ => ret transactions
    end in
  let explorerUrl := explorer_url l1WalletClient normalizedName in
  ret {| success := true; res_name := normalizedName;
         res_contractAddress := contractAddress;
         transactions := transactions;
         res_contractType := contractType;
         explorerUrl := explorerUrl |}.
End WithEnv.
End NamingMonolith.

(* ================================================================== *)
(** ** A small chain, to run the library on *)
(* ================================================================== *)

(** An executable environment: a registry whose nodes are the names
    themselves ([namehash] is the identity and the node of a child is
    [label.parent]), a name wrapper, a resolver with one address per node
    and coin type, Ownable contracts, and a telemetry endpoint that is
    either up or down. *)
Module Toy.

Definition zero_address : string := "0x0000000000000000000000000000000000000000".

Record World : Type := {
  registry : list (string * (string * string));   (* node, (owner, resolver) *)
  wrapped : list string;                          (* the wrapped nodes *)
  ownable : list (string * string);               (* contract, its owner() *)
  addrs : list (string * Z * string);             (* node, coin type, address *)
  names : list (string * string);                 (* reverse node, name *)
  telemetry_up : bool;
  mined : nat                                     (* transactions so far *)
}.

Fixpoint assoc {A : Type} (k : string) (l : list (string * A)) : option A :=
  match l with
  | [] => None
  | (k', a) :: r => if String.eqb k k' then Some a else assoc k r
  end.

Fixpoint assoc2 (k : string) (c : Z) (l : list (string * Z * string)) : option string :=
  match l with
  | [] => None
  | (k', c', a) :: r => if String.eqb k k' && (c =? c') then Some a else assoc2 k c r
  end.

Definition subnode (parentNode labelHash : string) : string :=
  if String.eqb parentNode "" then labelHash else labelHash ++ "." ++ parentNode.

Definition is_lower_hex (c : ascii) : bool :=
  let n := nat_of_ascii c in
  ((48 <=? n) && (n <=? 57) || (97 <=? n) && (n <=? 102))%nat.

Fixpoint all_lower_hex (s : string) : bool :=
  match s with
  | EmptyString => true
  | String c r => is_lower_hex c && all_lower_hex r
  end.

(** viem's [isAddress] on the spellings without capitals: ["0x"] and forty
    hexadecimal digits.  A spelling with capitals is an address for viem
    only when it is the EIP-55 checksum spelling, which takes Keccak-256;
    this client refuses them all, so it accepts nothing that viem
    refuses. *)
Definition isAddress (s : string) : bool :=
  match s with
  | String "0" (String "x" r) => (String.length r =? 40)%nat && all_lower_hex r
  | _ => false
  end.

Definition read (wc : WalletClient) (c : ContractCall) (w : World) : Outcome Value :=
  match call_abi c, functionName c, args c with
  | ownableContractABI, "owner", [] =>
      match call_address c with
      | Some a =>
          match assoc a (ownable w) with
          | Some o => Ok (VString o)
          | None => Throw (Error "execution reverted")
          end
      | None => Throw (Error "invalid address")
      end
  | ensRegistryABI, "owner", [VString node] =>
      Ok (VString (match assoc node (registry w) with
                   | Some (o, _) => o
                   | None => zero_address
                   end))
  | ensRegistryABI, "resolver", [VString node] =>
      Ok (VString (match assoc node (registry w) with
                   | Some (_, r) => r
                   | None => zero_address
                   end))
  | ensRegistryABI, "recordExists", [VString node] =>
      Ok (VBool (match assoc node (registry w) with
                 | Some (o, _) => negb (String.eqb o zero_address)
                 | None => false
                 end))
  | nameWrapperABI, "isWrapped", [VString node] =>
      Ok (VBool (existsb (String.eqb node) (wrapped w)))
  | publicResolverABI, "addr", [VString node] =>
      Ok (VString (default zero_address (assoc2 node 60 (addrs w))))
  | publicResolverABI, "addr", [VString node; VNumber (JNum coin)] =>
      Ok (VString (default zero_address (assoc2 node coin (addrs w))))
  | _, _, _ => Throw (Error "unknown function")
  end.

Definition tx_hash (n : nat) : string :=
  "0xtx" ++ NilZero.string_of_uint (Nat.to_uint n).

Definition set_registry (node owner resolver : string) (w : World) : World :=
  {| registry := (node, (owner, resolver)) :: registry w;
     wrapped := wrapped w; ownable := ownable w; addrs := addrs w;
     names := names w; telemetry_up := telemetry_up w; mined := S (mined w) |}.

Definition set_addr (node : string) (coin : Z) (a : string) (w : World) : World :=
  {| registry := registry w; wrapped := wrapped w; ownable := ownable w;
     addrs := (node, coin, a) :: addrs w;
     names := names w; telemetry_up := telemetry_up w; mined := S (mined w) |}.

Definition set_name (node n : string) (w : World) : World :=
  {| registry := registry w; wrapped := wrapped w; ownable := ownable w;
     addrs := addrs w; names := (node, n) :: names w;
     telemetry_up := telemetry_up w; mined := S (mined w) |}.

Definition reverse_of (a : string) : string :=
  toLowerCase (slice 2 a) ++ ".addr.reverse".

Definition write (wc : WalletClient) (c : ContractCall) (w : World)
  : Outcome string * World :=
  let done (w' : World) := (Ok (tx_hash (mined w)), w') in
  let reverted := (Throw (Error "execution reverted"), w) in
  let invalid := (Throw (Error "Address is invalid"), w) in
  match call_abi c, functionName c, args c with
  | ensRegistryABI, "setSubnodeRecord",
    [VString parentNode; VString labelHash; VString owner; VString resolver;
     VNumber (JNum 0)] =>
      done (set_registry (subnode parentNode labelHash) owner resolver w)
  | nameWrapperABI, "setSubnodeRecord",
    [VString parentNode; VString label; VString owner; VString resolver;
     VNumber (JNum 0); VNumber (JNum 0); VNumber (JNum 0)] =>
      done (set_registry (subnode parentNode label) owner resolver w)
  | publicResolverABI, "setAddr", [VString node; VString a] =>
      if isAddress a then done (set_addr node 60 a w) else invalid
  | publicResolverABI, "setAddr", [VString node; VNumber (JNum coin); VString a] =>
      if isAddress a then done (set_addr node coin a w) else invalid
  | publicResolverABI, "setName", [VString node; VString n] =>
      done (set_name node n w)
  | reverseRegistrarABI, "setNameForAddr", [VString a; VString n] =>
      done (set_name (reverse_of a) n w)
  | reverseRegistrarABI, "setNameForAddr",
    [VString a; VString owner; VString resolver; VString n] =>
      done (set_name (reverse_of a) n w)
  | setNameForAddrABI, "setNameForAddr", [VString a; VString n] =>
      done (set_name (reverse_of a) n w)
  | _, _, _ => reverted
  end.

Definition sepolia : ENSContracts :=
  {| ENS_REGISTRY := "0x00000000000C2E074eC69A0dFb2997BA6C7d2e1e";
     PUBLIC_RESOLVER := "0x8FADE66B79cC9f707aB26799354482EB93a5B7dD";
     NAME_WRAPPER := "0x0635513f179D50A207757E05759CbD106d7dFcE8";
     REVERSE_REGISTRAR := "0xA0a1AbcDAe1a2a4A2EF8e9113Ff0e02DD81DC0C6";
     L2_REVERSE_REGISTRAR := None;
     COIN_TYPE := Some 60 |}.

Definition base_sepolia : ENSContracts :=
  {| ENS_REGISTRY := "0x1493b2567056c2181630115660963E13A8E32735";
     PUBLIC_RESOLVER := "0x6533C94869D28fAA8dF77cc63f9e2b2D6Cf77eBA";
     NAME_WRAPPER := "0x0000000000000000000000000000000000000000";
     REVERSE_REGISTRAR := "0x00000BeEF055f7934784D6d81b6BC86665630dbA";
     L2_REVERSE_REGISTRAR := Some "0x00000BeEF055f7934784D6d81b6BC86665630dbA";
     COIN_TYPE := Some 2147568180 |}.

Definition getContractAddresses (networkName : string) : Outcome ENSContracts :=
  if String.eqb networkName "sepolia" then Ok sepolia
  else if String.eqb networkName "base-sepolia" then Ok base_sepolia
  else Throw (Error "Unsupported network").

Definition env : Env World :=
  {| env_isAddress := isAddress;
     env_namehash := fun n => n;
     env_toBytes := list_byte_of_string;
     env_keccak256 := string_of_list_byte;
     env_readContract := read;
     env_writeContract := write;
     env_waitForTransactionReceipt := fun _ _ w => (Ok tt, w);
     env_fetch := fun _ _ w =>
                    if telemetry_up w then (Ok tt, w)
                    else (Throw (TypeError "fetch failed"), w);
     env_Date_now := fun _ => 1700000000000;
     env_randomUUID := fun w => ("00000000-0000-4000-8000-000000000000", w);
     env_getContractAddresses := getContractAddresses |}.

(** The same chain behind a telemetry endpoint that is always down. *)
Definition env_down : Env World :=
  {| env_isAddress := isAddress;
     env_namehash := fun n => n;
     env_toBytes := list_byte_of_string;
     env_keccak256 := string_of_list_byte;
     env_readContract := read;
     env_writeContract := write;
     env_waitForTransactionReceipt := fun _ _ w => (Ok tt, w);
     env_fetch := fun _ _ w => (Throw (TypeError "fetch failed"), w);
     env_Date_now := fun _ => 1700000000000;
     env_randomUUID := fun w => ("00000000-0000-4000-8000-000000000000", w);
     env_getContractAddresses := getContractAddresses |}.

(** Sample data. *)
Definition alice : string := "0xa11ce00000000000000000000000000000000001".
Definition bob : string := "0xb0b0000000000000000000000000000000000002".
Definition target : string := "0xc0ffee0000000000000000000000000000000003".

Definition client (who : string) : WalletClient :=
  {| account := Some {| address := who |};
     chain := Some {| id := 11155111; chain_key := "sepolia" |} |}.

Definition empty : World :=
  {| registry := []; wrapped := []; ownable := []; addrs := []; names := [];
     telemetry_up := true; mined := 0 |}.

Definition start (w : World) : St World := (w, []).

Definition options (n target : string) (wc : WalletClient) (t : ContractType)
           (coin : option JsNumber) (metrics : bool) : StepOptions :=
  {| name := n; contractAddress := target; walletClient := wc;
     contracts := sepolia; contractType := t; correlationId := Some "c-1";
     opType := None; coinType := coin; enableMetrics := Some metrics |}.
End Toy.

(* ================================================================== *)
(** ** Vocabulary of the properties *)
(* ================================================================== *)

(** The string contains a dot. *)
Fixpoint has_dot (s : string) : bool :=
  match s with
  | EmptyString => false
  | String c r => Ascii.eqb c "."%char || has_dot r
  end.

(** What stands before the first dot. *)
Fixpoint before_first_dot (s : string) : string :=
  match s with
  | EmptyString => EmptyString
  | String c r => if Ascii.eqb c "."%char then EmptyString else String c (before_first_dot r)
  end.

(** What stands after the first dot. *)
Fixpoint after_first_dot (s : string) : string :=
  match s with
  | EmptyString => EmptyString
  | String c r => if Ascii.eqb c "."%char then r else after_first_dot r
  end.

Definition invalid_name : Exn :=
  Error "Invalid normalized name: must have at least one dot".

Section Answers.
Context {World : Type} (E : Env World).

(** The address passes the guard of the probes. *)
Definition address_accepted (a : string) : bool :=
  negb (Utils.address_rejected E a).

(** The Ownable probe succeeds in world [w]: the [owner()] call answers. *)
Definition ownable_probe (a : string) (wc : WalletClient) (w : World) : bool :=
  address_accepted a &&
  match env_readContract E wc (Utils.owner_call a) w with
  | Ok _ => true
  | Throw _ => false
  end.

(** The registry names the caller's account as owner of the reverse node
    of [a]. *)
Definition registry_names_caller (a : string) (wc : WalletClient) (reg : string)
           (w : World) : bool :=
  match env_readContract E wc (Utils.registry_owner_call reg (reverse_node E a)) w with
  | Ok (VString r) => equals_account (toLowerCase r) wc
  | _ => false
  end.

(** The ReverseClaimer probe succeeds in world [w]. *)
Definition reverse_probe (a : string) (wc : WalletClient) (reg : string)
           (w : World) : bool :=
  address_accepted a && registry_names_caller a wc reg w.

(** The contract's [owner()] names the caller's account. *)
Definition owner_names_caller (a : string) (wc : WalletClient) (w : World) : bool :=
  match env_readContract E wc (Utils.owner_call a) w with
  | Ok (VString o) => equals_account (toLowerCase o) wc
  | _ => false
  end.

(** The reads a probe issues. *)
Definition probe_reads (a : string) (wc : WalletClient) (c : ContractCall)
  : list Event :=
  if Utils.address_rejected E a then [] else [EvRead wc c].

(** The environment [E] with another telemetry endpoint. *)
Definition with_fetch (f : string -> Metric -> World -> Outcome unit * World)
  : Env World :=
  {| env_isAddress := env_isAddress E;
     env_namehash := env_namehash E;
     env_toBytes := env_toBytes E;
     env_keccak256 := env_keccak256 E;
     env_readContract := env_readContract E;
     env_writeContract := env_writeContract E;
     env_waitForTransactionReceipt := env_waitForTransactionReceipt E;
     env_fetch := f;
     env_Date_now := env_Date_now E;
     env_randomUUID := env_randomUUID E;
     env_getContractAddresses := env_getContractAddresses E |}.

(** Every telemetry post fails. *)
Definition telemetry_down : Prop :=
  forall (url : string) (m : Metric) (w : World),
    exists (e : Exn) (w' : World), env_fetch E url m w = (Throw e, w').
End Answers.

Section OwnerCheck.
Context {World : Type} (E : Env World).

(** The answer of the ownership check in world [w]. *)
Definition owner_check (a : string) (wc : WalletClient) (reg : string) (w : World)
  : Outcome bool :=
  if Utils.address_rejected E a then Ok false
  else
    match env_readContract E wc (Utils.owner_call a) w with
    | Ok (VString o) => Ok (equals_account (toLowerCase o) wc)
    | _ =>
        match env_readContract E wc
                (Utils.registry_owner_call reg (reverse_node E a)) w with
        | Ok (VString r) => Ok (equals_account (toLowerCase r) wc)
        | Ok v => Throw (toLowerCase_error "resolvedAddr" v)
        | Throw e => Throw e
        end
    end.

(** The reads of the ownership check in world [w]. *)
Definition owner_check_reads (a : string) (wc : WalletClient) (reg : string)
           (w : World) : list Event :=
  if Utils.address_rejected E a then []
  else
    match env_readContract E wc (Utils.owner_call a) w with
    | Ok (VString o) => [EvRead wc (Utils.owner_call a)]
    | _ => [EvRead wc (Utils.owner_call a);
            EvRead wc (Utils.registry_owner_call reg (reverse_node E a))]
    end.
End OwnerCheck.

(** Worlds and requests used in the examples. *)
Module Scenario.
Import Toy.

(** [target] answers [owner()] with alice, and alice also owns the
    reverse node of [target] in the registry. *)
Definition both_probes : World :=
  {| registry := [(reverse_of target, (alice, zero_address))];
     wrapped := [];
     ownable := [(target, alice)];
     addrs := []; names := []; telemetry_up := true; mined := 0 |}.

(** [target] is owned by bob, who also owns its reverse node. *)
Definition owned_by_bob : World :=
  {| registry := [(reverse_of target, (bob, zero_address))];
     wrapped := [];
     ownable := [(target, bob)];
     addrs := []; names := []; telemetry_up := true; mined := 0 |}.

(** [target] answers [owner()] with alice: nothing else is on chain. *)
Definition owned_by_alice : World :=
  {| registry := []; wrapped := [];
     ownable := [(target, alice)];
     addrs := []; names := []; telemetry_up := true; mined := 0 |}.

Definition custom_resolver : string := "0x4976fb03C32e5B8cfe2b6cCB31c09Ba78EBaBa41".

(** The parent ["bar.eth"] is wrapped and has a resolver of its own. *)
Definition wrapped_parent : World :=
  {| registry := [("bar.eth", (NAME_WRAPPER sepolia, custom_resolver))];
     wrapped := ["bar.eth"];
     ownable := [(target, alice)];
     addrs := []; names := []; telemetry_up := true; mined := 0 |}.

(** The same chain, with the telemetry endpoint down. *)
Definition wrapped_parent_telemetry_down : World :=
  {| registry := [("bar.eth", (NAME_WRAPPER sepolia, custom_resolver))];
     wrapped := ["bar.eth"];
     ownable := [(target, alice)];
     addrs := []; names := []; telemetry_up := false; mined := 0 |}.

(** The default address record of ["foo.bar.eth"] is [target]; its record
    for coin type 0 is not set. *)
Definition default_record_set : World :=
  {| registry := [("foo.bar.eth", (alice, PUBLIC_RESOLVER sepolia))];
     wrapped := []; ownable := [(target, alice)];
     addrs := [("foo.bar.eth", 60, target)];
     names := []; telemetry_up := true; mined := 0 |}.

(** The record of ["foo.bar.eth"] for coin type 0 is [target]; its default
    address record is not set. *)
Definition coin0_record_set : World :=
  {| registry := [("foo.bar.eth", (alice, PUBLIC_RESOLVER sepolia))];
     wrapped := []; ownable := [(target, alice)];
     addrs := [("foo.bar.eth", 0, target)];
     names := []; telemetry_up := true; mined := 0 |}.

(** A request to name [a] as [n], on the primary network only. *)
Definition request (n a : string) : NamingStandalone.NameContractOptions :=
  {| NamingStandalone.nc_name := n;
     NamingStandalone.nc_contractAddress := a;
     NamingStandalone.l1WalletClient := client alice;
     NamingStandalone.l1Contracts := sepolia;
     NamingStandalone.l2WalletClient := None;
     NamingStandalone.l2Contracts := None;
     NamingStandalone.nc_correlationId := Some "c-1";
     NamingStandalone.nc_opType := None;
     NamingStandalone.nc_enableMetrics := None |}.

(** The same request, to the current revision. *)
Definition current_request (n a : string) : Naming.NameContractOptions :=
  {| Naming.nc_name := n;
     Naming.nc_contractAddress := a;
     Naming.nc_walletClient := client alice;
     Naming.l2WalletClient := None;
     Naming.chainName := "sepolia";
     Naming.nc_opType := None;
     Naming.nc_enableMetrics := None |}.

(** The name under which [target] would own its reverse node. *)
Definition reverse_name : string := reverse_of target.
End Scenario.

Section SubnameVocabulary.
Context {World : Type} (E : Env World).

(** The child record that [createSubname] is to create when the record of
    the name does not exist: through the name wrapper when the parent node
    is wrapped, directly on the registry otherwise; in both cases owned by
    the caller's account, resolved by the configured public resolver, with
    zero TTL (and zero fuses and expiry on the wrapper). *)
Definition specified_child_write (options : StepOptions) (isWrapped : bool) : Event :=
  let parsed_label := before_first_dot (name options) in
  let parentNode := namehash E (after_first_dot (name options)) in
  let owner := of_option_string (account_address (walletClient options)) in
  let resolver := VString (PUBLIC_RESOLVER (contracts options)) in
  EvWrite (walletClient options)
    (if isWrapped
     then {| call_address := Some (NAME_WRAPPER (contracts options));
             call_abi := nameWrapperABI;
             functionName := "setSubnodeRecord";
             args := [VString parentNode; VString parsed_label; owner; resolver;
                      VNumber (JNum 0); VNumber (JNum 0); VNumber (JNum 0)] |}
     else {| call_address := Some (ENS_REGISTRY (contracts options));
             call_abi := ensRegistryABI;
             functionName := "setSubnodeRecord";
             args := [VString parentNode; VString (labelhash E parsed_label); owner;
                      resolver; VNumber (JNum 0)] |}).

(** An implementation of [createSubname] creates the child as specified,
    for a request whose record does not exist in world [w]. *)
Definition creates_child_as_specified
           (createSubname : StepOptions -> Async World CreateSubnameResult)
           (options : StepOptions) (w : World) : Prop :=
  forall b : bool,
    env_readContract E (walletClient options)
      (isWrapped_call (contracts options)
         (namehash E (after_first_dot (name options)))) w = Ok (VBool b) ->
    writes (final_trace (createSubname options (w, [])))
    = [specified_child_write options b].

(** The record of the name does not exist in world [w]. *)
Definition record_absent (options : StepOptions) (w : World) : Prop :=
  env_readContract E (walletClient options)
    (recordExists_call (contracts options) (namehash E (name options))) w
  = Ok (VBool false).

(** The record of the name exists in world [w]. *)
Definition record_present (options : StepOptions) (w : World) : Prop :=
  env_readContract E (walletClient options)
    (recordExists_call (contracts options) (namehash E (name options))) w
  = Ok (VBool true).

(** The resolver stores, for the name and the coin type of the request, an
    address equal to the target up to case. *)
Definition forward_record_is_target (options : StepOptions) (w : World) : Prop :=
  exists cur : string,
    env_readContract E (walletClient options)
      (current_addr_call (contracts options) (namehash E (name options))
         (coinType options)) w = Ok (VString cur)
    /\ toLowerCase cur = toLowerCase (contractAddress options).

(** The resolver stores another address there. *)
Definition forward_record_differs (options : StepOptions) (w : World) : Prop :=
  exists cur : string,
    env_readContract E (walletClient options)
      (current_addr_call (contracts options) (namehash E (name options))
         (coinType options)) w = Ok (VString cur)
    /\ toLowerCase cur <> toLowerCase (contractAddress options).

(** The read that [setForwardResolution] starts with. *)
Definition forward_read (options : StepOptions) : Event :=
  EvRead (walletClient options)
    (current_addr_call (contracts options) (namehash E (name options))
       (coinType options)).

(** The write that [setForwardResolution] issues when it does not skip. *)
Definition forward_write (options : StepOptions) : Event :=
  EvWrite (walletClient options)
    (new_addr_call (contracts options) (namehash E (name options))
       (coinType options) (contractAddress options)).
End SubnameVocabulary.

Definition subname_skipped : CreateSubnameResult :=
  {| created := false; cs_transactionHash := None |}.

Definition forward_skipped : SetForwardResolutionResult :=
  {| fr_set := false; fr_transactionHash := None |}.

(** The options that [nameContract] of the revision with exported steps
    hands to its steps on the primary network. *)
Definition standalone_step (request : NamingStandalone.NameContractOptions)
           (cid : string) (ct : ContractType) : StepOptions :=
  {| name := NamingStandalone.nc_name request;
     contractAddress := NamingStandalone.nc_contractAddress request;
     walletClient := NamingStandalone.l1WalletClient request;
     contracts := NamingStandalone.l1Contracts request;
     contractType := ct;
     correlationId := Some cid;
     opType := Some (default default_opType (NamingStandalone.nc_opType request));
     coinType := None;
     enableMetrics :=
       Some (default false (NamingStandalone.nc_enableMetrics request)) |}.

(** The options that [nameContract] of the current revision hands to its
    steps. *)
Definition current_step (request : Naming.NameContractOptions)
           (cid : string) (c : ENSContracts) (ct : ContractType)
           (coin : option JsNumber) : StepOptions :=
  {| name := Naming.nc_name request;
     contractAddress := Naming.nc_contractAddress request;
     walletClient := Naming.nc_walletClient request;
     contracts := c;
     contractType := ct;
     correlationId := Some cid;
     opType := Some (default default_opType (Naming.nc_opType request));
     coinType := coin;
     enableMetrics := Some (default false (Naming.nc_enableMetrics request)) |}.

(** The coin type that the current revision passes to forward resolution:
    none on a primary network, the configured one on a secondary network. *)
Definition current_coin (l2 : bool) (c : ENSContracts) : option JsNumber :=
  if l2 then Some (Number_of (COIN_TYPE c)) else None.

Section CurrentSteps.
Context {World : Type} (E : Env World).

(** The steps that the current revision runs, by kind of network. *)
Definition current_createSubname (l2 : bool) :=
  if l2 then L2Naming.createSubname E else L1Naming.createSubname E.

Definition current_setForwardResolution (l2 : bool) :=
  if l2 then L2Naming.setForwardResolution E else L1Naming.setForwardResolution E.
End CurrentSteps.

(* ------------------------------------------------------------------ *)
(** *** Further vocabulary: strings, networks, footprints *)
(* ------------------------------------------------------------------ *)

(** Every character of the string is white space. *)
Fixpoint all_whitespace (s : string) : bool :=
  match s with
  | EmptyString => true
  | String c r => isWhiteSpace c && all_whitespace r
  end.

(** The chain names that [getNetworkInfo] takes for secondary networks. *)
Definition l2_chain_names : list string :=
  ["linea-sepolia"; "linea"; "optimism-sepolia"; "optimism";
   "arbitrum-sepolia"; "arbitrum"; "scroll-sepolia"; "scroll";
   "base-sepolia"; "base"].

(** The telemetry posts of a trace, in order. *)
Definition fetches (tr : list Event) : list Event :=
  filter (fun e => match e with EvFetch _ _ => true | _ => false end) tr.

(** The events a naming step may produce for a request: chain calls through
    the wallet client of the request, and, when telemetry is enabled, posts
    to the metrics endpoint. *)
Definition step_event (options : StepOptions) (e : Event) : Prop :=
  match e with
  | EvRead wc _ | EvWrite wc _ | EvWait wc _ => wc = walletClient options
  | EvFetch url _ =>
      url = Utils.METRICS_URL /\ default false (enableMetrics options) = true
  end.

(** A probe reads through the given client and does nothing else. *)
Definition probe_event (wc : WalletClient) (e : Event) : Prop :=
  match e with
  | EvRead wc' _ => wc' = wc
  | _ => False
  end.

Section Footprint.
Context {World : Type}.

(** Whatever the state it starts from and however it ends, the computation
    only appends to the trace events that satisfy [P], at most [n] of them
    writes. *)
Definition footprint {A : Type} (P : Event -> Prop) (n : nat)
           (m : Async World A) : Prop :=
  forall s : St World,
    exists evs : list Event,
      final_trace (m s) = (snd s ++ evs)%list
      /\ Forall P evs
      /\ (List.length (writes evs) <= n)%nat.

(** The computation returns (it never throws) and leaves the world as it
    found it. *)
Definition pure_read {A : Type} (m : Async World A) : Prop :=
  forall s : St World,
    (exists a : A, outcome (m s) = Ok a) /\ final_world (m s) = fst s.
End Footprint.

(** The events of [nameContract] in the revision with exported steps: calls
    on the primary network through [l1WalletClient], telemetry posts, and on
    the secondary network, through [l2WalletClient], only the [owner()]
    read, the [setNameForAddr] write on its reverse registrar and the wait
    for that transaction. *)
Definition orchestrator_event (request : NamingStandalone.NameContractOptions)
           (e : Event) : Prop :=
  match e with
  | EvFetch url _ => url = Utils.METRICS_URL
  | EvRead wc c =>
      wc = NamingStandalone.l1WalletClient request
      \/ (Some wc = NamingStandalone.l2WalletClient request
          /\ c = Utils.owner_call (NamingStandalone.nc_contractAddress request))
  | EvWrite wc c =>
      wc = NamingStandalone.l1WalletClient request
      \/ (Some wc = NamingStandalone.l2WalletClient request
          /\ exists l2c : ENSContracts,
               NamingStandalone.l2Contracts request = Some l2c
               /\ c = l2_setNameForAddr_call l2c
                        (NamingStandalone.nc_contractAddress request)
                        (NamingStandalone.nc_name request))
  | EvWait wc _ =>
      wc = NamingStandalone.l1WalletClient request
      \/ Some wc = NamingStandalone.l2WalletClient request
  end.

(** A client whose every read fails, in front of the same chain. *)
Module Offline.

Definition env : Env Toy.World :=
  {| env_isAddress := Toy.isAddress;
     env_namehash := fun n => n;
     env_toBytes := list_byte_of_string;
     env_keccak256 := string_of_list_byte;
     env_readContract := fun _ _ _ => Throw (Error "HTTP request failed");
     env_writeContract := Toy.write;
     env_waitForTransactionReceipt := fun _ _ w => (Ok tt, w);
     env_fetch := fun _ _ w => (Ok tt, w);
     env_Date_now := fun _ => 1700000000000;
     env_randomUUID := fun w => ("00000000-0000-4000-8000-000000000000", w);
     env_getContractAddresses := Toy.getContractAddresses |}.

End Offline.

(** More worlds and requests for the examples. *)
Module Scenario2.
Import Toy.

(** [target] answers [owner()] with bob, while alice owns its reverse
    node. *)
Definition claimed_by_alice_owned_by_bob : World :=
  {| registry := [(reverse_of target, (alice, zero_address))];
     wrapped := [];
     ownable := [(target, bob)];
     addrs := []; names := []; telemetry_up := true; mined := 0 |}.

(** ["foo.bar.eth"] exists and resolves to [target], which bob owns. *)
Definition named_for_bob : World :=
  {| registry := [("foo.bar.eth", (alice, PUBLIC_RESOLVER sepolia))];
     wrapped := [];
     ownable := [(target, bob)];
     addrs := [("foo.bar.eth", 60, target)];
     names := []; telemetry_up := true; mined := 0 |}.

(** A request to the current revision on a chain it does not know. *)
Definition unknown_chain_request : Naming.NameContractOptions :=
  {| Naming.nc_name := "foo.bar.eth";
     Naming.nc_contractAddress := target;
     Naming.nc_walletClient := client alice;
     Naming.l2WalletClient := None;
     Naming.chainName := "Solana";
     Naming.nc_opType := None;
     Naming.nc_enableMetrics := None |}.

(** A client of alice on the secondary network. *)
Definition l2_client : WalletClient :=
  {| account := Some {| address := alice |};
     chain := Some {| id := 84532; chain_key := "base-sepolia" |} |}.

(** A request to the first revision, with a secondary network. *)
Definition monolith_request (n a : string) : NamingMonolith.NameContractOptions :=
  {| NamingMonolith.nc_name := n;
     NamingMonolith.nc_contractAddress := a;
     NamingMonolith.l1WalletClient := client alice;
     NamingMonolith.l1Contracts := sepolia;
     NamingMonolith.l2WalletClient := Some l2_client;
     NamingMonolith.l2Contracts := Some base_sepolia;
     NamingMonolith.nc_correlationId := Some "c-1";
     NamingMonolith.nc_opType := None |}.
(** A request to the current revision with telemetry enabled. *)
Definition metrics_request (n a chain : string) : Naming.NameContractOptions :=
  {| Naming.nc_name := n;
     Naming.nc_contractAddress := a;
     Naming.nc_walletClient := client alice;
     Naming.l2WalletClient := None;
     Naming.chainName := chain;
     Naming.nc_opType := None;
     Naming.nc_enableMetrics := Some true |}.
End Scenario2.

(** The events of [nameContract] in the current revision: chain calls
    through the [walletClient] of the request, and, when telemetry is
    enabled, posts to the metrics endpoint. *)
Definition current_event (request : Naming.NameContractOptions) (e : Event) : Prop :=
  match e with
  | EvRead wc _ | EvWrite wc _ | EvWait wc _ => wc = Naming.nc_walletClient request
  | EvFetch url _ =>
      url = Utils.METRICS_URL /\ default false (Naming.nc_enableMetrics request) = true
  end.

(** The computation, started in [s], throws [e] having sent no transaction
    and left the world as it was. *)
Definition throws_untouched {World A : Type} (m : Async World A) (e : Exn)
           (s : St World) : Prop :=
  outcome (m s) = Throw e
  /\ final_world (m s) = fst s
  /\ writes (final_trace (m s)) = writes (snd s).

(** Every read through client [wc] fails with [e] in world [w]. *)
Definition reads_fail {World : Type} (E : Env World) (wc : WalletClient)
           (e : Exn) (w : World) : Prop :=
  forall c : ContractCall, env_readContract E wc c w = Throw e.

(** What the naming modules answer for a contract in world [w], and the
    reads by which they find it: the ReverseClaimer probe first, the
    Ownable probe only when that one fails. *)
Definition naming_type {World : Type} (E : Env World) (a : string)
           (wc : WalletClient) (reg : string) (w : World) : ContractType :=
  if reverse_probe E a wc reg w then ReverseClaimer
  else if ownable_probe E a wc w then Ownable
  else Unknown.

Definition naming_reads {World : Type} (E : Env World) (a : string)
           (wc : WalletClient) (reg : string) (w : World) : list Event :=
  (probe_reads E a wc (Utils.registry_owner_call reg (reverse_node E a))
   ++ (if reverse_probe E a wc reg w then []
       else probe_reads E a wc (Utils.owner_call a)))%list.

(** A [transactions] object without the empty hashes in the entries that
    the steps report; [l2ReverseResolution] is kept as it is. *)
Definition keep_truthy (h : option string) : option string :=
  match h with
  | Some x => if truthy_string x then Some x else None
  | None => None
  end.

Definition without_empty_hashes (t : Transactions) : Transactions :=
  {| subname := keep_truthy (subname t);
     forwardResolution := keep_truthy (forwardResolution t);
     reverseResolution := keep_truthy (reverseResolution t);
     l2ForwardResolution := keep_truthy (l2ForwardResolution t);
     l2ReverseResolution := l2ReverseResolution t |}.

Definition result_without_empty_hashes (o : Outcome NameContractResult)
  : Outcome NameContractResult :=
  match o with
  | Ok r =>
      Ok {| success := success r; res_name := res_name r;
            res_contractAddress := res_contractAddress r;
            transactions := without_empty_hashes (transactions r);
            res_contractType := res_contractType r;
            explorerUrl := explorerUrl r |}
  | Throw e => Throw e
  end.

(** The request to the revision with exported steps that corresponds to a
    request to the first revision, which always posts telemetry. *)
Definition standalone_request (m : NamingMonolith.NameContractOptions)
  : NamingStandalone.NameContractOptions :=
  {| NamingStandalone.nc_name := NamingMonolith.nc_name m;
     NamingStandalone.nc_contractAddress := NamingMonolith.nc_contractAddress m;
     NamingStandalone.l1WalletClient := NamingMonolith.l1WalletClient m;
     NamingStandalone.l1Contracts := NamingMonolith.l1Contracts m;
     NamingStandalone.l2WalletClient := NamingMonolith.l2WalletClient m;
     NamingStandalone.l2Contracts := NamingMonolith.l2Contracts m;
     NamingStandalone.nc_correlationId := NamingMonolith.nc_correlationId m;
     NamingStandalone.nc_opType := NamingMonolith.nc_opType m;
     NamingStandalone.nc_enableMetrics := Some true |}.

(** The coin type of the secondary network, when one is configured, is a
    number other than zero. *)
Definition l2_coin_type_set (m : NamingMonolith.NameContractOptions) : Prop :=
  forall (l2wc : WalletClient) (l2c : ENSContracts),
    NamingMonolith.l2WalletClient m = Some l2wc ->
    NamingMonolith.l2Contracts m = Some l2c ->
    truthy_number (Number_of (COIN_TYPE l2c)) = true.

(** *** The two older revisions of [nameContract], stage by stage *)

Section Stages.
Context {World : Type} (E : Env World).
Variables (n a : string) (wc : WalletClient) (c : ENSContracts) (cid op : string).

(** The options with which the revision with exported steps calls a step
    when telemetry is enabled. *)
Definition refactored_step (ct : ContractType) (coin : option JsNumber)
  : StepOptions :=
  {| name := n; contractAddress := a; walletClient := wc; contracts := c;
     contractType := ct; correlationId := Some cid; opType := Some op;
     coinType := coin; enableMetrics := Some true |}.

(** The first revision, cut where the later one calls its steps; each
    stage hands the [transactions] object to the rest [K] of the function. *)
Definition old_subname {B : Type}
           (K : ContractType -> Transactions -> Async World B) : Async World B :=
  let* parsed := lift (Utils.parseNormalizedName n) in
  let parentNode := namehash E (Utils.parent parsed) in
  let labelHash := labelhash E (Utils.label parsed) in
  let fullNameNode := namehash E n in
  let transactions := no_transactions in
  let* nameExists := readContract E wc (recordExists_call c fullNameNode) in
  let* contractType := NamingMonolith.detectContractType E a wc (ENS_REGISTRY c) in
  let log (wc : WalletClient) (step txn ctype : string) : Async World unit :=
    report E (Some cid) wc a n step txn ctype op in
  let* transactions :=
    if negb (truthy nameExists)
    then
      let* isWrapped := readContract E wc (isWrapped_call c parentNode) in
      let* txn :=
        if truthy isWrapped
        then
          let* txn :=
            writeContract E wc
              (wrapper_setSubnodeRecord_call c parentNode (Utils.label parsed)
                 (of_option_string (account_address wc))
                 (VString (PUBLIC_RESOLVER c))) in
          waitForTransactionReceipt E wc txn ;;
          log wc "subname::setSubnodeRecord" txn (ContractType_string contractType) ;;
          ret txn
        else
          let* txn :=
            writeContract E wc
              (registry_setSubnodeRecord_call c parentNode labelHash
                 (of_option_string (account_address wc))
                 (VString (PUBLIC_RESOLVER c))) in
          waitForTransactionReceipt E wc txn ;;
          log wc "subname::setSubnodeRecord" txn (ContractType_string contractType) ;;
          ret txn in
      ret (set_subname (Some txn) transactions)
    else ret transactions in
  K contractType transactions.

Definition old_forward {B : Type} (contractType : ContractType)
           (transactions : Transactions) (K : Transactions -> Async World B)
  : Async World B :=
  let fullNameNode := namehash E n in
  let log (wc : WalletClient) (step txn ctype : string) : Async World unit :=
    report E (Some cid) wc a n step txn ctype op in
  let* currentAddr := readContract E wc (addr_call c fullNameNode) in
  let* lowered := value_toLowerCase "currentAddr" currentAddr in
  let* transactions :=
    if negb (String.eqb lowered (toLowerCase a))
    then
      let* txn := writeContract E wc (setAddr_call c fullNameNode a) in
      waitForTransactionReceipt E wc txn ;;
      log wc "fwdres::setAddr" txn (ContractType_string contractType) ;;
      ret (set_forwardResolution (Some txn) transactions)
    else ret transactions in
  K transactions.

Definition old_reverse {B : Type} (contractType : ContractType)
           (transactions : Transactions) (K : Transactions -> Async World B)
  : Async World B :=
  let log (wc : WalletClient) (step txn ctype : string) : Async World unit :=
    report E (Some cid) wc a n step txn ctype op in
  let* isOwner := NamingMonolith.isContractOwner E a wc (ENS_REGISTRY c) in
  let* transactions :=
    if isOwner
    then
      let* txn :=
        match contractType with
        | ReverseClaimer =>
            let reversedNode := reverse_node E a in
            let* txn := writeContract E wc (setName_call c reversedNode n) in
            waitForTransactionReceipt E wc txn ;;
            log wc "revres::setName" txn "ReverseClaimer" ;;
            ret txn
        | Ownable =>
            let* txn :=
              writeContract E wc
                (setNameForAddr4_call c a
                   (of_option_string (account_address wc)) n) in
            waitForTransactionReceipt E wc txn ;;
            log wc "revres::setNameForAddr" txn "Ownable" ;;
            ret txn
        | Unknown => throw unsupported_contract_type
        end in
      ret (set_reverseResolution (Some txn) transactions)
    else ret transactions in
  K transactions.

Definition old_l2 {B : Type} (l2 : option WalletClient) (l2cs : option ENSContracts)
           (contractType : ContractType) (transactions : Transactions)
           (K : Transactions -> Async World B) : Async World B :=
  let fullNameNode := namehash E n in
  let log (wc : WalletClient) (step txn ctype : string) : Async World unit :=
    report E (Some cid) wc a n step txn ctype op in
  let* transactions :=
    match l2, l2cs with
    | Some l2wc, Some l2c =>
        let coin := Number_of (COIN_TYPE l2c) in
        let* l2CurrentAddr :=
          readContract E wc (addr_coin_call c fullNameNode coin) in
        let* l2lowered := value_toLowerCase "l2CurrentAddr" l2CurrentAddr in
        let* transactions :=
          if negb (String.eqb l2lowered (toLowerCase a))
          then
            let* txn :=
              writeContract E wc (setAddr_coin_call c fullNameNode coin a) in
            waitForTransactionReceipt E wc txn ;;
            log wc "fwdres::setAddr" txn (ContractType_string contractType) ;;
            ret (set_l2ForwardResolution (Some txn) transactions)
          else ret transactions in
        NamingStandalone.l2_reverse E l2wc l2c a n cid contractType op true
          transactions
    | _, _ => ret transactions
    end in
  K transactions.

(** The revision with exported steps, cut after each step. *)
Definition new_subname {B : Type}
           (K : ContractType -> Transactions -> Async World B) : Async World B :=
  let* contractType := NamingStandalone.detectContractType E a wc (ENS_REGISTRY c) in
  let* subnameResult :=
    NamingStandalone.createSubname E (refactored_step contractType None) in
  K contractType
    (set_subname (recorded (created subnameResult)
                           (cs_transactionHash subnameResult)) no_transactions).

Definition new_forward {B : Type} (contractType : ContractType)
           (transactions : Transactions) (K : Transactions -> Async World B)
  : Async World B :=
  let* forwardResResult :=
    NamingStandalone.setForwardResolution E (refactored_step contractType None) in
  K (set_forwardResolution (recorded (fr_set forwardResResult)
                                     (fr_transactionHash forwardResResult))
                           transactions).

Definition new_reverse {B : Type} (contractType : ContractType)
           (transactions : Transactions) (K : Transactions -> Async World B)
  : Async World B :=
  let* reverseResResult :=
    NamingStandalone.setReverseResolution E (refactored_step contractType None) in
  K (set_reverseResolution (recorded (rr_set reverseResResult)
                                     (rr_transactionHash reverseResResult))
                           transactions).

Definition new_l2 {B : Type} (l2 : option WalletClient) (l2cs : option ENSContracts)
           (contractType : ContractType) (transactions : Transactions)
           (K : Transactions -> Async World B) : Async World B :=
  let* transactions :=
    match l2, l2cs with
    | Some l2wc, Some l2c =>
        let* l2ForwardResResult :=
          NamingStandalone.setForwardResolution E
            (refactored_step contractType (Some (Number_of (COIN_TYPE l2c)))) in
        let transactions :=
          set_l2ForwardResolution
            (recorded (fr_set l2ForwardResResult)
                      (fr_transactionHash l2ForwardResResult)) transactions in
        NamingStandalone.l2_reverse E l2wc l2c a n cid contractType op true
          transactions
    | _, _ => ret transactions
    end in
  K transactions.

(** The result that both revisions build at the end. *)
Definition named (contractType : ContractType) (transactions : Transactions)
  : NameContractResult :=
  {| success := true; res_name := n; res_contractAddress := a;
     transactions := transactions; res_contractType := contractType;
     explorerUrl := explorer_url wc n |}.
End Stages.

(** Two states with the same world, the same transactions sent and the same
    telemetry posted; the reads may differ. *)
Definition same_effects {World : Type} (s1 s2 : St World) : Prop :=
  fst s1 = fst s2
  /\ writes (snd s1) = writes (snd s2)
  /\ fetches (snd s1) = fetches (snd s2).

(** The error of the later revision against that of the first one: the
    same, but for the TypeError of [toLowerCase] on the record of the
    secondary coin type, whose receiver is [l2CurrentAddr] in the first
    revision and [currentAddr], inside [setForwardResolution], in the later
    one. *)
Definition receiver_renamed (new old : Exn) : Prop :=
  new = old
  \/ (new = TypeError "currentAddr.toLowerCase is not a function"
      /\ old = TypeError "l2CurrentAddr.toLowerCase is not a function").

(** Two runs that end in states with the same effects, both throwing the
    same error, up to the receiver's name, or both returning, with results
    related by [f]. *)
Definition same_run {World A B : Type} (f : A -> B -> Prop)
           (new : Outcome A * St World) (old : Outcome B * St World) : Prop :=
  same_effects (snd new) (snd old)
  /\ match fst new, fst old with
     | Ok x, Ok y => f x y
     | Throw e, Throw e' => receiver_renamed e e'
     | _, _ => False
     end.

(** The outcome of the later revision against that of the first one. *)
Definition refactored_outcome (new old : Outcome NameContractResult) : Prop :=
  match new, old with
  | Ok rn, Ok ro => Ok rn = result_without_empty_hashes (Ok ro)
  | Throw en, Throw eo => receiver_renamed en eo
  | _, _ => False
  end.

(** The [transactions] object of the later revision against that of the
    first one, while the entries from the [k]-th on are still to be
    filled. *)
Definition hashes_agree (k : nat) (tn to : Transactions) : Prop :=
  tn = without_empty_hashes to
  /\ ((k <= 1)%nat -> forwardResolution to = None)
  /\ ((k <= 2)%nat -> reverseResolution to = None)
  /\ ((k <= 3)%nat -> l2ForwardResolution to = None).

(* ------------------------------------------------------------------ *)
(** *** Writes that go through, telemetry that is or is not delivered *)
(* ------------------------------------------------------------------ *)

Section PerformingRuns.
Context {World : Type} (E : Env World).

(** From world [w] the chain accepts the call of client [wc] with hash
    [tx], and the wait for the receipt succeeds, leaving world [w2]. *)
Definition write_goes_through (wc : WalletClient) (call : ContractCall)
           (w : World) (tx : string) (w2 : World) : Prop :=
  exists w1 : World,
    env_writeContract E wc call w = (Ok tx, w1)
    /\ env_waitForTransactionReceipt E wc tx w1 = (Ok tt, w2).



(** A post to the metrics endpoint from world [w2] fails with [e], leaving
    world [w3]. *)
Definition telemetry_fails (e : Exn) (w2 w3 : World) : Prop :=
  forall m : Metric, env_fetch E Utils.METRICS_URL m w2 = (Throw e, w3).

(** The read by which [createSubname] decides what to write once the record
    is found missing: [isWrapped(parent)] on the primary network,
    [resolver(parent)] on a secondary one. *)
Definition subname_probe (l2 : bool) (options : StepOptions) : ContractCall :=
  let parentNode := namehash E (after_first_dot (name options)) in
  if l2 then resolver_call (contracts options) parentNode
  else isWrapped_call (contracts options) parentNode.

(** The write of [createSubname], given the answer of that read. *)
Definition subname_call (l2 : bool) (options : StepOptions) (answer : Value)
  : ContractCall :=
  let label := before_first_dot (name options) in
  let parentNode := namehash E (after_first_dot (name options)) in
  let owner := of_option_string (account_address (walletClient options)) in
  let configured := VString (PUBLIC_RESOLVER (contracts options)) in
  if l2
  then registry_setSubnodeRecord_call (contracts options) parentNode
         (labelhash E label) owner answer
  else if truthy answer
       then wrapper_setSubnodeRecord_call (contracts options) parentNode label
              owner configured
       else registry_setSubnodeRecord_call (contracts options) parentNode
              (labelhash E label) owner configured.

(** The write of [setReverseResolution], by contract type. *)
Definition reverse_call (l2 : bool) (options : StepOptions) : option ContractCall :=
  match contractType options with
  | ReverseClaimer =>
      Some (setName_call (contracts options)
              (reverse_node E (contractAddress options)) (name options))
  | Ownable =>
      Some (if l2
            then setNameForAddr2_call (contracts options) (contractAddress options)
                   (name options)
            else setNameForAddr4_call (contracts options) (contractAddress options)
                   (of_option_string (account_address (walletClient options)))
                   (name options))
  | Unknown => None
  end.

Definition current_setReverseResolution (l2 : bool) :=
  if l2 then L2Naming.setReverseResolution E else L1Naming.setReverseResolution E.

(** The state of the chain in which [createSubname], on a name with a
    parent, comes to write, and the write goes through: the record of the
    name is missing, the deciding read answers [v], and the chain accepts
    the write. *)
Definition subname_goes_through (l2 : bool) (options : StepOptions) (v : Value)
           (w : World) (tx : string) (w2 : World) : Prop :=
  record_absent E options w
  /\ env_readContract E (walletClient options) (subname_probe l2 options) w = Ok v
  /\ write_goes_through (walletClient options) (subname_call l2 options v) w tx w2.

(** The same for [setForwardResolution]: the resolver holds another address
    than the target. *)
Definition forward_goes_through (options : StepOptions)
           (w : World) (tx : string) (w2 : World) : Prop :=
  forward_record_differs E options w
  /\ write_goes_through (walletClient options)
       (new_addr_call (contracts options) (namehash E (name options))
          (coinType options) (contractAddress options)) w tx w2.

(** The same for [setReverseResolution]: the caller passes the ownership
    check and the contract type has a write, [call]. *)
Definition reverse_goes_through (l2 : bool) (options : StepOptions)
           (call : ContractCall) (w : World) (tx : string) (w2 : World) : Prop :=
  owner_check E (contractAddress options) (walletClient options)
    (ENS_REGISTRY (contracts options)) w = Ok true
  /\ reverse_call l2 options = Some call
  /\ write_goes_through (walletClient options) call w tx w2.

(** A run that threw [e] in world [w3], having sent exactly the write
    [call] of client [wc] on top of the trace [tr]. *)
Definition threw_after_write {A : Type} (run : Outcome A * St World) (e : Exn)
           (w3 : World) (tr : list Event) (wc : WalletClient)
           (call : ContractCall) : Prop :=
  outcome run = Throw e
  /\ final_world run = w3
  /\ writes (final_trace run) = (writes tr ++ [EvWrite wc call])%list.


End PerformingRuns.

(* ------------------------------------------------------------------ *)
(** *** Classification in utils.ts, and [nameContract] without its probes *)
(* ------------------------------------------------------------------ *)

(** What utils.ts answers for a contract in world [w], and the reads by
    which it finds it: the Ownable probe first, the ReverseClaimer probe
    only when that one fails. *)
Definition utils_type {World : Type} (E : Env World) (a : string)
           (wc : WalletClient) (reg : string) (w : World) : ContractType :=
  if ownable_probe E a wc w then Ownable
  else if reverse_probe E a wc reg w then ReverseClaimer
  else Unknown.

Definition utils_reads {World : Type} (E : Env World) (a : string)
           (wc : WalletClient) (reg : string) (w : World) : list Event :=
  (probe_reads E a wc (Utils.owner_call a)
   ++ (if ownable_probe E a wc w then []
       else probe_reads E a wc
              (Utils.registry_owner_call reg (reverse_node E a))))%list.

Section Unprobed.
Context {World : Type} (E : Env World).

(** [nameContract] of the revision with exported steps, with the
    classification and the reverse-resolution step taken out: the contract
    counts as Unknown and only the subname and forward-resolution steps (and
    the block for the secondary network) run. *)
Definition standalone_unprobed (options : NamingStandalone.NameContractOptions)
  : Async World NameContractResult :=
  let normalizedName := NamingStandalone.nc_name options in
  let contractAddress := NamingStandalone.nc_contractAddress options in
  let l1WalletClient := NamingStandalone.l1WalletClient options in
  let l1Contracts := NamingStandalone.l1Contracts options in
  let* correlationId :=
    NamingStandalone.correlationId_or_fresh E
      (NamingStandalone.nc_correlationId options) in
  let opType := default default_opType (NamingStandalone.nc_opType options) in
  let enableMetrics := default false (NamingStandalone.nc_enableMetrics options) in
  let step (coin : option JsNumber) : StepOptions :=
    {| name := normalizedName; contractAddress := contractAddress;
       walletClient := l1WalletClient; contracts := l1Contracts;
       contractType := Unknown; correlationId := Some correlationId;
       opType := Some opType; coinType := coin;
       enableMetrics := Some enableMetrics |} in
  let* subnameResult := NamingStandalone.createSubname E (step None) in
  let transactions :=
    set_subname (recorded (created subnameResult)
                          (cs_transactionHash subnameResult)) no_transactions in
  let* forwardResResult := NamingStandalone.setForwardResolution E (step None) in
  let transactions :=
    set_forwardResolution (recorded (fr_set forwardResResult)
                                    (fr_transactionHash forwardResResult))
                          transactions in
  let* transactions :=
    match NamingStandalone.l2WalletClient options,
          NamingStandalone.l2Contracts options with
    | Some l2wc, Some l2c =>
        let* l2ForwardResResult :=
          NamingStandalone.setForwardResolution E
            (step (Some (Number_of (COIN_TYPE l2c)))) in
        let transactions :=
          set_l2ForwardResolution
            (recorded (fr_set l2ForwardResResult)
                      (fr_transactionHash l2ForwardResResult)) transactions in
        NamingStandalone.l2_reverse E l2wc l2c contractAddress normalizedName
          correlationId Unknown opType enableMetrics transactions
    | _, _ => ret transactions
    end in
  ret {| success := true; res_name := normalizedName;
         res_contractAddress := contractAddress;
         transactions := transactions;
         res_contractType := Unknown;
         explorerUrl := explorer_url l1WalletClient normalizedName |}.

(** The same for the current revision. *)
Definition current_unprobed (options : Naming.NameContractOptions)
  : Async World NameContractResult :=
  let normalizedName := Naming.nc_name options in
  let contractAddress := Naming.nc_contractAddress options in
  let walletClient := Naming.nc_walletClient options in
  let opType := default default_opType (Naming.nc_opType options) in
  let enableMetrics := default false (Naming.nc_enableMetrics options) in
  let* correlationId := randomUUID E in
  let networkInfo := Utils.getNetworkInfo (Naming.chainName options) in
  let* contracts := lift (env_getContractAddresses E (Utils.networkName networkInfo)) in
  let step (coin : option JsNumber) : StepOptions :=
    {| name := normalizedName; contractAddress := contractAddress;
       walletClient := walletClient; contracts := contracts;
       contractType := Unknown; correlationId := Some correlationId;
       opType := Some opType; coinType := coin;
       enableMetrics := Some enableMetrics |} in
  let l2 := Utils.isL2 networkInfo in
  let* subnameResult := current_createSubname E l2 (step None) in
  let transactions :=
    set_subname (recorded (created subnameResult)
                          (cs_transactionHash subnameResult)) no_transactions in
  let* forwardResResult :=
    current_setForwardResolution E l2 (step (current_coin l2 contracts)) in
  let transactions :=
    set_forwardResolution (recorded (fr_set forwardResResult)
                                    (fr_transactionHash forwardResResult))
                          transactions in
  ret {| success := true; res_name := normalizedName;
         res_contractAddress := contractAddress;
         transactions := transactions;
         res_contractType := Unknown;
         explorerUrl := explorer_url walletClient normalizedName |}.
End Unprobed.

(* ================================================================== *)
(** * Properties *)
(* ================================================================== *)

Local Open Scope list_scope.
Unset Implicit Arguments.

(** ** Strings *)

Lemma split_dot_not_nil (s : string) : split_dot s <> [].
Proof.
  destruct s as [|c r]; simpl; [discriminate|].
  destruct (Ascii.eqb c "."); [discriminate|].
  destruct (split_dot r); discriminate.
Qed.

Lemma join_split_dot (s : string) : join_dot (split_dot s) = s.
Proof.
  unfold join_dot.
  induction s as [|c r IH]; simpl; [reflexivity|].
  destruct (Ascii.eqb_spec c "."%char) as [->|Hc].
  - pose proof (split_dot_not_nil r) as Hn.
    destruct (split_dot r) as [|p ps]; [contradiction|].
    cbn [String.concat]. cbn [String.concat] in IH. rewrite IH. reflexivity.
  - pose proof (split_dot_not_nil r) as Hn.
    destruct (split_dot r) as [|p ps]; [contradiction|].
    destruct ps as [|q qs]; simpl in *; f_equal; exact IH.
Qed.

Lemma split_dot_short (s : string) :
  (List.length (split_dot s) <? 2)%nat = negb (has_dot s).
Proof.
  induction s as [|c r IH]; simpl; [reflexivity|].
  pose proof (split_dot_not_nil r) as Hn.
  destruct (Ascii.eqb c "."); simpl.
  - destruct (split_dot r); [contradiction|reflexivity].
  - destruct (split_dot r) as [|p ps]; [contradiction|]. exact IH.
Qed.

Lemma split_dot_head (s : string) : List.hd "" (split_dot s) = before_first_dot s.
Proof.
  induction s as [|c r IH]; simpl; [reflexivity|].
  pose proof (split_dot_not_nil r) as Hn.
  destruct (Ascii.eqb c "."); simpl; [reflexivity|].
  destruct (split_dot r) as [|p ps]; [contradiction|].
  simpl in *. now rewrite IH.
Qed.

Lemma split_dot_tail (s : string) :
  has_dot s = true -> join_dot (List.tl (split_dot s)) = after_first_dot s.
Proof.
  induction s as [|c r IH]; simpl; [discriminate|].
  pose proof (split_dot_not_nil r) as Hn.
  destruct (Ascii.eqb c "."); simpl.
  - intros _. apply join_split_dot.
  - intros H. destruct (split_dot r) as [|p ps]; [contradiction|].
    simpl in *. auto.
Qed.

Lemma parseNormalizedName_eq (s : string) :
  Utils.parseNormalizedName s =
  if has_dot s
  then Ok {| Utils.label := before_first_dot s; Utils.parent := after_first_dot s |}
  else Throw invalid_name.
Proof.
  unfold Utils.parseNormalizedName.
  rewrite split_dot_short.
  destruct (has_dot s) eqn:Hd; simpl; [|reflexivity].
  now rewrite split_dot_head, split_dot_tail.
Qed.

(** C10. [parseNormalizedName] succeeds on every string that contains a
    dot, with the label before the first dot and the parent after it, empty
    segments included: ["a."] gives label ["a"] and parent [""], ["."] gives
    two empty parts.  It throws on exactly the strings without a dot, the
    empty string among them. *)
Theorem parseNormalizedName_dot :
  (forall s : string,
      Utils.parseNormalizedName s =
      if has_dot s
      then Ok {| Utils.label := before_first_dot s; Utils.parent := after_first_dot s |}
      else Throw invalid_name)
  /\ Utils.parseNormalizedName "a." = Ok {| Utils.label := "a"; Utils.parent := "" |}
  /\ Utils.parseNormalizedName "." = Ok {| Utils.label := ""; Utils.parent := "" |}
  /\ Utils.parseNormalizedName "" = Throw invalid_name.
Proof.
  split; [exact parseNormalizedName_eq|].
  repeat split; reflexivity.
Qed.

(** ** Traces *)

Lemma writes_app (a b : list Event) : writes (a ++ b) = writes a ++ writes b.
Proof. apply filter_app. Qed.

Lemma reads_app (a b : list Event) : reads (a ++ b) = reads a ++ reads b.
Proof. apply filter_app. Qed.

Ltac unfold_async :=
  unfold report_if, report, Utils.logMetric, value_toLowerCase in *;
  unfold bind, ret, throw, try_catch, lift, readContract, writeContract,
    waitForTransactionReceipt, fetch, Date_now, randomUUID in *.

(** ** The probes *)

Section Probes.
Context {World : Type} (E : Env World).
Variables (a : string) (wc : WalletClient) (reg : string) (w : World).

Lemma isOwnable_run (tr : list Event) :
  Utils.isOwnable E a wc (w, tr) =
  (Ok (ownable_probe E a wc w),
   (w, tr ++ probe_reads E a wc (Utils.owner_call a))).
Proof.
  unfold Utils.isOwnable, ownable_probe, probe_reads, address_accepted.
  destruct (Utils.address_rejected E a); simpl.
  - unfold ret. now rewrite app_nil_r.
  - unfold_async. simpl.
    destruct (env_readContract E wc (Utils.owner_call a) w); reflexivity.
Qed.

Lemma isReverseClaimable_run (tr : list Event) :
  Utils.isReverseClaimable E a wc reg (w, tr) =
  (Ok (reverse_probe E a wc reg w),
   (w, tr ++ probe_reads E a wc
               (Utils.registry_owner_call reg (reverse_node E a)))).
Proof.
  unfold Utils.isReverseClaimable, reverse_probe, registry_names_caller,
    probe_reads, address_accepted.
  destruct (Utils.address_rejected E a); simpl.
  - unfold ret. now rewrite app_nil_r.
  - unfold_async. simpl.
    destruct (env_readContract E wc _ w) as [[b|r|n|]|e]; try reflexivity.
    simpl. destruct (equals_account (toLowerCase r) wc); reflexivity.
Qed.

Lemma isContractOwner_run (tr : list Event) :
  Utils.isContractOwner E a wc reg (w, tr) =
  (owner_check E a wc reg w, (w, tr ++ owner_check_reads E a wc reg w)).
Proof.
  unfold Utils.isContractOwner, owner_check, owner_check_reads.
  destruct (Utils.address_rejected E a); simpl.
  - unfold ret. now rewrite app_nil_r.
  - unfold_async. simpl.
    destruct (env_readContract E wc (Utils.owner_call a) w) as [[b|o|n|]|e];
      simpl; try reflexivity;
      destruct (env_readContract E wc _ w) as [[b'|r|n'|]|e'];
      simpl; rewrite <- ?app_assoc; reflexivity.
Qed.

(** utils.ts asks the Ownable probe first. *)
Lemma detectContractType_utils (tr : list Event) :
  outcome (Utils.detectContractType E a wc reg (w, tr)) =
  Ok (if ownable_probe E a wc w then Ownable
      else if reverse_probe E a wc reg w then ReverseClaimer
      else Unknown).
Proof.
  unfold Utils.detectContractType, bind. rewrite isOwnable_run.
  destruct (ownable_probe E a wc w); [reflexivity|].
  rewrite isReverseClaimable_run.
  destruct (reverse_probe E a wc reg w); reflexivity.
Qed.

(** The naming modules ask the ReverseClaimer probe first. *)
Lemma detectContractType_naming (tr : list Event) :
  outcome (NamingStandalone.detectContractType E a wc reg (w, tr)) =
  Ok (if reverse_probe E a wc reg w then ReverseClaimer
      else if ownable_probe E a wc w then Ownable
      else Unknown).
Proof.
  unfold NamingStandalone.detectContractType, NamingStandalone.isOwnable,
    NamingStandalone.isReverseClaimable, bind.
  rewrite isReverseClaimable_run.
  destruct (reverse_probe E a wc reg w); [reflexivity|].
  rewrite isOwnable_run.
  destruct (ownable_probe E a wc w); reflexivity.
Qed.

Lemma detectContractType_monolith (tr : list Event) :
  NamingMonolith.detectContractType E a wc reg (w, tr) =
  NamingStandalone.detectContractType E a wc reg (w, tr).
Proof. reflexivity. Qed.

(** The two orders give the same answer unless both probes succeed; when
    both succeed, utils.ts says Ownable and naming.ts says
    ReverseClaimer. *)
Lemma detectContractType_sites (tr : list Event) :
  (ownable_probe E a wc w && reverse_probe E a wc reg w = false ->
   outcome (Utils.detectContractType E a wc reg (w, tr)) =
   outcome (NamingStandalone.detectContractType E a wc reg (w, tr)))
  /\ (ownable_probe E a wc w && reverse_probe E a wc reg w = true ->
      outcome (Utils.detectContractType E a wc reg (w, tr)) = Ok Ownable
      /\ outcome (NamingStandalone.detectContractType E a wc reg (w, tr))
         = Ok ReverseClaimer).
Proof.
  rewrite detectContractType_utils, detectContractType_naming.
  destruct (ownable_probe E a wc w), (reverse_probe E a wc reg w);
    simpl; split; intros H; try discriminate; auto.
Qed.
End Probes.

(** Classification as one step: the answer and the reads depend on the
    world only. *)
Lemma detectContractType_naming_frame {World : Type} (E : Env World)
      (a : string) (wc : WalletClient) (reg : string) (w : World)
      (tr : list Event) :
  NamingStandalone.detectContractType E a wc reg (w, tr)
  = (Ok (naming_type E a wc reg w), (w, tr ++ naming_reads E a wc reg w)).
Proof.
  unfold NamingStandalone.detectContractType, NamingStandalone.isOwnable,
    NamingStandalone.isReverseClaimable, bind, naming_type, naming_reads.
  rewrite isReverseClaimable_run.
  destruct (reverse_probe E a wc reg w).
  - now rewrite app_nil_r.
  - rewrite isOwnable_run, <- app_assoc.
    destruct (ownable_probe E a wc w); reflexivity.
Qed.

Lemma detectContractType_utils_frame {World : Type} (E : Env World)
      (a : string) (wc : WalletClient) (reg : string) (w : World)
      (tr : list Event) :
  Utils.detectContractType E a wc reg (w, tr)
  = (Ok (utils_type E a wc reg w), (w, tr ++ utils_reads E a wc reg w)).
Proof.
  unfold Utils.detectContractType, bind, utils_type, utils_reads.
  rewrite isOwnable_run.
  destruct (ownable_probe E a wc w).
  - now rewrite app_nil_r.
  - rewrite isReverseClaimable_run, <- app_assoc.
    destruct (reverse_probe E a wc reg w); reflexivity.
Qed.

(** C1. The sites of classification do not apply one priority order.
    Whenever both probes succeed for a contract (its [owner()] call answers,
    and the registry names the caller's account as owner of its reverse
    node), [detectContractType] of utils.ts answers Ownable, while
    [detectContractType] of both revisions of naming.ts answers
    ReverseClaimer. *)
Theorem detectContractType_priority_conflict :
  forall (World : Type) (E : Env World) (a : string) (wc : WalletClient)
         (reg : string) (s : St World),
    ownable_probe E a wc (fst s) = true ->
    reverse_probe E a wc reg (fst s) = true ->
    outcome (Utils.detectContractType E a wc reg s) = Ok Ownable
    /\ outcome (NamingStandalone.detectContractType E a wc reg s)
       = Ok ReverseClaimer
    /\ outcome (NamingMonolith.detectContractType E a wc reg s)
       = Ok ReverseClaimer
    /\ outcome (Utils.detectContractType E a wc reg s)
       <> outcome (NamingStandalone.detectContractType E a wc reg s).
Proof.
  intros World E a wc reg [w tr] Ho Hr. simpl in Ho, Hr.
  pose proof (detectContractType_naming E a wc reg w tr) as Hn.
  assert (Hm : outcome (NamingMonolith.detectContractType E a wc reg (w, tr))
               = Ok (if reverse_probe E a wc reg w then ReverseClaimer
                     else if ownable_probe E a wc w then Ownable
                     else Unknown)) by exact Hn.
  rewrite Hm, Hn, detectContractType_utils, Ho, Hr.
  repeat split; try reflexivity. discriminate.
Qed.

(** The address of the example has no capitals, so the address check
    accepts it; its [owner()] answers with alice, and the registry names
    alice as owner of its reverse node. *)
Lemma detectContractType_priority_conflict_witness :
  let wc := Toy.client Toy.alice in
  let reg := ENS_REGISTRY Toy.sepolia in
  let s := Toy.start Scenario.both_probes in
  Utils.isAddressValid Toy.env Toy.target = true
  /\ outcome (Utils.detectContractType Toy.env Toy.target wc reg s) = Ok Ownable
  /\ outcome (NamingStandalone.detectContractType Toy.env Toy.target wc reg s)
     = Ok ReverseClaimer
  /\ outcome (NamingMonolith.detectContractType Toy.env Toy.target wc reg s)
     = Ok ReverseClaimer
  /\ outcome (Utils.detectContractType Toy.env Toy.target wc reg s)
     <> outcome (NamingStandalone.detectContractType Toy.env Toy.target wc reg s).
Proof.
  intros wc reg s. split; [reflexivity|].
  apply (detectContractType_priority_conflict Toy.World Toy.env Toy.target wc reg s).
  - reflexivity.
  - reflexivity.
Defined.

(** ** Reverse resolution *)

Ltac destruct_env :=
  repeat
    (simpl;
     match goal with
     | |- context [env_writeContract ?E ?wc ?c ?w] =>
         destruct (env_writeContract E wc c w) as [[?|?] ?] eqn:?
     | |- context [env_waitForTransactionReceipt ?E ?wc ?h ?w] =>
         destruct (env_waitForTransactionReceipt E wc h w) as [[?|?] ?] eqn:?
     | |- context [env_fetch ?E ?u ?m ?w] =>
         destruct (env_fetch E u m w) as [[?|?] ?] eqn:?
     | |- context [env_randomUUID ?E ?w] =>
         destruct (env_randomUUID E w) as [? ?] eqn:?
     end).

Ltac trace_simpl :=
  unfold final_trace, final_world, outcome; simpl;
  rewrite ?writes_app, ?reads_app; simpl; rewrite ?app_nil_r.

Section ReverseResolution.
Context {World : Type} (E : Env World).
Variable options : StepOptions.
Variables (w : World) (tr : list Event).

Lemma owner_check_reads_no_write :
  writes (owner_check_reads E (contractAddress options) (walletClient options)
       (ENS_REGISTRY (contracts options)) w) = [].
Proof.
  unfold owner_check_reads.
  destruct (Utils.address_rejected E (contractAddress options)); [reflexivity|].
  destruct (env_readContract E _ (Utils.owner_call _) w) as [[?|?|?|]|?];
    reflexivity.
Qed.

Lemma setReverseResolution_L1_skips :
  owner_check E (contractAddress options) (walletClient options)
    (ENS_REGISTRY (contracts options)) w = Ok false ->
  L1Naming.setReverseResolution E options (w, tr) =
  (Ok L1Naming.not_owner,
   (w, tr ++ owner_check_reads E (contractAddress options) (walletClient options)
               (ENS_REGISTRY (contracts options)) w)).
Proof.
  intros H. unfold L1Naming.setReverseResolution, bind.
  rewrite isContractOwner_run, H. reflexivity.
Qed.

Lemma setReverseResolution_L2_skips :
  owner_check E (contractAddress options) (walletClient options)
    (ENS_REGISTRY (contracts options)) w = Ok false ->
  L2Naming.setReverseResolution E options (w, tr) =
  (Ok L2Naming.not_owner,
   (w, tr ++ owner_check_reads E (contractAddress options) (walletClient options)
               (ENS_REGISTRY (contracts options)) w)).
Proof.
  intros H. unfold L2Naming.setReverseResolution, bind.
  rewrite isContractOwner_run, H. reflexivity.
Qed.

Lemma not_owner_check (r : string) :
  owner_names_caller E (contractAddress options) (walletClient options) w = false ->
  env_readContract E (walletClient options)
    (Utils.registry_owner_call (ENS_REGISTRY (contracts options))
       (reverse_node E (contractAddress options))) w
  = Ok (VString r) ->
  equals_account (toLowerCase r) (walletClient options) = false ->
  owner_check E (contractAddress options) (walletClient options)
    (ENS_REGISTRY (contracts options)) w = Ok false.
Proof.
  unfold owner_names_caller, owner_check. intros Ho Hr Hne.
  destruct (Utils.address_rejected E (contractAddress options)); [reflexivity|].
  rewrite Hr.
  destruct (env_readContract E _ (Utils.owner_call _) w) as [[?|o|?|]|?];
    try (now rewrite Hne).
  now rewrite Ho.
Qed.

Lemma setReverseResolution_L1_writes :
  owner_check E (contractAddress options) (walletClient options)
    (ENS_REGISTRY (contracts options)) w = Ok true ->
  let run := L1Naming.setReverseResolution E options (w, tr) in
  match contractType options with
  | ReverseClaimer =>
      writes (final_trace run) =
      writes tr ++
      [EvWrite (walletClient options)
         (setName_call (contracts options)
            (reverse_node E (contractAddress options)) (name options))]
  | Ownable =>
      writes (final_trace run) =
      writes tr ++
      [EvWrite (walletClient options)
         (setNameForAddr4_call (contracts options) (contractAddress options)
            (of_option_string (account_address (walletClient options)))
            (name options))]
  | Unknown =>
      outcome run = Throw unsupported_contract_type
      /\ writes (final_trace run) = writes tr
  end.
Proof.
  intros H run. subst run.
  pose proof owner_check_reads_no_write as Hn.
  unfold L1Naming.setReverseResolution, bind.
  rewrite isContractOwner_run, H. simpl.
  destruct (contractType options); unfold_async;
    destruct (default false (enableMetrics options));
    destruct_env; trace_simpl; rewrite ?Hn, ?app_nil_r; auto.
Qed.

Lemma setReverseResolution_L2_writes :
  owner_check E (contractAddress options) (walletClient options)
    (ENS_REGISTRY (contracts options)) w = Ok true ->
  let run := L2Naming.setReverseResolution E options (w, tr) in
  match contractType options with
  | ReverseClaimer =>
      writes (final_trace run) =
      writes tr ++
      [EvWrite (walletClient options)
         (setName_call (contracts options)
            (reverse_node E (contractAddress options)) (name options))]
  | Ownable =>
      writes (final_trace run) =
      writes tr ++
      [EvWrite (walletClient options)
         (setNameForAddr2_call (contracts options) (contractAddress options)
            (name options))]
  | Unknown =>
      outcome run = Throw unsupported_contract_type
      /\ writes (final_trace run) = writes tr
  end.
Proof.
  intros H run. subst run.
  pose proof owner_check_reads_no_write as Hn.
  unfold L2Naming.setReverseResolution, bind.
  rewrite isContractOwner_run, H. simpl.
  destruct (contractType options); unfold_async;
    destruct (default false (enableMetrics options));
    destruct_env; trace_simpl; rewrite ?Hn, ?app_nil_r; auto.
Qed.
End ReverseResolution.

(** C5. Where the caller's account is neither what the contract's
    [owner()] reports nor the registry owner of the reverse node of the
    address, [setReverseResolution] (of L1Naming.ts and of L2Naming.ts)
    returns the skipped result with reason ["not_owner"], whatever the name
    and the contract type, and issues no [writeContract] call. *)
Theorem setReverseResolution_not_owner :
  forall (World : Type) (E : Env World) (options : StepOptions)
         (w : World) (tr : list Event) (r : string),
    let a := contractAddress options in
    let wc := walletClient options in
    let reg := ENS_REGISTRY (contracts options) in
    owner_names_caller E a wc w = false ->
    env_readContract E wc (Utils.registry_owner_call reg (reverse_node E a)) w
    = Ok (VString r) ->
    equals_account (toLowerCase r) wc = false ->
    let skipped :=
      {| rr_set := false; rr_transactionHash := None;
         rr_reason := Some "not_owner"%string |} in
    (outcome (L1Naming.setReverseResolution E options (w, tr)) = Ok skipped
     /\ writes (final_trace (L1Naming.setReverseResolution E options (w, tr)))
        = writes tr)
    /\ (outcome (L2Naming.setReverseResolution E options (w, tr)) = Ok skipped
        /\ writes (final_trace (L2Naming.setReverseResolution E options (w, tr)))
           = writes tr).
Proof.
  intros World E options w tr r a wc reg Ho Hr Hne skipped.
  pose proof (not_owner_check E options w r Ho Hr Hne) as Hc.
  pose proof (owner_check_reads_no_write E options w) as Hn.
  rewrite (setReverseResolution_L1_skips E options w tr Hc).
  rewrite (setReverseResolution_L2_skips E options w tr Hc).
  unfold outcome, final_trace; simpl.
  rewrite writes_app, Hn, app_nil_r. repeat split.
Qed.

Lemma setReverseResolution_not_owner_witness :
  let options :=
    Toy.options "foo.bar.eth" Toy.target (Toy.client Toy.alice) Ownable None false in
  let s := Toy.start Scenario.owned_by_bob in
  let skipped :=
    {| rr_set := false; rr_transactionHash := None;
       rr_reason := Some "not_owner"%string |} in
  (outcome (L1Naming.setReverseResolution Toy.env options s) = Ok skipped
   /\ writes (final_trace (L1Naming.setReverseResolution Toy.env options s)) = [])
  /\ (outcome (L2Naming.setReverseResolution Toy.env options s) = Ok skipped
      /\ writes (final_trace (L2Naming.setReverseResolution Toy.env options s)) = []).
Proof.
  intros options s skipped.
  apply (setReverseResolution_not_owner Toy.World Toy.env options
           Scenario.owned_by_bob [] Toy.bob); reflexivity.
Defined.



(** ** Subname creation *)

Section Subname.
Context {World : Type} (E : Env World).
Variable options : StepOptions.
Variable w : World.

Hypothesis name_has_dot : has_dot (name options) = true.

Lemma createSubname_L1_as_specified :
  record_absent E options w ->
  creates_child_as_specified E (L1Naming.createSubname E) options w.
Proof.
  intros Habs b Hb. unfold record_absent in Habs.
  unfold L1Naming.createSubname.
  rewrite parseNormalizedName_eq, name_has_dot.
  unfold_async. cbn [fst snd Utils.label Utils.parent].
  rewrite Habs. cbn [truthy]. cbv iota. cbn [fst snd].
  rewrite Hb. unfold specified_child_write.
  destruct b; cbn [truthy]; cbv iota;
    destruct (default false (enableMetrics options));
    destruct_env; reflexivity.
Qed.

(** L2Naming.ts reads the resolver of the parent node from the registry,
    never asks the wrapper, and always writes on the registry. *)
Lemma createSubname_L2_writes (tr : list Event) (resolver : Value) :
  let wc := walletClient options in
  let c := contracts options in
  let parentNode := namehash E (after_first_dot (name options)) in
  record_absent E options w ->
  env_readContract E wc (resolver_call c parentNode) w = Ok resolver ->
  let run := L2Naming.createSubname E options (w, tr) in
  writes (final_trace run) =
  writes tr ++
  [EvWrite wc
     {| call_address := Some (ENS_REGISTRY c);
        call_abi := ensRegistryABI;
        functionName := "setSubnodeRecord";
        args := [VString parentNode;
                 VString (labelhash E (before_first_dot (name options)));
                 of_option_string (account_address wc); resolver;
                 VNumber (JNum 0)] |}]
  /\ reads (final_trace run) =
     reads tr ++
     [EvRead wc (recordExists_call c (namehash E (name options)));
      EvRead wc (resolver_call c parentNode)].
Proof.
  intros wc c parentNode Habs Hres run.
  subst run wc c parentNode. unfold record_absent in Habs.
  unfold L2Naming.createSubname.
  rewrite parseNormalizedName_eq, name_has_dot.
  unfold_async. cbn [fst snd Utils.label Utils.parent].
  rewrite Habs. cbn [truthy]. cbv iota. cbn [fst snd].
  rewrite Hres.
  destruct (default false (enableMetrics options));
    destruct_env; trace_simpl; rewrite <- ?app_assoc; split; reflexivity.
Qed.
End Subname.

(** C7, as stated, fails on L2Naming.ts.  With the record of
    ["foo.bar.eth"] absent and the parent ["bar.eth"] wrapped,
    [L2Naming.createSubname] does not write through the name wrapper and
    does not set the configured public resolver: its write is
    [setSubnodeRecord] on the registry, with the resolver of the parent. *)
Lemma createSubname_L2_not_as_specified :
  let options :=
    Toy.options "foo.bar.eth" Toy.target (Toy.client Toy.alice) Ownable None false in
  record_absent Toy.env options Scenario.wrapped_parent
  /\ env_readContract Toy.env (Toy.client Toy.alice)
       (isWrapped_call Toy.sepolia "bar.eth") Scenario.wrapped_parent
     = Ok (VBool true)
  /\ writes (final_trace (L2Naming.createSubname Toy.env options
                            (Toy.start Scenario.wrapped_parent)))
     = [EvWrite (Toy.client Toy.alice)
          (registry_setSubnodeRecord_call Toy.sepolia "bar.eth" "foo"
             (VString Toy.alice) (VString Scenario.custom_resolver))]
  /\ ~ creates_child_as_specified Toy.env (L2Naming.createSubname Toy.env)
         options Scenario.wrapped_parent.
Proof.
  intros options. repeat split; try reflexivity.
  intros H. specialize (H true eq_refl).
  vm_compute in H. discriminate H.
Qed.

(** C7, amended.  For a name with a parent whose record does not exist:
    [createSubname] of L1Naming.ts branches on whether the parent node is
    wrapped, writing through the name wrapper when it is and on the
    registry otherwise, and in both branches asks for owner = the caller's
    account, resolver = the configured public resolver, zero TTL (and zero
    fuses and expiry).  [createSubname] of L2Naming.ts does not consult the
    wrapper: it reads the resolver of the parent node from the registry and
    always writes [setSubnodeRecord] on the registry, with owner = the
    caller's account, that resolver, and zero TTL. *)
Theorem createSubname_child_record :
  forall (World : Type) (E : Env World) (options : StepOptions) (w : World),
    has_dot (name options) = true ->
    record_absent E options w ->
    let wc := walletClient options in
    let c := contracts options in
    let parentNode := namehash E (after_first_dot (name options)) in
    creates_child_as_specified E (L1Naming.createSubname E) options w
    /\ (forall resolver : Value,
           env_readContract E wc (resolver_call c parentNode) w = Ok resolver ->
           let run := L2Naming.createSubname E options (w, []) in
           writes (final_trace run) =
           [EvWrite wc
              {| call_address := Some (ENS_REGISTRY c);
                 call_abi := ensRegistryABI;
                 functionName := "setSubnodeRecord";
                 args := [VString parentNode;
                          VString (labelhash E (before_first_dot (name options)));
                          of_option_string (account_address wc); resolver;
                          VNumber (JNum 0)] |}]
           /\ reads (final_trace run) =
              [EvRead wc (recordExists_call c (namehash E (name options)));
               EvRead wc (resolver_call c parentNode)]).
Proof.
  intros World E options w Hdot Habs wc c parentNode. split.
  - apply createSubname_L1_as_specified; assumption.
  - intros resolver Hres.
    exact (createSubname_L2_writes E options w Hdot [] resolver Habs Hres).
Qed.

Lemma createSubname_child_record_witness :
  let options :=
    Toy.options "foo.bar.eth" Toy.target (Toy.client Toy.alice) Ownable None false in
  let wc := Toy.client Toy.alice in
  creates_child_as_specified Toy.env (L1Naming.createSubname Toy.env) options
    Scenario.wrapped_parent
  /\ (forall resolver : Value,
         env_readContract Toy.env wc (resolver_call Toy.sepolia "bar.eth")
           Scenario.wrapped_parent = Ok resolver ->
         let run := L2Naming.createSubname Toy.env options
                      (Scenario.wrapped_parent, []) in
         writes (final_trace run) =
         [EvWrite wc
            {| call_address := Some (ENS_REGISTRY Toy.sepolia);
               call_abi := ensRegistryABI;
               functionName := "setSubnodeRecord";
               args := [VString "bar.eth"; VString "foo";
                        VString Toy.alice; resolver; VNumber (JNum 0)] |}]
         /\ reads (final_trace run) =
            [EvRead wc (recordExists_call Toy.sepolia "foo.bar.eth");
             EvRead wc (resolver_call Toy.sepolia "bar.eth")]).
Proof.
  intros options wc.
  apply (createSubname_child_record Toy.World Toy.env options
           Scenario.wrapped_parent); reflexivity.
Defined.

(** ** Idempotence of the write steps *)

Section WriteSteps.
Context {World : Type} (E : Env World).
Variable options : StepOptions.

Lemma createSubname_L1_skips (w : World) (tr : list Event) :
  has_dot (name options) = true ->
  record_present E options w ->
  L1Naming.createSubname E options (w, tr) =
  (Ok subname_skipped,
   (w, tr ++ [EvRead (walletClient options)
                (recordExists_call (contracts options)
                   (namehash E (name options)))])).
Proof.
  intros Hdot Hp. unfold record_present in Hp.
  unfold L1Naming.createSubname.
  rewrite parseNormalizedName_eq, Hdot.
  unfold_async. cbn [fst snd Utils.label Utils.parent].
  rewrite Hp. reflexivity.
Qed.

Lemma createSubname_L2_skips (w : World) (tr : list Event) :
  has_dot (name options) = true ->
  record_present E options w ->
  L2Naming.createSubname E options (w, tr) =
  (Ok subname_skipped,
   (w, tr ++ [EvRead (walletClient options)
                (recordExists_call (contracts options)
                   (namehash E (name options)))])).
Proof.
  intros Hdot Hp. unfold record_present in Hp.
  unfold L2Naming.createSubname.
  rewrite parseNormalizedName_eq, Hdot.
  unfold_async. cbn [fst snd Utils.label Utils.parent].
  rewrite Hp. reflexivity.
Qed.

End WriteSteps.

(** ** Forward resolution *)

(** L1Naming.ts and L2Naming.ts hold the same [setForwardResolution]. *)
Lemma setForwardResolution_L2_L1 {World : Type} (E : Env World)
      (options : StepOptions) :
  L2Naming.setForwardResolution E options = L1Naming.setForwardResolution E options.
Proof. reflexivity. Qed.

Section Forward.
Context {World : Type} (E : Env World).
Variable options : StepOptions.

Lemma setForwardResolution_skips (w : World) (tr : list Event) :
  forward_record_is_target E options w ->
  L1Naming.setForwardResolution E options (w, tr) =
  (Ok forward_skipped, (w, tr ++ [forward_read E options])).
Proof.
  intros (cur & Hread & Heq).
  unfold L1Naming.setForwardResolution.
  unfold_async. cbn [fst snd].
  rewrite Hread. cbn. rewrite Heq, String.eqb_refl. reflexivity.
Qed.

Lemma setForwardResolution_writes (w : World) (tr : list Event) :
  forward_record_differs E options w ->
  writes (final_trace (L1Naming.setForwardResolution E options (w, tr)))
  = writes tr ++ [forward_write E options].
Proof.
  intros (cur & Hread & Hne).
  apply String.eqb_neq in Hne.
  unfold L1Naming.setForwardResolution.
  unfold_async. cbn [fst snd].
  rewrite Hread. cbn [fst snd]. cbv iota. rewrite Hne.
  destruct (default false (enableMetrics options));
    destruct_env; trace_simpl; reflexivity.
Qed.

(** What decides between skipping and writing is the record that
    [current_addr_call] selects: the coin-type record when [coinType] is a
    truthy number, the default record otherwise. *)
Lemma setForwardResolution_decision (w : World) (tr : list Event) (cur : string) :
  env_readContract E (walletClient options)
    (current_addr_call (contracts options) (namehash E (name options))
       (coinType options)) w = Ok (VString cur) ->
  let run := L1Naming.setForwardResolution E options (w, tr) in
  if String.eqb (toLowerCase cur) (toLowerCase (contractAddress options))
  then outcome run = Ok forward_skipped /\ writes (final_trace run) = writes tr
  else writes (final_trace run) = writes tr ++ [forward_write E options].
Proof.
  intros Hread run. subst run.
  destruct (String.eqb_spec (toLowerCase cur) (toLowerCase (contractAddress options)))
    as [Heq|Hne].
  - rewrite setForwardResolution_skips by (exists cur; auto).
    trace_simpl. auto.
  - apply setForwardResolution_writes. exists cur; auto.
Qed.
End Forward.

(** A name without a dot is refused before any call. *)
Lemma createSubname_L1_no_dot {World : Type} (E : Env World)
      (options : StepOptions) (s : St World) :
  has_dot (name options) = false ->
  L1Naming.createSubname E options s = (Throw invalid_name, s).
Proof.
  intros H. unfold L1Naming.createSubname.
  rewrite parseNormalizedName_eq, H. reflexivity.
Qed.

Lemma createSubname_L2_no_dot {World : Type} (E : Env World)
      (options : StepOptions) (s : St World) :
  has_dot (name options) = false ->
  L2Naming.createSubname E options s = (Throw invalid_name, s).
Proof.
  intros H. unfold L2Naming.createSubname.
  rewrite parseNormalizedName_eq, H. reflexivity.
Qed.

(** ** Runs whose write goes through *)

Section GoesThrough.
Context {World : Type} (E : Env World).
Variable options : StepOptions.


Lemma createSubname_undelivered (l2 : bool) (v : Value) (w : World)
      (tr : list Event) (tx : string) (w2 w3 : World) (e : Exn) :
  has_dot (name options) = true ->
  subname_goes_through E l2 options v w tx w2 ->
  default false (enableMetrics options) = true ->
  telemetry_fails E e w2 w3 ->
  exists evs : list Event,
    current_createSubname E l2 options (w, tr) = (Throw e, (w3, tr ++ evs))
    /\ writes evs = [EvWrite (walletClient options) (subname_call E l2 options v)].
Proof.
  intros Hdot (Habs & Hprobe & w1 & Hwrite & Hwait) Hen Hfail.
  unfold record_absent in Habs. unfold telemetry_fails in Hfail.
  unfold subname_probe in Hprobe. unfold subname_call in Hwrite.
  unfold current_createSubname, subname_call.
  destruct l2; unfold L1Naming.createSubname, L2Naming.createSubname;
    rewrite parseNormalizedName_eq, Hdot, Hen;
    unfold_async; cbn [fst snd Utils.label Utils.parent];
    rewrite Habs; cbn [truthy fst snd]; rewrite Hprobe; cbn [fst snd];
    try (destruct (truthy v)); cbn [fst snd];
    rewrite Hwrite; cbn [fst snd]; rewrite Hwait; cbn [fst snd];
    rewrite Hfail; cbn [fst snd];
    rewrite <- ?app_assoc; cbn [app];
    (eexists; split; [reflexivity|reflexivity]).
Qed.


Lemma setForwardResolution_undelivered (w : World) (tr : list Event) (tx : string)
      (w2 w3 : World) (e : Exn) :
  forward_goes_through E options w tx w2 ->
  default false (enableMetrics options) = true ->
  telemetry_fails E e w2 w3 ->
  exists evs : list Event,
    L1Naming.setForwardResolution E options (w, tr) = (Throw e, (w3, tr ++ evs))
    /\ writes evs = [forward_write E options].
Proof.
  intros ((cur & Hread & Hne) & w1 & Hwrite & Hwait) Hen Hfail.
  apply String.eqb_neq in Hne.
  unfold telemetry_fails in Hfail.
  unfold L1Naming.setForwardResolution, forward_write. rewrite Hen.
  unfold_async; cbn [fst snd];
    rewrite Hread; cbn [fst snd]; cbv iota; rewrite Hne;
    cbn [fst snd]; rewrite Hwrite; cbn [fst snd]; rewrite Hwait; cbn [fst snd];
    rewrite Hfail; cbn [fst snd];
    rewrite <- ?app_assoc; cbn [app];
    (eexists; split; [reflexivity|reflexivity]).
Qed.

Lemma setReverseResolution_undelivered (l2 : bool) (call : ContractCall)
      (w : World) (tr : list Event) (tx : string) (w2 w3 : World) (e : Exn) :
  reverse_goes_through E l2 options call w tx w2 ->
  default false (enableMetrics options) = true ->
  telemetry_fails E e w2 w3 ->
  exists evs : list Event,
    current_setReverseResolution E l2 options (w, tr) = (Throw e, (w3, tr ++ evs))
    /\ writes evs = [EvWrite (walletClient options) call].
Proof.
  intros (Ho & Hcall & w1 & Hwrite & Hwait) Hen Hfail.
  unfold telemetry_fails in Hfail. unfold reverse_call in Hcall.
  pose proof (owner_check_reads_no_write E options w) as Hn.
  unfold current_setReverseResolution.
  destruct l2; unfold L1Naming.setReverseResolution, L2Naming.setReverseResolution,
                 bind;
    rewrite isContractOwner_run, Ho, Hen; cbn [fst snd];
    destruct (contractType options); try discriminate;
    inversion Hcall; subst call;
    unfold_async; cbn [fst snd negb];
    rewrite Hwrite; cbn [fst snd]; rewrite Hwait; cbn [fst snd];
    rewrite Hfail; cbn [fst snd];
    rewrite <- ?app_assoc;
    (eexists; split; [reflexivity|]);
    rewrite writes_app, Hn; reflexivity.
Qed.
End GoesThrough.




(** C9. A [coinType] of 0 is supplied and yet treated as absent, because
    the test is [coinType ? .. : ..].  With the default record equal to the
    target and the record of coin type 0 unset, [setForwardResolution]
    (of L1Naming.ts, of L2Naming.ts, and the one that naming.ts exports)
    with [coinType = 0] reads the default record and skips, although the
    coin-type record differs from the target.  With the record of coin type
    0 equal to the target and the default record unset, it does not skip:
    it writes [setAddr(node, target)] on the default record. *)
Theorem setForwardResolution_coinType_zero :
  let wc := Toy.client Toy.alice in
  let options :=
    Toy.options "foo.bar.eth" Toy.target wc Ownable (Some (JNum 0)) false in
  let qualified := addr_coin_call Toy.sepolia "foo.bar.eth" (JNum 0) in
  let unqualified := addr_call Toy.sepolia "foo.bar.eth" in
  (env_readContract Toy.env wc qualified Scenario.default_record_set
   = Ok (VString Toy.zero_address)
   /\ toLowerCase Toy.zero_address <> toLowerCase Toy.target
   /\ L1Naming.setForwardResolution Toy.env options
        (Toy.start Scenario.default_record_set)
      = (Ok forward_skipped, (Scenario.default_record_set, [EvRead wc unqualified]))
   /\ L2Naming.setForwardResolution Toy.env options
        (Toy.start Scenario.default_record_set)
      = (Ok forward_skipped, (Scenario.default_record_set, [EvRead wc unqualified]))
   /\ NamingStandalone.setForwardResolution Toy.env options
        (Toy.start Scenario.default_record_set)
      = (Ok forward_skipped, (Scenario.default_record_set, [EvRead wc unqualified])))
  /\ (env_readContract Toy.env wc qualified Scenario.coin0_record_set
      = Ok (VString Toy.target)
      /\ outcome (L1Naming.setForwardResolution Toy.env options
                    (Toy.start Scenario.coin0_record_set))
         = Ok {| fr_set := true; fr_transactionHash := Some "0xtx0"%string |}
      /\ writes (final_trace (L1Naming.setForwardResolution Toy.env options
                                (Toy.start Scenario.coin0_record_set)))
         = [EvWrite wc (setAddr_call Toy.sepolia "foo.bar.eth" Toy.target)]).
Proof.
  intros wc options qualified unqualified.
  repeat split; try reflexivity.
  vm_compute. discriminate.
Qed.

(** ** Telemetry *)

Lemma bind_inv {World A B : Type} (m : Async World A) (k : A -> Async World B)
      (s : St World) (r : B) (s' : St World) :
  bind m k s = (Ok r, s') ->
  exists (a : A) (s1 : St World), m s = (Ok a, s1) /\ k a s1 = (Ok r, s').
Proof.
  unfold bind. destruct (m s) as [[a|e] s1]; [|discriminate].
  intros H. exists a, s1. split; [reflexivity|exact H].
Qed.

Lemma bind_ok {World A B : Type} (m : Async World A) (k : A -> Async World B)
      (s : St World) (a : A) (s1 : St World) :
  m s = (Ok a, s1) -> bind m k s = k a s1.
Proof. unfold bind. now intros ->. Qed.

Lemma bind_throw {World A B : Type} (m : Async World A) (k : A -> Async World B)
      (s : St World) (e : Exn) (s1 : St World) :
  m s = (Throw e, s1) -> bind m k s = (Throw e, s1).
Proof. unfold bind. now intros ->. Qed.

Ltac fetch_contra Hdown :=
  match goal with
  | H : env_fetch ?E ?u ?m ?w = (Ok _, _) |- _ =>
      let e := fresh "e" in
      let w' := fresh "w" in
      let Hd := fresh "H" in
      destruct (Hdown u m w) as (e & w' & Hd); rewrite Hd in H; discriminate H
  end.

Section TelemetryDown.
Context {World : Type} (E : Env World).
Variable options : StepOptions.
Hypothesis enabled : default false (enableMetrics options) = true.
Hypothesis down : telemetry_down E.

Lemma createSubname_L1_down (s : St World) (r : CreateSubnameResult) (s' : St World) :
  L1Naming.createSubname E options s = (Ok r, s') -> created r = false.
Proof.
  destruct s as [w tr]. unfold L1Naming.createSubname. rewrite enabled.
  destruct (Utils.parseNormalizedName (name options)) as [parsed|e];
    unfold_async; cbn [fst snd]; [|discriminate].
  destruct (env_readContract E _ (recordExists_call _ _) w) as [v|e];
    [|discriminate].
  destruct (truthy v); [intros H; inversion H; reflexivity|].
  cbn [fst snd].
  destruct (env_readContract E _ (isWrapped_call _ _) w) as [v'|e];
    [|discriminate].
  destruct (truthy v'); destruct_env; try discriminate;
    fetch_contra down.
Qed.

Lemma createSubname_L2_down (s : St World) (r : CreateSubnameResult) (s' : St World) :
  L2Naming.createSubname E options s = (Ok r, s') -> created r = false.
Proof.
  destruct s as [w tr]. unfold L2Naming.createSubname. rewrite enabled.
  destruct (Utils.parseNormalizedName (name options)) as [parsed|e];
    unfold_async; cbn [fst snd]; [|discriminate].
  destruct (env_readContract E _ (recordExists_call _ _) w) as [v|e];
    [|discriminate].
  destruct (truthy v); [intros H; inversion H; reflexivity|].
  cbn [fst snd].
  destruct (env_readContract E _ (resolver_call _ _) w) as [v'|e];
    [|discriminate].
  destruct_env; try discriminate; fetch_contra down.
Qed.

Lemma setForwardResolution_down (s : St World) (r : SetForwardResolutionResult)
      (s' : St World) :
  L1Naming.setForwardResolution E options s = (Ok r, s') -> fr_set r = false.
Proof.
  destruct s as [w tr]. unfold L1Naming.setForwardResolution. rewrite enabled.
  unfold_async; cbn [fst snd].
  destruct (env_readContract E _ _ w) as [[b|cur|n|]|e]; try discriminate.
  cbn [fst snd].
  destruct (String.eqb _ _); [intros H; inversion H; reflexivity|].
  destruct_env; try discriminate; fetch_contra down.
Qed.

Lemma setReverseResolution_L1_down (s : St World) (r : SetReverseResolutionResult)
      (s' : St World) :
  L1Naming.setReverseResolution E options s = (Ok r, s') -> rr_set r = false.
Proof.
  destruct s as [w tr]. unfold L1Naming.setReverseResolution, bind.
  rewrite isContractOwner_run, enabled.
  destruct (owner_check E _ _ _ w) as [[|]|e]; simpl; try discriminate.
  - destruct (contractType options); unfold_async;
      destruct_env; try discriminate; fetch_contra down.
  - unfold ret. intros H; inversion H; reflexivity.
Qed.

Lemma setReverseResolution_L2_down (s : St World) (r : SetReverseResolutionResult)
      (s' : St World) :
  L2Naming.setReverseResolution E options s = (Ok r, s') -> rr_set r = false.
Proof.
  destruct s as [w tr]. unfold L2Naming.setReverseResolution, bind.
  rewrite isContractOwner_run, enabled.
  destruct (owner_check E _ _ _ w) as [[|]|e]; simpl; try discriminate.
  - destruct (contractType options); unfold_async;
      destruct_env; try discriminate; fetch_contra down.
  - unfold ret. intros H; inversion H; reflexivity.
Qed.
End TelemetryDown.

Lemma recorded_false (h : option string) : recorded false h = None.
Proof. destruct h; reflexivity. Qed.

Ltac bind_inv_in H :=
  let a := fresh "a" in
  let s := fresh "s" in
  let Hm := fresh "Hm" in
  apply bind_inv in H; destruct H as (a & s & Hm & H).

Ltac ret_inv H := unfold ret in H; inversion H; subst; clear H.

Section TelemetryDownOrchestrator.
Context {World : Type} (E : Env World).
Hypothesis down : telemetry_down E.

Lemma l2_reverse_down (l2wc : WalletClient) (l2c : ENSContracts)
      (a n cid : string) (ct : ContractType) (op : string)
      (t t' : Transactions) (s s' : St World) :
  NamingStandalone.l2_reverse E l2wc l2c a n cid ct op true t s = (Ok t', s') ->
  t' = t.
Proof.
  destruct s as [w tr]. unfold NamingStandalone.l2_reverse.
  unfold_async. cbn [fst snd].
  destruct (env_readContract E l2wc _ w) as [v|e].
  - destruct_env; try (intros H; inversion H; reflexivity).
    fetch_contra down.
  - intros H; inversion H; reflexivity.
Qed.

(** With telemetry enabled and the endpoint down, [nameContract] can only
    return when no step performed a write that it records. *)
Lemma nameContract_standalone_down (options : NamingStandalone.NameContractOptions)
      (s : St World) (r : NameContractResult) (s' : St World) :
  default false (NamingStandalone.nc_enableMetrics options) = true ->
  NamingStandalone.nameContract E options s = (Ok r, s') ->
  transactions r = no_transactions.
Proof.
  intros Hen H. unfold NamingStandalone.nameContract in H.
  rewrite Hen in H. cbv zeta in H.
  bind_inv_in H. bind_inv_in H.
  bind_inv_in H. unfold NamingStandalone.createSubname in Hm1.
  bind_inv_in Hm1. apply createSubname_L1_down in Hm1; [|reflexivity|exact down].
  bind_inv_in H. unfold NamingStandalone.setForwardResolution in Hm3.
  bind_inv_in Hm3. apply setForwardResolution_down in Hm3; [|reflexivity|exact down].
  bind_inv_in H. unfold NamingStandalone.setReverseResolution in Hm5.
  bind_inv_in Hm5.
  apply setReverseResolution_L1_down in Hm5; [|reflexivity|exact down].
  rewrite Hm1, Hm3, Hm5 in *. rewrite !recorded_false in *. simpl in *.
  bind_inv_in H. ret_inv H. simpl.
  destruct (NamingStandalone.l2WalletClient options) as [l2wc|];
    [destruct (NamingStandalone.l2Contracts options) as [l2c|]|];
    try (ret_inv Hm7; reflexivity).
  bind_inv_in Hm7. unfold NamingStandalone.setForwardResolution in Hm8.
  bind_inv_in Hm8. apply setForwardResolution_down in Hm8; [|reflexivity|exact down].
  rewrite Hm8, recorded_false in Hm7. simpl in Hm7.
  now apply l2_reverse_down in Hm7.
Qed.
End TelemetryDownOrchestrator.

(** With telemetry disabled, the steps do not depend on the endpoint. *)
Lemma steps_without_telemetry {World : Type} (E : Env World)
      (f : string -> Metric -> World -> Outcome unit * World)
      (options : StepOptions) (s : St World) :
  default false (enableMetrics options) = false ->
  L1Naming.createSubname (with_fetch E f) options s
  = L1Naming.createSubname E options s
  /\ L2Naming.createSubname (with_fetch E f) options s
     = L2Naming.createSubname E options s
  /\ L1Naming.setForwardResolution (with_fetch E f) options s
     = L1Naming.setForwardResolution E options s
  /\ L1Naming.setReverseResolution (with_fetch E f) options s
     = L1Naming.setReverseResolution E options s
  /\ L2Naming.setReverseResolution (with_fetch E f) options s
     = L2Naming.setReverseResolution E options s.
Proof.
  intros Hen.
  unfold L1Naming.createSubname, L2Naming.createSubname,
    L1Naming.setForwardResolution, L1Naming.setReverseResolution,
    L2Naming.setReverseResolution.
  rewrite Hen. repeat split; reflexivity.
Qed.

(** C3, as stated, fails.  With telemetry enabled, [createSubname] (of
    L1Naming.ts and of L2Naming.ts) returns its performed result when the
    telemetry post succeeds, and throws the error of [fetch] when the post
    fails, on chains that are otherwise the same. *)
Lemma createSubname_telemetry_failure_propagates :
  let options :=
    Toy.options "foo.bar.eth" Toy.target (Toy.client Toy.alice) Ownable None true in
  let up := Toy.start Scenario.wrapped_parent in
  let down := Toy.start Scenario.wrapped_parent_telemetry_down in
  outcome (L1Naming.createSubname Toy.env options up)
  = Ok {| created := true; cs_transactionHash := Some "0xtx0"%string |}
  /\ outcome (L1Naming.createSubname Toy.env options down)
     = Throw (TypeError "fetch failed")
  /\ outcome (L2Naming.createSubname Toy.env options up)
     = Ok {| created := true; cs_transactionHash := Some "0xtx0"%string |}
  /\ outcome (L2Naming.createSubname Toy.env options down)
     = Throw (TypeError "fetch failed")
  /\ outcome (L1Naming.createSubname Toy.env options down)
     <> outcome (L1Naming.createSubname Toy.env options up).
Proof.
  intros options up down. repeat split; try reflexivity.
  vm_compute. discriminate.
Qed.

Section TelemetryCurrent.
Context {World : Type} (E : Env World).

(** With telemetry enabled and the endpoint down, the current
    [nameContract] too can only return when no step performed. *)
Lemma nameContract_current_down (request : Naming.NameContractOptions)
      (s : St World) (r : NameContractResult) (s' : St World) :
  telemetry_down E ->
  default false (Naming.nc_enableMetrics request) = true ->
  Naming.nameContract E request s = (Ok r, s') ->
  transactions r = no_transactions.
Proof.
  intros down Hen H. unfold Naming.nameContract in H.
  rewrite Hen in H. cbv zeta in H.
  apply bind_inv in H. destruct H as (cid & s0 & _ & H).
  apply bind_inv in H. destruct H as (c & s1 & _ & H).
  apply bind_inv in H. destruct H as (ct & s2 & _ & H).
  apply bind_inv in H. destruct H as (t & s3 & Ht & H).
  unfold ret in H. inversion H; subst; clear H. simpl.
  destruct (negb (Utils.isL2 (Utils.getNetworkInfo (Naming.chainName request)))).
  - apply bind_inv in Ht. destruct Ht as (r1 & s4 & H1 & Ht).
    apply bind_inv in Ht. destruct Ht as (r2 & s5 & H2 & Ht).
    apply bind_inv in Ht. destruct Ht as (r3 & s6 & H3 & Ht).
    unfold ret in Ht. inversion Ht; subst; clear Ht.
    apply createSubname_L1_down in H1; [|reflexivity|exact down].
    apply setForwardResolution_down in H2; [|reflexivity|exact down].
    apply setReverseResolution_L1_down in H3; [|reflexivity|exact down].
    rewrite H1, H2, H3, !recorded_false. reflexivity.
  - apply bind_inv in Ht. destruct Ht as (r1 & s4 & H1 & Ht).
    apply bind_inv in Ht. destruct Ht as (r2 & s5 & H2 & Ht).
    apply bind_inv in Ht. destruct Ht as (r3 & s6 & H3 & Ht).
    unfold ret in Ht. inversion Ht; subst; clear Ht.
    apply createSubname_L2_down in H1; [|reflexivity|exact down].
    rewrite setForwardResolution_L2_L1 in H2.
    apply setForwardResolution_down in H2; [|reflexivity|exact down].
    apply setReverseResolution_L2_down in H3; [|reflexivity|exact down].
    rewrite H1, H2, H3, !recorded_false. reflexivity.
Qed.

(** When the subname write of the current [nameContract] goes through and
    the post that follows fails, [nameContract] throws the error of the
    post. *)
Lemma nameContract_current_undelivered (request : Naming.NameContractOptions)
      (c : ENSContracts) (w0 : World) (tr : list Event) (v : Value)
      (tx : string) (w2 w3 : World) (e : Exn) :
  let l2 := Utils.isL2 (Utils.getNetworkInfo (Naming.chainName request)) in
  let cid := fst (env_randomUUID E w0) in
  let w := snd (env_randomUUID E w0) in
  default false (Naming.nc_enableMetrics request) = true ->
  env_getContractAddresses E
    (Utils.networkName (Utils.getNetworkInfo (Naming.chainName request))) = Ok c ->
  has_dot (Naming.nc_name request) = true ->
  (forall ct : ContractType,
      subname_goes_through E l2 (current_step request cid c ct None) v w tx w2) ->
  telemetry_fails E e w2 w3 ->
  threw_after_write (Naming.nameContract E request (w0, tr)) e w3 tr
    (Naming.nc_walletClient request)
    (subname_call E l2 (current_step request cid c Unknown None) v).
Proof.
  intros l2 cid w Hen Hc Hdot Hgo Hfail.
  assert (Hrun : exists evs : list Event,
             Naming.nameContract E request (w0, tr) = (Throw e, (w3, tr ++ evs))
             /\ writes evs
                = [EvWrite (Naming.nc_walletClient request)
                     (subname_call E l2 (current_step request cid c Unknown None) v)]).
  { unfold Naming.nameContract. cbv zeta.
    assert (Hu : randomUUID E (w0, tr) = (Ok cid, (w, tr))).
    { unfold randomUUID, cid, w. simpl. destruct (env_randomUUID E w0).
      reflexivity. }
    rewrite (bind_ok _ _ _ _ _ Hu).
    unfold bind at 1, lift. rewrite Hc.
    rewrite (bind_ok _ _ _ _ _
               (detectContractType_utils_frame E _ _ _ w tr)).
    set (ct := utils_type E (Naming.nc_contractAddress request)
                 (Naming.nc_walletClient request) (ENS_REGISTRY c) w).
    set (probes := utils_reads E (Naming.nc_contractAddress request)
                     (Naming.nc_walletClient request) (ENS_REGISTRY c) w).
    assert (Hq : writes probes = []).
    { unfold probes, utils_reads, probe_reads.
      destruct (Utils.address_rejected E _); destruct (ownable_probe E _ _ w);
        reflexivity. }
    destruct (createSubname_undelivered E (current_step request cid c ct None)
                l2 v w (tr ++ probes) tx w2 w3 e Hdot (Hgo ct) Hen Hfail)
      as (evs & Hrun & Hw).
    exists (probes ++ evs). rewrite app_assoc. split.
    - fold l2. unfold current_createSubname in Hrun.
      destruct l2; cbn [negb];
        (erewrite bind_throw; [reflexivity|]);
        (erewrite bind_throw; [reflexivity|]); exact Hrun.
    - rewrite writes_app, Hq, Hw. reflexivity. }
  destruct Hrun as (evs & Hrun & Hw). rewrite Hrun.
  unfold threw_after_write, outcome, final_world, final_trace. simpl.
  rewrite writes_app, Hw. repeat split.
Qed.
End TelemetryCurrent.

(** C3, amended.  The steps do not catch a failure of [logMetric].  With
    telemetry enabled, a step whose write went through and whose post then
    fails throws the error of the post instead of returning its performed
    result, after exactly that write: so [createSubname],
    [setForwardResolution] and [setReverseResolution], on either network;
    and [nameContract] (current revision), whose subname write went through,
    throws the error of the post to its caller.  With every post failing,
    the steps return only when they skip, and [nameContract] only with an
    empty [transactions].  With telemetry disabled, the steps do not depend
    on the endpoint. *)
Theorem telemetry_failure_not_caught :
  forall (World : Type) (E : Env World) (options : StepOptions),
    (default false (enableMetrics options) = true ->
     forall (e : Exn) (l2 : bool) (w : World) (tr : list Event) (tx : string)
            (w2 w3 : World),
       telemetry_fails E e w2 w3 ->
       (forall v : Value,
           has_dot (name options) = true ->
           subname_goes_through E l2 options v w tx w2 ->
           threw_after_write (current_createSubname E l2 options (w, tr)) e w3 tr
             (walletClient options) (subname_call E l2 options v))
       /\ (forward_goes_through E options w tx w2 ->
           threw_after_write (current_setForwardResolution E l2 options (w, tr))
             e w3 tr (walletClient options)
             (new_addr_call (contracts options) (namehash E (name options))
                (coinType options) (contractAddress options)))
       /\ (forall call : ContractCall,
              reverse_goes_through E l2 options call w tx w2 ->
              threw_after_write (current_setReverseResolution E l2 options (w, tr))
                e w3 tr (walletClient options) call))
    /\ (forall (request : Naming.NameContractOptions) (c : ENSContracts)
               (w0 : World) (tr : list Event) (v : Value) (tx : string)
               (w2 w3 : World) (e : Exn),
           let l2 := Utils.isL2 (Utils.getNetworkInfo (Naming.chainName request)) in
           let cid := fst (env_randomUUID E w0) in
           let w := snd (env_randomUUID E w0) in
           default false (Naming.nc_enableMetrics request) = true ->
           env_getContractAddresses E
             (Utils.networkName (Utils.getNetworkInfo (Naming.chainName request)))
           = Ok c ->
           has_dot (Naming.nc_name request) = true ->
           (forall ct : ContractType,
               subname_goes_through E l2 (current_step request cid c ct None)
                 v w tx w2) ->
           telemetry_fails E e w2 w3 ->
           threw_after_write (Naming.nameContract E request (w0, tr)) e w3 tr
             (Naming.nc_walletClient request)
             (subname_call E l2 (current_step request cid c Unknown None) v))
    /\ (default false (enableMetrics options) = true ->
        telemetry_down E ->
        forall s s' : St World,
          (forall r, L1Naming.createSubname E options s = (Ok r, s') ->
                     created r = false)
          /\ (forall r, L2Naming.createSubname E options s = (Ok r, s') ->
                        created r = false)
          /\ (forall r, L1Naming.setForwardResolution E options s = (Ok r, s') ->
                        fr_set r = false)
          /\ (forall r, L2Naming.setForwardResolution E options s = (Ok r, s') ->
                        fr_set r = false)
          /\ (forall r, L1Naming.setReverseResolution E options s = (Ok r, s') ->
                        rr_set r = false)
          /\ (forall r, L2Naming.setReverseResolution E options s = (Ok r, s') ->
                        rr_set r = false)
          /\ (forall request r,
                 default false (NamingStandalone.nc_enableMetrics request) = true ->
                 NamingStandalone.nameContract E request s = (Ok r, s') ->
                 transactions r = no_transactions)
          /\ (forall request r,
                 default false (Naming.nc_enableMetrics request) = true ->
                 Naming.nameContract E request s = (Ok r, s') ->
                 transactions r = no_transactions))
    /\ (default false (enableMetrics options) = false ->
        forall (f : string -> Metric -> World -> Outcome unit * World)
               (s : St World),
          L1Naming.createSubname (with_fetch E f) options s
          = L1Naming.createSubname E options s
          /\ L2Naming.createSubname (with_fetch E f) options s
             = L2Naming.createSubname E options s
          /\ L1Naming.setForwardResolution (with_fetch E f) options s
             = L1Naming.setForwardResolution E options s
          /\ L1Naming.setReverseResolution (with_fetch E f) options s
             = L1Naming.setReverseResolution E options s
          /\ L2Naming.setReverseResolution (with_fetch E f) options s
             = L2Naming.setReverseResolution E options s).
Proof.
  intros World E options. split; [|split; [|split]].
  - intros Hen e l2 w tr tx w2 w3 Hfail. split; [|split].
    + intros v Hdot Hgo.
      destruct (createSubname_undelivered E options l2 v w tr tx w2 w3 e
                  Hdot Hgo Hen Hfail) as (evs & Hrun & Hw).
      rewrite Hrun.
      unfold threw_after_write, outcome, final_world, final_trace. simpl.
      rewrite writes_app, Hw. repeat split.
    + intros Hgo.
      assert (Hsame : current_setForwardResolution E l2 options
                      = L1Naming.setForwardResolution E options)
        by (destruct l2; reflexivity).
      rewrite Hsame.
      destruct (setForwardResolution_undelivered E options w tr tx w2 w3 e
                  Hgo Hen Hfail) as (evs & Hrun & Hw).
      rewrite Hrun.
      unfold threw_after_write, outcome, final_world, final_trace. simpl.
      rewrite writes_app, Hw. repeat split.
    + intros call Hgo.
      destruct (setReverseResolution_undelivered E options l2 call w tr tx w2 w3 e
                  Hgo Hen Hfail) as (evs & Hrun & Hw).
      rewrite Hrun.
      unfold threw_after_write, outcome, final_world, final_trace. simpl.
      rewrite writes_app, Hw. repeat split.
  - intros request c w0 tr v tx w2 w3 e.
    apply nameContract_current_undelivered.
  - intros Hen Hdown s s'. repeat split; intros r.
    + apply createSubname_L1_down; assumption.
    + apply createSubname_L2_down; assumption.
    + apply setForwardResolution_down; assumption.
    + rewrite setForwardResolution_L2_L1.
      apply setForwardResolution_down; assumption.
    + apply setReverseResolution_L1_down; assumption.
    + apply setReverseResolution_L2_down; assumption.
    + intros res Hreq Hrun.
      exact (nameContract_standalone_down E Hdown r s res s' Hreq Hrun).
    + intros res Hreq Hrun.
      exact (nameContract_current_down E r s res s' Hdown Hreq Hrun).
  - intros Hen f s. apply steps_without_telemetry. exact Hen.
Qed.

Lemma telemetry_failure_not_caught_witness :
  let options :=
    Toy.options "foo.bar.eth" Toy.target (Toy.client Toy.alice) Ownable None true in
  let request := Scenario2.metrics_request "foo.bar.eth" Toy.target "sepolia" in
  let w := Scenario.wrapped_parent_telemetry_down in
  let w2 := Toy.set_registry "foo.bar.eth" Toy.alice (PUBLIC_RESOLVER Toy.sepolia) w in
  let w2' := Toy.set_registry "foo.bar.eth" Toy.alice Scenario.custom_resolver w in
  let e := TypeError "fetch failed" in
  threw_after_write (L1Naming.createSubname Toy.env options (w, [])) e w2 []
    (Toy.client Toy.alice)
    (wrapper_setSubnodeRecord_call Toy.sepolia "bar.eth" "foo"
       (VString Toy.alice) (VString (PUBLIC_RESOLVER Toy.sepolia)))
  /\ threw_after_write (L2Naming.createSubname Toy.env options (w, [])) e w2' []
       (Toy.client Toy.alice)
       (registry_setSubnodeRecord_call Toy.sepolia "bar.eth" "foo"
          (VString Toy.alice) (VString Scenario.custom_resolver))
  /\ threw_after_write (Naming.nameContract Toy.env request (w, [])) e w2 []
       (Toy.client Toy.alice)
       (wrapper_setSubnodeRecord_call Toy.sepolia "bar.eth" "foo"
          (VString Toy.alice) (VString (PUBLIC_RESOLVER Toy.sepolia))).
Proof.
  intros options request w w2 w2' e.
  destruct (telemetry_failure_not_caught Toy.World Toy.env options)
    as (Hsteps & Hname & _ & _).
  split; [|split].
  - assert (Hfail : telemetry_fails Toy.env e w2 w2) by (intros m; reflexivity).
    destruct (Hsteps eq_refl e false w [] "0xtx0" w2 w2 Hfail) as (Hsub & _ & _).
    apply (Hsub (VBool true) eq_refl).
    split; [reflexivity|]. split; [reflexivity|].
    exists w2. split; reflexivity.
  - assert (Hfail : telemetry_fails Toy.env e w2' w2') by (intros m; reflexivity).
    destruct (Hsteps eq_refl e true w [] "0xtx0" w2' w2' Hfail) as (Hsub & _ & _).
    apply (Hsub (VString Scenario.custom_resolver) eq_refl).
    split; [reflexivity|]. split; [reflexivity|].
    exists w2'. split; reflexivity.
  - assert (Hfail : telemetry_fails Toy.env e w2 w2) by (intros m; reflexivity).
    apply (Hname request Toy.sepolia w [] (VBool true) "0xtx0" w2 w2 e
             eq_refl eq_refl eq_refl).
    + intros ct. split; [reflexivity|]. split; [reflexivity|].
      exists w2. split; reflexivity.
    + exact Hfail.
Defined.


(** ** Invalid input *)

Section InvalidInput.
Context {World : Type} (E : Env World).

Lemma probe_reads_no_write (a : string) (wc : WalletClient) (c : ContractCall) :
  writes (probe_reads E a wc c) = [].
Proof. unfold probe_reads. destruct (Utils.address_rejected E a); reflexivity. Qed.

Lemma nameContract_monolith_no_dot (request : NamingMonolith.NameContractOptions)
      (s : St World) :
  has_dot (NamingMonolith.nc_name request) = false ->
  outcome (NamingMonolith.nameContract E request s) = Throw invalid_name
  /\ final_trace (NamingMonolith.nameContract E request s) = snd s.
Proof.
  intros H. destruct s as [w tr]. unfold NamingMonolith.nameContract.
  rewrite parseNormalizedName_eq, H.
  unfold NamingStandalone.correlationId_or_fresh.
  destruct (NamingMonolith.nc_correlationId request); unfold_async;
    destruct_env; split; reflexivity.
Qed.

Lemma probes_reject (a : string) (wc : WalletClient) (reg : string) (s : St World) :
  Utils.isAddressValid E a = false ->
  Utils.isOwnable E a wc s = (Ok false, s)
  /\ Utils.isReverseClaimable E a wc reg s = (Ok false, s)
  /\ Utils.isContractOwner E a wc reg s = (Ok false, s)
  /\ Utils.detectContractType E a wc reg s = (Ok Unknown, s)
  /\ NamingStandalone.detectContractType E a wc reg s = (Ok Unknown, s).
Proof.
  intros H.
  assert (Hr : Utils.address_rejected E a = true).
  { unfold Utils.address_rejected. rewrite H. apply orb_true_r. }
  unfold Utils.detectContractType, NamingStandalone.detectContractType,
    NamingStandalone.isOwnable, NamingStandalone.isReverseClaimable,
    Utils.isOwnable, Utils.isReverseClaimable, Utils.isContractOwner.
  rewrite Hr. repeat split; reflexivity.
Qed.
End InvalidInput.

Section InvalidInputRuns.
Context {World : Type} (E : Env World).

Lemma probes_read_first (a : string) (wc : WalletClient) (reg : string) (w : World) :
  Utils.address_rejected E a = false ->
  (exists evs : list Event,
      naming_reads E a wc reg w
      = EvRead wc (Utils.registry_owner_call reg (reverse_node E a)) :: evs)
  /\ (exists evs : list Event,
         utils_reads E a wc reg w = EvRead wc (Utils.owner_call a) :: evs).
Proof.
  intros H. unfold naming_reads, utils_reads, probe_reads. rewrite H.
  split; eexists; reflexivity.
Qed.

Lemma nameContract_standalone_no_dot_run
      (request : NamingStandalone.NameContractOptions) (s : St World) :
  has_dot (NamingStandalone.nc_name request) = false ->
  exists w0 : World,
    NamingStandalone.nameContract E request s
    = (Throw invalid_name,
       (w0, snd s ++ naming_reads E (NamingStandalone.nc_contractAddress request)
                       (NamingStandalone.l1WalletClient request)
                       (ENS_REGISTRY (NamingStandalone.l1Contracts request)) w0)).
Proof.
  intros H. destruct s as [w tr]. unfold NamingStandalone.nameContract. cbv zeta.
  assert (Hc : exists (cid : string) (w0 : World),
             NamingStandalone.correlationId_or_fresh E
               (NamingStandalone.nc_correlationId request) (w, tr)
             = (Ok cid, (w0, tr))).
  { unfold NamingStandalone.correlationId_or_fresh.
    destruct (NamingStandalone.nc_correlationId request) as [c|].
    - exists c, w. reflexivity.
    - unfold randomUUID. simpl. destruct (env_randomUUID E w) as [u w0].
      exists u, w0. reflexivity. }
  destruct Hc as (cid & w0 & Hc). exists w0.
  rewrite (bind_ok _ _ _ _ _ Hc).
  rewrite (bind_ok _ _ _ _ _ (detectContractType_naming_frame E _ _ _ w0 tr)).
  apply bind_throw. unfold NamingStandalone.createSubname.
  unfold bind at 1. simpl. unfold ret.
  apply createSubname_L1_no_dot. exact H.
Qed.

Lemma nameContract_current_no_dot_run (request : Naming.NameContractOptions)
      (contracts : ENSContracts) (s : St World) :
  has_dot (Naming.nc_name request) = false ->
  env_getContractAddresses E
    (Utils.networkName (Utils.getNetworkInfo (Naming.chainName request)))
  = Ok contracts ->
  Naming.nameContract E request s
  = (Throw invalid_name,
     (snd (env_randomUUID E (fst s)),
      snd s ++ utils_reads E (Naming.nc_contractAddress request)
                 (Naming.nc_walletClient request) (ENS_REGISTRY contracts)
                 (snd (env_randomUUID E (fst s))))).
Proof.
  intros H Hc. destruct s as [w tr]. unfold Naming.nameContract. cbv zeta.
  unfold bind at 1, randomUUID. cbn [fst snd].
  destruct (env_randomUUID E w) as [cid w0]. cbn [fst snd].
  unfold bind at 1, lift. rewrite Hc.
  rewrite (bind_ok _ _ _ _ _ (detectContractType_utils_frame E _ _ _ w0 tr)).
  apply bind_throw.
  destruct (Utils.isL2 _); cbn [negb]; apply bind_throw.
  - apply createSubname_L2_no_dot; exact H.
  - apply createSubname_L1_no_dot; exact H.
Qed.

Lemma setReverseResolution_rejected (options : StepOptions) (s : St World) :
  Utils.address_rejected E (contractAddress options) = true ->
  L1Naming.setReverseResolution E options s = (Ok L1Naming.not_owner, s)
  /\ L2Naming.setReverseResolution E options s = (Ok L2Naming.not_owner, s).
Proof.
  intros H. destruct s as [w tr].
  unfold L1Naming.setReverseResolution, L2Naming.setReverseResolution, bind.
  rewrite !isContractOwner_run. unfold owner_check, owner_check_reads.
  rewrite H. simpl. rewrite app_nil_r. split; reflexivity.
Qed.

Lemma detectContractType_rejected (a : string) (wc : WalletClient) (reg : string)
      (s : St World) :
  Utils.address_rejected E a = true ->
  Utils.detectContractType E a wc reg s = (Ok Unknown, s)
  /\ NamingStandalone.detectContractType E a wc reg s = (Ok Unknown, s).
Proof.
  intros Hr.
  unfold Utils.detectContractType, NamingStandalone.detectContractType,
    NamingStandalone.isOwnable, NamingStandalone.isReverseClaimable,
    Utils.isOwnable, Utils.isReverseClaimable.
  rewrite Hr. split; reflexivity.
Qed.

Lemma bind_ext {A B : Type} (m : Async World A) (k1 k2 : A -> Async World B)
      (s : St World) :
  (forall (a : A) (s1 : St World), k1 a s1 = k2 a s1) ->
  bind m k1 s = bind m k2 s.
Proof.
  intros H. unfold bind. destruct (m s) as [[a|e] s1]; [apply H|reflexivity].
Qed.

Lemma nameContract_standalone_rejected
      (request : NamingStandalone.NameContractOptions) (s : St World) :
  Utils.address_rejected E (NamingStandalone.nc_contractAddress request) = true ->
  NamingStandalone.nameContract E request s = standalone_unprobed E request s.
Proof.
  intros Hr. unfold NamingStandalone.nameContract, standalone_unprobed. cbv zeta.
  apply bind_ext. intros cid s0.
  rewrite (bind_ok _ _ _ _ _
             (proj2 (detectContractType_rejected _ _ _ s0 Hr))).
  apply bind_ext. intros r1 s1.
  apply bind_ext. intros r2 s2.
  assert (Hrev : NamingStandalone.setReverseResolution E
                   {| name := NamingStandalone.nc_name request;
                      contractAddress := NamingStandalone.nc_contractAddress request;
                      walletClient := NamingStandalone.l1WalletClient request;
                      contracts := NamingStandalone.l1Contracts request;
                      contractType := Unknown;
                      correlationId := Some cid;
                      opType := Some (default default_opType
                                        (NamingStandalone.nc_opType request));
                      coinType := None;
                      enableMetrics :=
                        Some (default false
                                (NamingStandalone.nc_enableMetrics request)) |} s2
                 = (Ok L1Naming.not_owner, s2)).
  { unfold NamingStandalone.setReverseResolution.
    unfold bind at 1. simpl. unfold ret.
    apply (setReverseResolution_rejected _ s2). exact Hr. }
  rewrite (bind_ok _ _ _ _ _ Hrev). reflexivity.
Qed.

Lemma nameContract_current_rejected (request : Naming.NameContractOptions)
      (s : St World) :
  Utils.address_rejected E (Naming.nc_contractAddress request) = true ->
  Naming.nameContract E request s = current_unprobed E request s.
Proof.
  intros Hr. unfold Naming.nameContract, current_unprobed. cbv zeta.
  apply bind_ext. intros cid s0.
  apply bind_ext. intros c s1.
  rewrite (bind_ok _ _ _ _ _
             (proj1 (detectContractType_rejected _ _ _ s1 Hr))).
  unfold current_createSubname, current_setForwardResolution, current_coin.
  destruct s1 as [w1 tr1].
  destruct (Utils.isL2 (Utils.getNetworkInfo (Naming.chainName request)));
    cbn [negb]; unfold bind, ret.
  - destruct (L2Naming.createSubname E _ (w1, tr1)) as [[r1|e] s2];
      [|reflexivity].
    destruct (L2Naming.setForwardResolution E _ s2) as [[r2|e] s3];
      [|reflexivity].
    match goal with
    | |- context [L2Naming.setReverseResolution E ?o s3] =>
        rewrite (proj2 (setReverseResolution_rejected o s3 Hr))
    end.
    reflexivity.
  - destruct (L1Naming.createSubname E _ (w1, tr1)) as [[r1|e] s2];
      [|reflexivity].
    destruct (L1Naming.setForwardResolution E _ s2) as [[r2|e] s3];
      [|reflexivity].
    match goal with
    | |- context [L1Naming.setReverseResolution E ?o s3] =>
        rewrite (proj1 (setReverseResolution_rejected o s3 Hr))
    end.
    reflexivity.
Qed.
End InvalidInputRuns.

(** C4, as stated, fails.  An address that fails validation raises no
    invalid-input error: [nameContract] goes on, reads the chain, has the
    subname created, and fails only when the client refuses the address in
    the second write.  And a name without a dot is refused only after the
    probes have read the chain. *)
Lemma nameContract_invalid_input_reaches_chain :
  let wc := Toy.client Toy.alice in
  let bad_address :=
    NamingStandalone.nameContract Toy.env
      (Scenario.request "foo.bar.eth" "not-an-address") (Toy.start Toy.empty) in
  let bad_name :=
    NamingStandalone.nameContract Toy.env
      (Scenario.request "eth" Toy.target) (Toy.start Scenario.owned_by_alice) in
  (Utils.isAddressValid Toy.env "not-an-address" = false
   /\ outcome bad_address = Throw (Error "Address is invalid")
   /\ reads (final_trace bad_address)
      = [EvRead wc (recordExists_call Toy.sepolia "foo.bar.eth");
         EvRead wc (isWrapped_call Toy.sepolia "bar.eth");
         EvRead wc (addr_call Toy.sepolia "foo.bar.eth")]
   /\ writes (final_trace bad_address)
      = [EvWrite wc (registry_setSubnodeRecord_call Toy.sepolia "bar.eth" "foo"
                       (VString Toy.alice)
                       (VString (PUBLIC_RESOLVER Toy.sepolia)));
         EvWrite wc (setAddr_call Toy.sepolia "foo.bar.eth" "not-an-address")]
   /\ Toy.registry (final_world bad_address)
      = [("foo.bar.eth"%string, (Toy.alice, PUBLIC_RESOLVER Toy.sepolia))])
  /\ (has_dot "eth" = false
      /\ Utils.isAddressValid Toy.env Toy.target = true
      /\ outcome bad_name = Throw invalid_name
      /\ reads (final_trace bad_name)
         = [EvRead wc (Utils.registry_owner_call (ENS_REGISTRY Toy.sepolia)
                         Scenario.reverse_name);
            EvRead wc (Utils.owner_call Toy.target)]).
Proof. repeat split; reflexivity. Qed.

(** C4, amended.  A name without a dot makes the naming operation fail with
    the error of [parseNormalizedName], without any write: [createSubname]
    and the first revision of [nameContract] fail before any call at all;
    the later revisions of [nameContract] fail after the contract-type
    probes, whose reads are then all there is in the trace, and which do
    read the chain when the address is accepted.  An address that fails
    validation raises no error: the probes and the ownership check answer
    false without reading the chain, the contract is classified Unknown, and
    [nameContract] runs as if it had neither classification nor
    reverse-resolution step: it goes on to its subname and forward-resolution
    steps. *)
Theorem invalid_input_handling :
  forall (World : Type) (E : Env World),
    (forall (options : StepOptions) (s : St World),
        has_dot (name options) = false ->
        L1Naming.createSubname E options s = (Throw invalid_name, s)
        /\ L2Naming.createSubname E options s = (Throw invalid_name, s))
    /\ (forall (request : NamingMonolith.NameContractOptions) (s : St World),
           has_dot (NamingMonolith.nc_name request) = false ->
           outcome (NamingMonolith.nameContract E request s) = Throw invalid_name
           /\ final_trace (NamingMonolith.nameContract E request s) = snd s)
    /\ (forall (request : NamingStandalone.NameContractOptions) (s : St World),
           has_dot (NamingStandalone.nc_name request) = false ->
           exists w0 : World,
             NamingStandalone.nameContract E request s
             = (Throw invalid_name,
                (w0, snd s
                     ++ naming_reads E (NamingStandalone.nc_contractAddress request)
                          (NamingStandalone.l1WalletClient request)
                          (ENS_REGISTRY (NamingStandalone.l1Contracts request))
                          w0)))
    /\ (forall (request : Naming.NameContractOptions) (contracts : ENSContracts)
               (s : St World),
           has_dot (Naming.nc_name request) = false ->
           env_getContractAddresses E
             (Utils.networkName (Utils.getNetworkInfo (Naming.chainName request)))
           = Ok contracts ->
           Naming.nameContract E request s
           = (Throw invalid_name,
              (snd (env_randomUUID E (fst s)),
               snd s ++ utils_reads E (Naming.nc_contractAddress request)
                          (Naming.nc_walletClient request) (ENS_REGISTRY contracts)
                          (snd (env_randomUUID E (fst s))))))
    /\ (forall (a : string) (wc : WalletClient) (reg : string) (w : World),
           Utils.address_rejected E a = false ->
           (exists evs : list Event,
               naming_reads E a wc reg w
               = EvRead wc (Utils.registry_owner_call reg (reverse_node E a)) :: evs)
           /\ (exists evs : list Event,
                  utils_reads E a wc reg w = EvRead wc (Utils.owner_call a) :: evs))
    /\ (forall (a : string) (wc : WalletClient) (reg : string) (s : St World),
           Utils.isAddressValid E a = false ->
           Utils.isOwnable E a wc s = (Ok false, s)
           /\ Utils.isReverseClaimable E a wc reg s = (Ok false, s)
           /\ Utils.isContractOwner E a wc reg s = (Ok false, s)
           /\ Utils.detectContractType E a wc reg s = (Ok Unknown, s)
           /\ NamingStandalone.detectContractType E a wc reg s = (Ok Unknown, s))
    /\ (forall (request : NamingStandalone.NameContractOptions) (s : St World),
           Utils.isAddressValid E (NamingStandalone.nc_contractAddress request)
           = false ->
           NamingStandalone.nameContract E request s
           = standalone_unprobed E request s)
    /\ (forall (request : Naming.NameContractOptions) (s : St World),
           Utils.isAddressValid E (Naming.nc_contractAddress request) = false ->
           Naming.nameContract E request s = current_unprobed E request s).
Proof.
  intros World E.
  assert (Hrej : forall a : string,
             Utils.isAddressValid E a = false -> Utils.address_rejected E a = true).
  { intros a H. unfold Utils.address_rejected. rewrite H. apply orb_true_r. }
  split; [|split; [|split; [|split; [|split; [|split; [|split]]]]]].
  - intros options s H. split.
    + apply createSubname_L1_no_dot; exact H.
    + apply createSubname_L2_no_dot; exact H.
  - apply nameContract_monolith_no_dot.
  - apply nameContract_standalone_no_dot_run.
  - apply nameContract_current_no_dot_run.
  - apply probes_read_first.
  - apply probes_reject.
  - intros request s H. apply nameContract_standalone_rejected. apply Hrej, H.
  - intros request s H. apply nameContract_current_rejected. apply Hrej, H.
Qed.

Lemma invalid_input_handling_witness :
  let wc := Toy.client Toy.alice in
  let s := Toy.start Scenario.owned_by_alice in
  NamingStandalone.nameContract Toy.env (Scenario.request "eth" Toy.target) s
  = (Throw invalid_name,
     (Scenario.owned_by_alice,
      [EvRead wc (Utils.registry_owner_call (ENS_REGISTRY Toy.sepolia)
                    Scenario.reverse_name);
       EvRead wc (Utils.owner_call Toy.target)]))
  /\ Naming.nameContract Toy.env (Scenario.current_request "eth" Toy.target) s
     = (Throw invalid_name,
        (Scenario.owned_by_alice, [EvRead wc (Utils.owner_call Toy.target)]))
  /\ Utils.detectContractType Toy.env "not-an-address" wc
       (ENS_REGISTRY Toy.sepolia) s = (Ok Unknown, s)
  /\ NamingStandalone.nameContract Toy.env
       (Scenario.request "foo.bar.eth" "not-an-address") (Toy.start Toy.empty)
     = standalone_unprobed Toy.env
         (Scenario.request "foo.bar.eth" "not-an-address") (Toy.start Toy.empty)
  /\ Naming.nameContract Toy.env
       (Scenario.current_request "foo.bar.eth" "not-an-address")
       (Toy.start Toy.empty)
     = current_unprobed Toy.env
         (Scenario.current_request "foo.bar.eth" "not-an-address")
         (Toy.start Toy.empty).
Proof.
  intros wc s.
  destruct (invalid_input_handling Toy.World Toy.env)
    as (_ & _ & Hstandalone & Hcurrent & _ & Hprobes & Hs & Hc).
  split; [|split; [|split; [|split]]].
  - destruct (Hstandalone (Scenario.request "eth" Toy.target) s eq_refl)
      as [w0 H].
    rewrite H. vm_compute in H. inversion H. reflexivity.
  - rewrite (Hcurrent (Scenario.current_request "eth" Toy.target) Toy.sepolia s
               eq_refl eq_refl).
    reflexivity.
  - apply (Hprobes "not-an-address" wc (ENS_REGISTRY Toy.sepolia) s). reflexivity.
  - apply (Hs (Scenario.request "foo.bar.eth" "not-an-address")). reflexivity.
  - apply (Hc (Scenario.current_request "foo.bar.eth" "not-an-address")).
    reflexivity.
Defined.


(** ** The orchestrator and contracts of unknown type *)

Section UnknownContract.
Context {World : Type} (E : Env World).

Lemma setReverseResolution_unknown (options : StepOptions) (s3 s4 : St World) :
  contractType options = Unknown ->
  Utils.isContractOwner E (contractAddress options) (walletClient options)
    (ENS_REGISTRY (contracts options)) s3 = (Ok true, s4) ->
  L1Naming.setReverseResolution E options s3 = (Throw unsupported_contract_type, s4)
  /\ L2Naming.setReverseResolution E options s3
     = (Throw unsupported_contract_type, s4).
Proof.
  intros Hct Ho.
  unfold L1Naming.setReverseResolution, L2Naming.setReverseResolution.
  rewrite !(bind_ok _ _ _ _ _ Ho), Hct. split; reflexivity.
Qed.

Lemma nameContract_standalone_success
      (request : NamingStandalone.NameContractOptions)
      (s : St World) (r : NameContractResult) (s' : St World) :
  NamingStandalone.nameContract E request s = (Ok r, s') -> success r = true.
Proof.
  intros H. unfold NamingStandalone.nameContract in H. cbv zeta in H.
  repeat bind_inv_in H. ret_inv H. reflexivity.
Qed.

Lemma nameContract_current_success (request : Naming.NameContractOptions)
      (s : St World) (r : NameContractResult) (s' : St World) :
  Naming.nameContract E request s = (Ok r, s') -> success r = true.
Proof.
  intros H. unfold Naming.nameContract in H. cbv zeta in H.
  repeat bind_inv_in H. ret_inv H. reflexivity.
Qed.

Lemma nameContract_monolith_success (request : NamingMonolith.NameContractOptions)
      (s : St World) (r : NameContractResult) (s' : St World) :
  NamingMonolith.nameContract E request s = (Ok r, s') -> success r = true.
Proof.
  intros H. unfold NamingMonolith.nameContract in H. cbv zeta in H.
  repeat bind_inv_in H. ret_inv H. reflexivity.
Qed.

Lemma nameContract_standalone_unknown
      (request : NamingStandalone.NameContractOptions)
      (cid : string) (r1 : CreateSubnameResult) (r2 : SetForwardResolutionResult)
      (s s0 s1 s2 s3 s4 : St World) :
  let step := standalone_step request cid Unknown in
  NamingStandalone.correlationId_or_fresh E
    (NamingStandalone.nc_correlationId request) s = (Ok cid, s0) ->
  NamingStandalone.detectContractType E (contractAddress step) (walletClient step)
    (ENS_REGISTRY (contracts step)) s0 = (Ok Unknown, s1) ->
  NamingStandalone.createSubname E step s1 = (Ok r1, s2) ->
  NamingStandalone.setForwardResolution E step s2 = (Ok r2, s3) ->
  NamingStandalone.isContractOwner E (contractAddress step) (walletClient step)
    (ENS_REGISTRY (contracts step)) s3 = (Ok true, s4) ->
  NamingStandalone.nameContract E request s = (Throw unsupported_contract_type, s4).
Proof.
  intros step Hc Hd H1 H2 Ho.
  unfold NamingStandalone.nameContract. cbv zeta.
  rewrite (bind_ok _ _ _ _ _ Hc), (bind_ok _ _ _ _ _ Hd).
  fold (standalone_step request cid Unknown). fold step.
  rewrite (bind_ok _ _ _ _ _ H1), (bind_ok _ _ _ _ _ H2).
  apply bind_throw.
  unfold NamingStandalone.setReverseResolution. simpl.
  unfold bind at 1, ret.
  apply (setReverseResolution_unknown step s3 s4 eq_refl Ho).
Qed.

Lemma nameContract_current_unknown (request : Naming.NameContractOptions)
      (c : ENSContracts) (cid : string) (r1 : CreateSubnameResult)
      (r2 : SetForwardResolutionResult) (s s0 s1 s2 s3 s4 : St World) :
  let info := Utils.getNetworkInfo (Naming.chainName request) in
  let l2 := Utils.isL2 info in
  let step := current_step request cid c Unknown in
  randomUUID E s = (Ok cid, s0) ->
  env_getContractAddresses E (Utils.networkName info) = Ok c ->
  Utils.detectContractType E (Naming.nc_contractAddress request)
    (Naming.nc_walletClient request) (ENS_REGISTRY c) s0 = (Ok Unknown, s1) ->
  current_createSubname E l2 (step None) s1 = (Ok r1, s2) ->
  current_setForwardResolution E l2 (step (current_coin l2 c)) s2 = (Ok r2, s3) ->
  Utils.isContractOwner E (Naming.nc_contractAddress request)
    (Naming.nc_walletClient request) (ENS_REGISTRY c) s3 = (Ok true, s4) ->
  Naming.nameContract E request s = (Throw unsupported_contract_type, s4).
Proof.
  intros info l2 step Hu Hc Hd H1 H2 Ho.
  unfold Naming.nameContract. cbv zeta.
  rewrite (bind_ok _ _ _ _ _ Hu).
  fold info. unfold bind at 1, lift. rewrite Hc.
  rewrite (bind_ok _ _ _ _ _ Hd).
  apply bind_throw. fold l2.
  unfold current_createSubname, current_setForwardResolution, current_coin in *.
  destruct l2; cbn [negb].
  - fold (step None). fold (step (Some (Number_of (COIN_TYPE c)))).
    rewrite (bind_ok _ _ _ _ _ H1), (bind_ok _ _ _ _ _ H2).
    apply bind_throw.
    apply (setReverseResolution_unknown (step None) s3 s4 eq_refl Ho).
  - fold (step None).
    rewrite (bind_ok _ _ _ _ _ H1), (bind_ok _ _ _ _ _ H2).
    apply bind_throw.
    apply (setReverseResolution_unknown (step None) s3 s4 eq_refl Ho).
Qed.
End UnknownContract.

(** C2, as stated, fails.  On a contract classified Unknown whose caller
    passes the ownership check, the subname and forward steps go through
    and the reverse step throws; but [nameContract] then returns no
    [NameContractResult] at all: it throws the same error. *)
Lemma nameContract_unknown_returns_nothing :
  let wc := Toy.client Toy.alice in
  let s := Toy.start Toy.empty in
  let run :=
    NamingStandalone.nameContract Toy.env
      (Scenario.request Scenario.reverse_name Toy.target) s in
  let current :=
    Naming.nameContract Toy.env
      (Scenario.current_request Scenario.reverse_name Toy.target) s in
  Utils.isAddressValid Toy.env Toy.target = true
  /\ outcome (NamingStandalone.detectContractType Toy.env Toy.target wc
                (ENS_REGISTRY Toy.sepolia) s) = Ok Unknown
  /\ writes (final_trace run)
     = [EvWrite wc (registry_setSubnodeRecord_call Toy.sepolia "addr.reverse"
                      "c0ffee0000000000000000000000000000000003"
                      (VString Toy.alice) (VString (PUBLIC_RESOLVER Toy.sepolia)));
        EvWrite wc (setAddr_call Toy.sepolia Scenario.reverse_name Toy.target)]
  /\ outcome run = Throw unsupported_contract_type
  /\ outcome current = Throw unsupported_contract_type
  /\ (forall r : NameContractResult, outcome run <> Ok r)
  /\ (forall r : NameContractResult, outcome current <> Ok r).
Proof.
  intros wc s run current.
  repeat split; try reflexivity; intros r H; vm_compute in H; discriminate H.
Qed.

(** C2, amended.  For a naming request whose contract is classified
    Unknown, whose subname and forward-resolution steps return, and whose
    caller passes the ownership check, the reverse-resolution step throws
    the unsupported-contract-type error without issuing a write, and
    [nameContract] throws that error to its caller: it returns no
    [NameContractResult].  Every [NameContractResult] that [nameContract]
    returns, in any revision, has [success = true]. *)
Theorem nameContract_unknown_contract :
  forall (World : Type) (E : Env World),
    (forall (request : NamingStandalone.NameContractOptions) (cid : string)
            (r1 : CreateSubnameResult) (r2 : SetForwardResolutionResult)
            (s s0 s1 s2 s3 s4 : St World),
        let step := standalone_step request cid Unknown in
        NamingStandalone.correlationId_or_fresh E
          (NamingStandalone.nc_correlationId request) s = (Ok cid, s0) ->
        NamingStandalone.detectContractType E (contractAddress step)
          (walletClient step) (ENS_REGISTRY (contracts step)) s0
        = (Ok Unknown, s1) ->
        NamingStandalone.createSubname E step s1 = (Ok r1, s2) ->
        NamingStandalone.setForwardResolution E step s2 = (Ok r2, s3) ->
        NamingStandalone.isContractOwner E (contractAddress step)
          (walletClient step) (ENS_REGISTRY (contracts step)) s3
        = (Ok true, s4) ->
        NamingStandalone.nameContract E request s
        = (Throw unsupported_contract_type, s4)
        /\ writes (snd s4) = writes (snd s3))
    /\ (forall (request : Naming.NameContractOptions) (c : ENSContracts)
               (cid : string) (r1 : CreateSubnameResult)
               (r2 : SetForwardResolutionResult) (s s0 s1 s2 s3 s4 : St World),
           let info := Utils.getNetworkInfo (Naming.chainName request) in
           let l2 := Utils.isL2 info in
           let step := current_step request cid c Unknown in
           randomUUID E s = (Ok cid, s0) ->
           env_getContractAddresses E (Utils.networkName info) = Ok c ->
           Utils.detectContractType E (Naming.nc_contractAddress request)
             (Naming.nc_walletClient request) (ENS_REGISTRY c) s0
           = (Ok Unknown, s1) ->
           current_createSubname E l2 (step None) s1 = (Ok r1, s2) ->
           current_setForwardResolution E l2 (step (current_coin l2 c)) s2
           = (Ok r2, s3) ->
           Utils.isContractOwner E (Naming.nc_contractAddress request)
             (Naming.nc_walletClient request) (ENS_REGISTRY c) s3
           = (Ok true, s4) ->
           Naming.nameContract E request s = (Throw unsupported_contract_type, s4)
           /\ writes (snd s4) = writes (snd s3))
    /\ (forall (s s' : St World) (r : NameContractResult),
           (forall request,
               NamingStandalone.nameContract E request s = (Ok r, s') ->
               success r = true)
           /\ (forall request,
                  Naming.nameContract E request s = (Ok r, s') ->
                  success r = true)
           /\ (forall request,
                  NamingMonolith.nameContract E request s = (Ok r, s') ->
                  success r = true)).
Proof.
  intros World E.
  assert (Hsame : forall a wc reg (s3 s4 : St World),
             Utils.isContractOwner E a wc reg s3 = (Ok true, s4) ->
             writes (snd s4) = writes (snd s3)).
  { intros a wc reg [w3 tr3] s4 Ho. rewrite isContractOwner_run in Ho.
    inversion Ho; subst. simpl. rewrite writes_app.
    unfold owner_check_reads.
    destruct (Utils.address_rejected E a); simpl; [now rewrite app_nil_r|].
    destruct (env_readContract E wc (Utils.owner_call a) w3) as [[?|?|?|]|?];
      simpl; now rewrite app_nil_r. }
  repeat apply conj.
  - intros request cid r1 r2 s s0 s1 s2 s3 s4 step Hc Hd H1 H2 Ho. split.
    + exact (nameContract_standalone_unknown E request cid r1 r2
               s s0 s1 s2 s3 s4 Hc Hd H1 H2 Ho).
    + exact (Hsame _ _ _ _ _ Ho).
  - intros request c cid r1 r2 s s0 s1 s2 s3 s4 info l2 step Hu Hc Hd H1 H2 Ho.
    split.
    + exact (nameContract_current_unknown E request c cid r1 r2
               s s0 s1 s2 s3 s4 Hu Hc Hd H1 H2 Ho).
    + exact (Hsame _ _ _ _ _ Ho).
  - intros s s' r. repeat split; intros request H.
    + exact (nameContract_standalone_success E request s r s' H).
    + exact (nameContract_current_success E request s r s' H).
    + exact (nameContract_monolith_success E request s r s' H).
Qed.

Lemma nameContract_unknown_contract_witness :
  let request := Scenario.request Scenario.reverse_name Toy.target in
  let step := standalone_step request "c-1" Unknown in
  let s := Toy.start Toy.empty in
  let s1 :=
    snd (NamingStandalone.detectContractType Toy.env Toy.target
           (Toy.client Toy.alice) (ENS_REGISTRY Toy.sepolia) s) in
  let s2 := snd (NamingStandalone.createSubname Toy.env step s1) in
  let s3 := snd (NamingStandalone.setForwardResolution Toy.env step s2) in
  let s4 :=
    snd (NamingStandalone.isContractOwner Toy.env Toy.target
           (Toy.client Toy.alice) (ENS_REGISTRY Toy.sepolia) s3) in
  NamingStandalone.nameContract Toy.env request s
  = (Throw unsupported_contract_type, s4)
  /\ writes (snd s4) = writes (snd s3).
Proof.
  intros request step s s1 s2 s3 s4.
  destruct (nameContract_unknown_contract Toy.World Toy.env) as [Hstandalone _].
  apply (Hstandalone request "c-1"%string
           {| created := true; cs_transactionHash := Some "0xtx0"%string |}
           {| fr_set := true; fr_transactionHash := Some "0xtx1"%string |}
           s s s1 s2 s3 s4); vm_compute; reflexivity.
Defined.

(* ================================================================== *)
(** * Further properties of the library *)
(* ================================================================== *)

(** ** Validation of addresses *)

Lemma trimStart_blank (s : string) :
  all_whitespace s = true -> trimStart s = EmptyString.
Proof.
  induction s as [|c r IH]; simpl; [reflexivity|].
  destruct (isWhiteSpace c); simpl; [exact IH|discriminate].
Qed.

Lemma trimStart_not_blank (s : string) :
  all_whitespace s = false ->
  exists (c : ascii) (r : string),
    trimStart s = String c r /\ isWhiteSpace c = false.
Proof.
  induction s as [|c r IH]; simpl; [discriminate|].
  destruct (isWhiteSpace c) eqn:Hc; simpl.
  - exact IH.
  - intros _. exists c, r. split; [reflexivity|exact Hc].
Qed.

Lemma trimEnd_keeps_head (c : ascii) (r : string) :
  isWhiteSpace c = false -> trimEnd (String c r) <> EmptyString.
Proof.
  intros Hc. simpl. destruct (trimEnd r); [rewrite Hc|]; discriminate.
Qed.

Lemma isEmpty_all_whitespace (value : string) :
  Utils.isEmpty value = all_whitespace value.
Proof.
  unfold Utils.isEmpty, trim.
  destruct (all_whitespace value) eqn:Hw.
  - rewrite (trimStart_blank value Hw). reflexivity.
  - destruct (trimStart_not_blank value Hw) as (c & r & Hs & Hc).
    rewrite Hs. pose proof (trimEnd_keeps_head c r Hc) as Hn.
    destruct (trimEnd (String c r)); [contradiction|reflexivity].
Qed.

(** X1. A string counts as empty exactly when all its characters are white
    space (the empty string included); so [isAddressValid] accepts a string
    exactly when it has a character that is not white space and viem's
    [isAddress] accepts it, and the guard of the probes rejects every other
    string. *)
Theorem address_validation_characterised :
  forall (World : Type) (E : Env World) (address : string),
    Utils.isEmpty address = all_whitespace address
    /\ Utils.isAddressEmpty address = all_whitespace address
    /\ Utils.isAddressValid E address
       = negb (all_whitespace address) && env_isAddress E address
    /\ Utils.address_rejected E address
       = all_whitespace address || negb (env_isAddress E address).
Proof.
  intros World E address.
  unfold Utils.address_rejected, Utils.isAddressValid, Utils.isAddressEmpty.
  rewrite isEmpty_all_whitespace.
  destruct (all_whitespace address), (env_isAddress E address);
    repeat split; reflexivity.
Qed.

(** ** Names *)

Lemma before_first_dot_no_dot (s : string) : has_dot (before_first_dot s) = false.
Proof.
  induction s as [|c r IH]; simpl; [reflexivity|].
  destruct (Ascii.eqb c ".") eqn:Hc; simpl; [reflexivity|].
  now rewrite Hc, IH.
Qed.

Lemma first_dot_split (s : string) :
  has_dot s = true ->
  (before_first_dot s ++ "." ++ after_first_dot s)%string = s.
Proof.
  induction s as [|c r IH]; simpl; [discriminate|].
  destruct (Ascii.eqb_spec c "."%char) as [->|Hc]; simpl.
  - reflexivity.
  - intros H. f_equal. apply IH. exact H.
Qed.

(** X2. What [parseNormalizedName] returns puts the name back together:
    label, dot, parent is the name that was parsed, and the label holds no
    dot. *)
Theorem parseNormalizedName_round_trip :
  forall (normalizedName : string) (parsed : Utils.ParsedName),
    Utils.parseNormalizedName normalizedName = Ok parsed ->
    (Utils.label parsed ++ "." ++ Utils.parent parsed)%string = normalizedName
    /\ has_dot (Utils.label parsed) = false.
Proof.
  intros n parsed H. rewrite parseNormalizedName_eq in H.
  destruct (has_dot n) eqn:Hd; [|discriminate].
  inversion H; subst; simpl. split.
  - apply first_dot_split; exact Hd.
  - apply before_first_dot_no_dot.
Qed.

Lemma parseNormalizedName_round_trip_witness :
  ("foo" ++ "." ++ "bar.eth")%string = "foo.bar.eth"%string
  /\ has_dot "foo" = false.
Proof.
  apply (parseNormalizedName_round_trip "foo.bar.eth"
           {| Utils.label := "foo"; Utils.parent := "bar.eth" |}).
  reflexivity.
Defined.

(** ** Networks *)

Lemma lower_ascii_idempotent (c : ascii) : lower_ascii (lower_ascii c) = lower_ascii c.
Proof. destruct c as [[] [] [] [] [] [] [] []]; reflexivity. Qed.

Lemma toLowerCase_idempotent (s : string) : toLowerCase (toLowerCase s) = toLowerCase s.
Proof.
  induction s as [|c r IH]; simpl; [reflexivity|].
  now rewrite lower_ascii_idempotent, IH.
Qed.

(** X3. [getNetworkInfo] does not depend on the case of the chain name:
    the network name it returns is the chain name in lower case, a chain
    is a secondary network exactly when that lower-case name is one of the
    ten listed, and asking again with the returned name changes nothing. *)
Theorem getNetworkInfo_case_insensitive :
  forall chainName : string,
    Utils.networkName (Utils.getNetworkInfo chainName) = toLowerCase chainName
    /\ Utils.isL2 (Utils.getNetworkInfo chainName)
       = existsb (String.eqb (toLowerCase chainName)) l2_chain_names
    /\ Utils.getNetworkInfo (toLowerCase chainName) = Utils.getNetworkInfo chainName
    /\ Utils.getNetworkInfo (Utils.networkName (Utils.getNetworkInfo chainName))
       = Utils.getNetworkInfo chainName.
Proof.
  intros chainName.
  assert (Hname : Utils.networkName (Utils.getNetworkInfo chainName)
                  = toLowerCase chainName).
  { unfold Utils.getNetworkInfo.
    destruct (_ || _); reflexivity. }
  assert (Hlow : Utils.getNetworkInfo (toLowerCase chainName)
                 = Utils.getNetworkInfo chainName).
  { unfold Utils.getNetworkInfo. now rewrite toLowerCase_idempotent. }
  repeat split.
  - exact Hname.
  - unfold Utils.getNetworkInfo, l2_chain_names. cbn [existsb].
    rewrite orb_false_r, !orb_assoc.
    destruct (_ || _); reflexivity.
  - exact Hlow.
  - rewrite Hname. exact Hlow.
Qed.

(** ** What the probes never do *)

Lemma probe_events_no_write (wc : WalletClient) (evs : list Event) :
  Forall (probe_event wc) evs -> writes evs = [].
Proof.
  induction 1 as [|e evs He _ IH]; [reflexivity|].
  destruct e; simpl in *; try contradiction. exact IH.
Qed.

Section ProbeFootprint.
Context {World : Type} (E : Env World).
Variables (a : string) (wc : WalletClient) (reg : string).

Lemma probe_reads_shape (c : ContractCall) :
  Forall (probe_event wc) (probe_reads E a wc c)
  /\ (List.length (probe_reads E a wc c) <= 1)%nat.
Proof.
  unfold probe_reads. destruct (Utils.address_rejected E a); simpl.
  - split; [constructor|lia].
  - split; [repeat constructor|lia].
Qed.

Lemma detectContractType_utils_shape (w : World) (tr : list Event) :
  exists (ct : ContractType) (evs : list Event),
    Utils.detectContractType E a wc reg (w, tr) = (Ok ct, (w, tr ++ evs))
    /\ Forall (probe_event wc) evs
    /\ (List.length evs <= 2)%nat.
Proof.
  unfold Utils.detectContractType, bind.
  rewrite isOwnable_run.
  destruct (probe_reads_shape (Utils.owner_call a)) as [Ho Lo].
  destruct (probe_reads_shape (Utils.registry_owner_call reg (reverse_node E a)))
    as [Hr Lr].
  destruct (ownable_probe E a wc w).
  - eexists; eexists; split; [reflexivity|]. split; [exact Ho|lia].
  - rewrite isReverseClaimable_run, <- app_assoc.
    destruct (reverse_probe E a wc reg w);
      (eexists; eexists; split; [reflexivity|]);
      (split; [apply Forall_app; split; assumption|rewrite length_app; lia]).
Qed.

Lemma detectContractType_naming_shape (w : World) (tr : list Event) :
  exists (ct : ContractType) (evs : list Event),
    NamingStandalone.detectContractType E a wc reg (w, tr) = (Ok ct, (w, tr ++ evs))
    /\ Forall (probe_event wc) evs
    /\ (List.length evs <= 2)%nat.
Proof.
  unfold NamingStandalone.detectContractType, NamingStandalone.isOwnable,
    NamingStandalone.isReverseClaimable, bind.
  rewrite isReverseClaimable_run.
  destruct (probe_reads_shape (Utils.owner_call a)) as [Ho Lo].
  destruct (probe_reads_shape (Utils.registry_owner_call reg (reverse_node E a)))
    as [Hr Lr].
  destruct (reverse_probe E a wc reg w).
  - eexists; eexists; split; [reflexivity|]. split; [exact Hr|lia].
  - rewrite isOwnable_run, <- app_assoc.
    destruct (ownable_probe E a wc w);
      (eexists; eexists; split; [reflexivity|]);
      (split; [apply Forall_app; split; assumption|rewrite length_app; lia]).
Qed.
End ProbeFootprint.

(** X4. Classification is harmless: in every revision [detectContractType]
    returns a contract type whatever the chain answers (it never throws),
    leaves the world as it is, and all it does is read through the given
    client, at most twice; it never writes and never posts telemetry. *)
Theorem detectContractType_only_reads :
  forall (World : Type) (E : Env World) (a : string) (wc : WalletClient)
         (reg : string),
    (pure_read (Utils.detectContractType E a wc reg)
     /\ footprint (probe_event wc) 0 (Utils.detectContractType E a wc reg)
     /\ forall s, (List.length (final_trace (Utils.detectContractType E a wc reg s))
                   <= List.length (snd s) + 2)%nat)
    /\ (pure_read (NamingStandalone.detectContractType E a wc reg)
        /\ footprint (probe_event wc) 0
             (NamingStandalone.detectContractType E a wc reg)
        /\ forall s,
            (List.length (final_trace
                            (NamingStandalone.detectContractType E a wc reg s))
             <= List.length (snd s) + 2)%nat)
    /\ (pure_read (NamingMonolith.detectContractType E a wc reg)
        /\ footprint (probe_event wc) 0
             (NamingMonolith.detectContractType E a wc reg)
        /\ forall s,
            (List.length (final_trace
                            (NamingMonolith.detectContractType E a wc reg s))
             <= List.length (snd s) + 2)%nat).
Proof.
  intros World E a wc reg.
  assert (Hgen : forall m : Async World ContractType,
             (forall w tr, exists ct evs,
                 m (w, tr) = (Ok ct, (w, tr ++ evs))
                 /\ Forall (probe_event wc) evs
                 /\ (List.length evs <= 2)%nat) ->
             pure_read m
             /\ footprint (probe_event wc) 0 m
             /\ forall s, (List.length (final_trace (m s))
                           <= List.length (snd s) + 2)%nat).
  { intros m Hm. repeat split.
    - destruct s as [w tr]. destruct (Hm w tr) as (ct & evs & -> & _).
      exists ct. reflexivity.
    - destruct s as [w tr]. destruct (Hm w tr) as (ct & evs & -> & _).
      reflexivity.
    - intros [w tr]. destruct (Hm w tr) as (ct & evs & -> & Hp & _).
      exists evs. repeat split; [exact Hp|].
      rewrite (probe_events_no_write wc evs Hp). simpl. lia.
    - intros [w tr]. destruct (Hm w tr) as (ct & evs & -> & _ & Hl).
      unfold final_trace; simpl. rewrite length_app. lia. }
  split; [|split]; apply Hgen; intros w tr.
  - apply detectContractType_utils_shape.
  - apply detectContractType_naming_shape.
  - apply (detectContractType_naming_shape E a wc reg w tr).
Qed.

(** ** The ownership check *)

(** X5. In the ownership check the contract's own [owner()] comes first:
    when it answers with an address, the check compares that address with
    the caller's account, ignoring case, and reads nothing else; what the
    registry says about the reverse node is not consulted, so an account
    that owns the reverse node of a contract owned by another account is
    not an owner. *)
Theorem isContractOwner_owner_first :
  forall (World : Type) (E : Env World) (a : string) (wc : WalletClient)
         (reg : string) (w : World) (tr : list Event) (o : string),
    Utils.address_rejected E a = false ->
    env_readContract E wc (Utils.owner_call a) w = Ok (VString o) ->
    Utils.isContractOwner E a wc reg (w, tr)
    = (Ok (match account_address wc with
           | Some acct => String.eqb (toLowerCase o) (toLowerCase acct)
           | None => false
           end),
       (w, tr ++ [EvRead wc (Utils.owner_call a)])).
Proof.
  intros World E a wc reg w tr o Hacc Hown.
  rewrite isContractOwner_run.
  unfold owner_check, owner_check_reads. rewrite Hacc, Hown. reflexivity.
Qed.

Lemma isContractOwner_owner_first_witness :
  let wc := Toy.client Toy.alice in
  reverse_probe Toy.env Toy.target wc (ENS_REGISTRY Toy.sepolia)
    Scenario2.claimed_by_alice_owned_by_bob = true
  /\ Utils.isContractOwner Toy.env Toy.target wc (ENS_REGISTRY Toy.sepolia)
       (Toy.start Scenario2.claimed_by_alice_owned_by_bob)
     = (Ok false,
        (Scenario2.claimed_by_alice_owned_by_bob,
         [EvRead wc (Utils.owner_call Toy.target)])).
Proof.
  intros wc. split; [reflexivity|].
  apply (isContractOwner_owner_first Toy.World Toy.env Toy.target wc
           (ENS_REGISTRY Toy.sepolia) Scenario2.claimed_by_alice_owned_by_bob
           [] Toy.bob); reflexivity.
Defined.

(** ** Footprint of the steps *)

Ltac footprint_leaf :=
  unfold final_trace; cbn [fst snd];
  first
    [ exists (@nil Event); split; [now rewrite app_nil_r|];
      split; [constructor|simpl; lia]
    | rewrite <- ?app_assoc; cbn [app]; eexists; split; [reflexivity|];
      split; [repeat constructor; simpl; auto|simpl; lia] ].

Lemma owner_check_reads_by_client {World : Type} (E : Env World)
      (options : StepOptions) (w : World) :
  Forall (step_event options)
    (owner_check_reads E (contractAddress options) (walletClient options)
       (ENS_REGISTRY (contracts options)) w)
  /\ writes (owner_check_reads E (contractAddress options) (walletClient options)
       (ENS_REGISTRY (contracts options)) w) = [].
Proof.
  unfold owner_check_reads.
  destruct (Utils.address_rejected E (contractAddress options));
    [split; [constructor|reflexivity]|].
  destruct (env_readContract E _ (Utils.owner_call _) w) as [[?|?|?|]|?];
    split; try reflexivity; repeat constructor.
Qed.

Section StepFootprint.
Context {World : Type} (E : Env World).
Variable options : StepOptions.

Lemma createSubname_L1_footprint :
  footprint (step_event options) 1 (L1Naming.createSubname E options).
Proof.
  intros [w tr]. unfold L1Naming.createSubname.
  destruct (default false (enableMetrics options)) eqn:Hen;
    destruct (Utils.parseNormalizedName (name options)) as [parsed|e];
    unfold_async; cbn [fst snd]; try footprint_leaf;
    (destruct (env_readContract E _ (recordExists_call _ _) w) as [v|e];
     [|footprint_leaf]);
    (destruct (truthy v); [footprint_leaf|]); cbn [fst snd];
    (destruct (env_readContract E _ (isWrapped_call _ _) w) as [v'|e];
     [|footprint_leaf]);
    destruct (truthy v'); destruct_env; footprint_leaf.
Qed.

Lemma createSubname_L2_footprint :
  footprint (step_event options) 1 (L2Naming.createSubname E options).
Proof.
  intros [w tr]. unfold L2Naming.createSubname.
  destruct (default false (enableMetrics options)) eqn:Hen;
    destruct (Utils.parseNormalizedName (name options)) as [parsed|e];
    unfold_async; cbn [fst snd]; try footprint_leaf;
    (destruct (env_readContract E _ (recordExists_call _ _) w) as [v|e];
     [|footprint_leaf]);
    (destruct (truthy v); [footprint_leaf|]); cbn [fst snd];
    (destruct (env_readContract E _ (resolver_call _ _) w) as [v'|e];
     [|footprint_leaf]);
    destruct_env; footprint_leaf.
Qed.

Lemma setForwardResolution_footprint :
  footprint (step_event options) 1 (L1Naming.setForwardResolution E options).
Proof.
  intros [w tr]. unfold L1Naming.setForwardResolution.
  destruct (default false (enableMetrics options)) eqn:Hen;
    unfold_async; cbn [fst snd];
    (destruct (env_readContract E _ _ w) as [[b|cur|n|]|e];
     try footprint_leaf);
    cbn [fst snd];
    (destruct (String.eqb _ _); [footprint_leaf|]);
    destruct_env; footprint_leaf.
Qed.

Lemma setReverseResolution_L1_footprint :
  footprint (step_event options) 1 (L1Naming.setReverseResolution E options).
Proof.
  intros [w tr]. unfold L1Naming.setReverseResolution, bind.
  rewrite isContractOwner_run.
  destruct (owner_check_reads_by_client E options w) as [Hf Hw].
  assert (Hgen : forall (o : Outcome SetReverseResolutionResult) (w' : World)
                        (evs : list Event),
             Forall (step_event options) evs ->
             (List.length (writes evs) <= 1)%nat ->
             exists evs' : list Event,
               final_trace
                 (o, (w', tr ++ owner_check_reads E (contractAddress options)
                                  (walletClient options)
                                  (ENS_REGISTRY (contracts options)) w ++ evs))
               = (snd (w, tr) ++ evs')
               /\ Forall (step_event options) evs'
               /\ (List.length (writes evs') <= 1)%nat).
  { intros o w' evs He Hl. eexists. split.
    - unfold final_trace; simpl. reflexivity.
    - split; [apply Forall_app; split; assumption|].
      now rewrite writes_app, Hw. }
  destruct (owner_check E _ _ _ w) as [[|]|e]; simpl.
  - destruct (default false (enableMetrics options)) eqn:Hen;
      destruct (contractType options); unfold_async; destruct_env;
      rewrite <- ?app_assoc; cbn [app];
      first [ apply Hgen
            | rewrite <- (app_nil_r (owner_check_reads _ _ _ _ _)); apply Hgen ];
      try (simpl; lia); repeat constructor; simpl; auto.
  - unfold ret. rewrite <- (app_nil_r (owner_check_reads _ _ _ _ _)).
    apply Hgen; [constructor|simpl; lia].
  - rewrite <- (app_nil_r (owner_check_reads _ _ _ _ _)).
    apply Hgen; [constructor|simpl; lia].
Qed.

Lemma setReverseResolution_L2_footprint :
  footprint (step_event options) 1 (L2Naming.setReverseResolution E options).
Proof.
  intros [w tr]. unfold L2Naming.setReverseResolution, bind.
  rewrite isContractOwner_run.
  destruct (owner_check_reads_by_client E options w) as [Hf Hw].
  assert (Hgen : forall (o : Outcome SetReverseResolutionResult) (w' : World)
                        (evs : list Event),
             Forall (step_event options) evs ->
             (List.length (writes evs) <= 1)%nat ->
             exists evs' : list Event,
               final_trace
                 (o, (w', tr ++ owner_check_reads E (contractAddress options)
                                  (walletClient options)
                                  (ENS_REGISTRY (contracts options)) w ++ evs))
               = (snd (w, tr) ++ evs')
               /\ Forall (step_event options) evs'
               /\ (List.length (writes evs') <= 1)%nat).
  { intros o w' evs He Hl. eexists. split.
    - unfold final_trace; simpl. reflexivity.
    - split; [apply Forall_app; split; assumption|].
      now rewrite writes_app, Hw. }
  destruct (owner_check E _ _ _ w) as [[|]|e]; simpl.
  - destruct (default false (enableMetrics options)) eqn:Hen;
      destruct (contractType options); unfold_async; destruct_env;
      rewrite <- ?app_assoc; cbn [app];
      first [ apply Hgen
            | rewrite <- (app_nil_r (owner_check_reads _ _ _ _ _)); apply Hgen ];
      try (simpl; lia); repeat constructor; simpl; auto.
  - unfold ret. rewrite <- (app_nil_r (owner_check_reads _ _ _ _ _)).
    apply Hgen; [constructor|simpl; lia].
  - rewrite <- (app_nil_r (owner_check_reads _ _ _ _ _)).
    apply Hgen; [constructor|simpl; lia].
Qed.
End StepFootprint.

(** X6. Each naming step, on either network, reaches the outside world only
    through the wallet client it is given, posts telemetry only when
    [enableMetrics] is set and only to the metrics endpoint, and sends at
    most one transaction, however the chain answers and whether it returns
    or throws. *)
Theorem steps_footprint :
  forall (World : Type) (E : Env World) (options : StepOptions),
    footprint (step_event options) 1 (L1Naming.createSubname E options)
    /\ footprint (step_event options) 1 (L1Naming.setForwardResolution E options)
    /\ footprint (step_event options) 1 (L1Naming.setReverseResolution E options)
    /\ footprint (step_event options) 1 (L2Naming.createSubname E options)
    /\ footprint (step_event options) 1 (L2Naming.setForwardResolution E options)
    /\ footprint (step_event options) 1 (L2Naming.setReverseResolution E options).
Proof.
  intros World E options.
  split; [apply createSubname_L1_footprint|].
  split; [apply setForwardResolution_footprint|].
  split; [apply setReverseResolution_L1_footprint|].
  split; [apply createSubname_L2_footprint|].
  split; [|apply setReverseResolution_L2_footprint].
  rewrite setForwardResolution_L2_L1. apply setForwardResolution_footprint.
Qed.

(** ** Footprints compose *)

Section FootprintAlgebra.
Context {World : Type}.

Lemma footprint_ret {A : Type} (P : Event -> Prop) (a : A) :
  footprint P 0 (ret (World := World) a).
Proof.
  intros s. exists []. unfold ret, final_trace; simpl.
  split; [now rewrite app_nil_r|]. split; [constructor|simpl; lia].
Qed.

Lemma footprint_bind {A B : Type} (P : Event -> Prop) (n k : nat)
      (m : Async World A) (f : A -> Async World B) :
  footprint P n m ->
  (forall a : A, footprint P k (f a)) ->
  footprint P (n + k) (bind m f).
Proof.
  intros Hm Hf s. destruct (Hm s) as (evs1 & H1 & F1 & L1).
  unfold bind. destruct (m s) as [[a|e] s1]; unfold final_trace in H1;
    simpl in H1.
  - destruct (Hf a s1) as (evs2 & H2 & F2 & L2).
    exists (evs1 ++ evs2). split.
    + rewrite H2, H1, app_assoc. reflexivity.
    + split; [apply Forall_app; split; assumption|].
      rewrite writes_app, length_app. lia.
  - exists evs1. split; [exact H1|]. split; [exact F1|lia].
Qed.

Lemma footprint_weaken {A : Type} (P Q : Event -> Prop) (n k : nat)
      (m : Async World A) :
  (forall e : Event, P e -> Q e) -> (n <= k)%nat ->
  footprint P n m -> footprint Q k m.
Proof.
  intros HPQ Hnk Hm s. destruct (Hm s) as (evs & H & F & L).
  exists evs. split; [exact H|]. split; [|lia].
  eapply Forall_impl; [|exact F]. exact HPQ.
Qed.

Lemma footprint_shape {A : Type} (P : Event -> Prop) (m : Async World A) :
  (forall (w : World) (tr : list Event),
     exists (a : A) (evs : list Event),
       m (w, tr) = (Ok a, (w, tr ++ evs)) /\ Forall P evs /\ writes evs = []) ->
  footprint P 0 m.
Proof.
  intros H [w tr]. destruct (H w tr) as (a & evs & Hr & F & Hw).
  exists evs. rewrite Hr. unfold final_trace; simpl.
  split; [reflexivity|]. split; [exact F|]. rewrite Hw. simpl. lia.
Qed.
End FootprintAlgebra.

(** ** Footprint of the orchestrators *)

Section OrchestratorFootprint.
Context {World : Type} (E : Env World).

Lemma correlationId_or_fresh_footprint (P : Event -> Prop) (o : option string) :
  footprint P 0 (NamingStandalone.correlationId_or_fresh E o).
Proof.
  destruct o as [c|]; [apply footprint_ret|].
  intros [w tr]. simpl. unfold randomUUID. simpl.
  destruct (env_randomUUID E w) as [u w']. exists [].
  unfold final_trace; simpl.
  split; [now rewrite app_nil_r|]. split; [constructor|simpl; lia].
Qed.

Lemma lift_footprint {A : Type} (P : Event -> Prop) (o : Outcome A) :
  footprint P 0 (lift (World := World) o).
Proof.
  intros s. exists []. unfold lift, final_trace; simpl.
  split; [now rewrite app_nil_r|]. split; [constructor|simpl; lia].
Qed.

Lemma detectContractType_naming_footprint (a : string) (wc : WalletClient)
      (reg : string) :
  footprint (probe_event wc) 0 (NamingStandalone.detectContractType E a wc reg).
Proof.
  apply footprint_shape. intros w tr.
  destruct (detectContractType_naming_shape E a wc reg w tr)
    as (ct & evs & Hr & F & _).
  exists ct, evs. split; [exact Hr|]. split; [exact F|].
  exact (probe_events_no_write wc evs F).
Qed.

Lemma detectContractType_utils_footprint (a : string) (wc : WalletClient)
      (reg : string) :
  footprint (probe_event wc) 0 (Utils.detectContractType E a wc reg).
Proof.
  apply footprint_shape. intros w tr.
  destruct (detectContractType_utils_shape E a wc reg w tr)
    as (ct & evs & Hr & F & _).
  exists ct, evs. split; [exact Hr|]. split; [exact F|].
  exact (probe_events_no_write wc evs F).
Qed.

Section Standalone.
Variable request : NamingStandalone.NameContractOptions.

Lemma step_event_orchestrator (options : StepOptions) (c : string) (e : Event) :
  walletClient options = NamingStandalone.l1WalletClient request ->
  step_event (NamingStandalone.with_correlationId options c) e ->
  orchestrator_event request e.
Proof.
  intros Hwc. destruct e; simpl; intros H.
  - left. congruence.
  - left. congruence.
  - left. congruence.
  - apply H.
Qed.

Lemma probe_event_orchestrator (e : Event) :
  probe_event (NamingStandalone.l1WalletClient request) e ->
  orchestrator_event request e.
Proof.
  destruct e; simpl; intros H; try contradiction. left. exact H.
Qed.

Lemma standalone_steps_footprint (options : StepOptions) :
  walletClient options = NamingStandalone.l1WalletClient request ->
  footprint (orchestrator_event request) 1
    (NamingStandalone.createSubname E options)
  /\ footprint (orchestrator_event request) 1
       (NamingStandalone.setForwardResolution E options)
  /\ footprint (orchestrator_event request) 1
       (NamingStandalone.setReverseResolution E options).
Proof.
  intros Hwc.
  split; [|split];
    (apply (footprint_bind _ 0 1);
     [apply correlationId_or_fresh_footprint|intros c];
     apply (footprint_weaken
              (step_event (NamingStandalone.with_correlationId options c))
              _ 1 1);
     [intros e; apply step_event_orchestrator; exact Hwc|lia|]).
  - apply createSubname_L1_footprint.
  - apply setForwardResolution_footprint.
  - apply setReverseResolution_L1_footprint.
Qed.

Lemma l2_reverse_footprint (l2wc : WalletClient) (l2c : ENSContracts)
      (correlationId : string) (contractType : ContractType) (opType : string)
      (enableMetrics : bool) (t : Transactions) :
  NamingStandalone.l2WalletClient request = Some l2wc ->
  NamingStandalone.l2Contracts request = Some l2c ->
  footprint (orchestrator_event request) 1
    (NamingStandalone.l2_reverse E l2wc l2c
       (NamingStandalone.nc_contractAddress request)
       (NamingStandalone.nc_name request)
       correlationId contractType opType enableMetrics t).
Proof.
  intros Hw2 Hc2 [w tr]. unfold NamingStandalone.l2_reverse.
  assert (Hread : orchestrator_event request (EvRead l2wc
                    (Utils.owner_call (NamingStandalone.nc_contractAddress request)))).
  { simpl. right. split; [now rewrite Hw2|reflexivity]. }
  assert (Hwrite : orchestrator_event request
                     (EvWrite l2wc
                        (l2_setNameForAddr_call l2c
                           (NamingStandalone.nc_contractAddress request)
                           (NamingStandalone.nc_name request)))).
  { simpl. right. split; [now rewrite Hw2|].
    exists l2c. split; [exact Hc2|reflexivity]. }
  assert (Hwait : forall h, orchestrator_event request (EvWait l2wc h)).
  { intros h. simpl. right. now rewrite Hw2. }
  destruct enableMetrics; unfold_async; cbn [fst snd];
    (destruct (env_readContract E l2wc _ w) as [v|e]);
    destruct_env;
    unfold final_trace; cbn [fst snd]; rewrite <- ?app_assoc; cbn [app];
    (eexists; split; [reflexivity|]);
    (split; [|simpl; lia]);
    repeat (apply Forall_cons || apply Forall_nil);
    first [ exact Hread | exact Hwrite | apply Hwait | reflexivity ].
Qed.
End Standalone.
End OrchestratorFootprint.

(** X7. [nameContract], in the revision with exported steps, sends at most
    five transactions, and at most three when no secondary network is
    configured.  Everything it does on the primary network goes through
    [l1WalletClient]; through [l2WalletClient] it only reads [owner()] of
    the target, writes [setNameForAddr(target, name)] to the reverse
    registrar of the secondary network and waits for that transaction; all
    its posts go to the metrics endpoint.  This holds however the chain
    answers and whether the call returns or throws. *)
Theorem nameContract_footprint :
  forall (World : Type) (E : Env World)
         (request : NamingStandalone.NameContractOptions),
    footprint (orchestrator_event request)
      (match NamingStandalone.l2WalletClient request,
             NamingStandalone.l2Contracts request with
       | Some _, Some _ => 5
       | _, _ => 3
       end)
      (NamingStandalone.nameContract E request).
Proof.
  intros World E request.
  unfold NamingStandalone.nameContract. cbv zeta.
  assert (Hstep : forall options : StepOptions,
             walletClient options = NamingStandalone.l1WalletClient request ->
             footprint (orchestrator_event request) 1
               (NamingStandalone.createSubname E options)
             /\ footprint (orchestrator_event request) 1
                  (NamingStandalone.setForwardResolution E options)
             /\ footprint (orchestrator_event request) 1
                  (NamingStandalone.setReverseResolution E options))
    by (apply standalone_steps_footprint).
  assert (Hdetect : forall reg : string,
             footprint (orchestrator_event request) 0
               (NamingStandalone.detectContractType E
                  (NamingStandalone.nc_contractAddress request)
                  (NamingStandalone.l1WalletClient request) reg)).
  { intros reg.
    apply (footprint_weaken
             (probe_event (NamingStandalone.l1WalletClient request)) _ 0 0);
      [apply probe_event_orchestrator|lia|].
    apply detectContractType_naming_footprint. }
  pose proof (l2_reverse_footprint E request) as Hl2.
  destruct (NamingStandalone.l2WalletClient request) as [l2wc|];
    destruct (NamingStandalone.l2Contracts request) as [l2c|].
  - apply (footprint_bind _ 0 5);
      [apply correlationId_or_fresh_footprint|intros cid].
    apply (footprint_bind _ 0 5); [apply Hdetect|intros ct].
    apply (footprint_bind _ 1 4); [apply Hstep; reflexivity|intros r1].
    apply (footprint_bind _ 1 3); [apply Hstep; reflexivity|intros r2].
    apply (footprint_bind _ 1 2); [apply Hstep; reflexivity|intros r3].
    apply (footprint_bind _ 2 0); [|intros t; apply footprint_ret].
    apply (footprint_bind _ 1 1); [apply Hstep; reflexivity|intros r4].
    apply Hl2; reflexivity.
  - apply (footprint_bind _ 0 3);
      [apply correlationId_or_fresh_footprint|intros cid].
    apply (footprint_bind _ 0 3); [apply Hdetect|intros ct].
    apply (footprint_bind _ 1 2); [apply Hstep; reflexivity|intros r1].
    apply (footprint_bind _ 1 1); [apply Hstep; reflexivity|intros r2].
    apply (footprint_bind _ 1 0); [apply Hstep; reflexivity|intros r3].
    apply (footprint_bind _ 0 0); [apply footprint_ret|].
    intros t; apply footprint_ret.
  - apply (footprint_bind _ 0 3);
      [apply correlationId_or_fresh_footprint|intros cid].
    apply (footprint_bind _ 0 3); [apply Hdetect|intros ct].
    apply (footprint_bind _ 1 2); [apply Hstep; reflexivity|intros r1].
    apply (footprint_bind _ 1 1); [apply Hstep; reflexivity|intros r2].
    apply (footprint_bind _ 1 0); [apply Hstep; reflexivity|intros r3].
    apply (footprint_bind _ 0 0); [apply footprint_ret|].
    intros t; apply footprint_ret.
  - apply (footprint_bind _ 0 3);
      [apply correlationId_or_fresh_footprint|intros cid].
    apply (footprint_bind _ 0 3); [apply Hdetect|intros ct].
    apply (footprint_bind _ 1 2); [apply Hstep; reflexivity|intros r1].
    apply (footprint_bind _ 1 1); [apply Hstep; reflexivity|intros r2].
    apply (footprint_bind _ 1 0); [apply Hstep; reflexivity|intros r3].
    apply (footprint_bind _ 0 0); [apply footprint_ret|].
    intros t; apply footprint_ret.
Qed.

Lemma step_event_current (request : Naming.NameContractOptions)
      (options : StepOptions) (e : Event) :
  walletClient options = Naming.nc_walletClient request ->
  enableMetrics options = Some (default false (Naming.nc_enableMetrics request)) ->
  step_event options e -> current_event request e.
Proof.
  intros Hwc Hen. destruct e; simpl; intros H; try congruence.
  rewrite Hen in H. exact H.
Qed.

Lemma probe_event_current (request : Naming.NameContractOptions) (e : Event) :
  probe_event (Naming.nc_walletClient request) e -> current_event request e.
Proof.
  destruct e; simpl; intros H; try contradiction. exact H.
Qed.

(** X8. [nameContract] in the current revision sends at most three
    transactions on either kind of network; every chain call goes through
    the [walletClient] of the request (the [l2WalletClient] it accepts is
    never used), and telemetry is posted only when [enableMetrics] is set,
    and only to the metrics endpoint. *)
Theorem nameContract_current_footprint :
  forall (World : Type) (E : Env World) (request : Naming.NameContractOptions),
    footprint (current_event request) 3 (Naming.nameContract E request).
Proof.
  intros World E request.
  unfold Naming.nameContract. cbv zeta.
  assert (Hstep : forall (A : Type) (m : Async World A) (options : StepOptions),
             walletClient options = Naming.nc_walletClient request ->
             enableMetrics options
             = Some (default false (Naming.nc_enableMetrics request)) ->
             footprint (step_event options) 1 m ->
             footprint (current_event request) 1 m).
  { intros A m options Hwc Hen.
    apply footprint_weaken; [|lia].
    intros e. apply step_event_current; assumption. }
  apply (footprint_bind _ 0 3).
  { intros [w tr]. unfold randomUUID. simpl.
    destruct (env_randomUUID E w) as [u w']. exists [].
    unfold final_trace; simpl.
    split; [now rewrite app_nil_r|]. split; [constructor|simpl; lia]. }
  intros cid.
  apply (footprint_bind _ 0 3); [apply lift_footprint|intros contracts].
  apply (footprint_bind _ 0 3).
  { apply (footprint_weaken (probe_event (Naming.nc_walletClient request)) _ 0 0);
      [apply probe_event_current|lia|].
    apply detectContractType_utils_footprint. }
  intros ct.
  apply (footprint_bind _ 3 0); [|intros t; apply footprint_ret].
  destruct (negb (Utils.isL2 (Utils.getNetworkInfo (Naming.chainName request)))).
  - apply (footprint_bind _ 1 2);
      [eapply Hstep; [| |apply createSubname_L1_footprint]; reflexivity
      |intros r1].
    apply (footprint_bind _ 1 1);
      [eapply Hstep; [| |apply setForwardResolution_footprint]; reflexivity
      |intros r2].
    apply (footprint_bind _ 1 0);
      [eapply Hstep; [| |apply setReverseResolution_L1_footprint]; reflexivity
      |intros r3].
    apply footprint_ret.
  - apply (footprint_bind _ 1 2);
      [eapply Hstep; [| |apply createSubname_L2_footprint]; reflexivity
      |intros r1].
    apply (footprint_bind _ 1 1);
      [eapply Hstep; [| |apply setForwardResolution_footprint]; reflexivity
      |intros r2].
    apply (footprint_bind _ 1 0);
      [eapply Hstep; [| |apply setReverseResolution_L2_footprint]; reflexivity
      |intros r3].
    apply footprint_ret.
Qed.

(** ** Running the reverse step again *)

(** X9. Unlike the other two steps, [setReverseResolution] never looks at
    the reverse record: its only reads are those of the ownership check.
    So it is not idempotent: as long as the caller keeps passing the
    ownership check, a second run on the same request sends the same
    transaction again, on either network. *)
Theorem setReverseResolution_not_idempotent :
  forall (World : Type) (E : Env World)
         (step : StepOptions -> Async World SetReverseResolutionResult)
         (options : StepOptions) (w : World) (tr : list Event),
    step = L1Naming.setReverseResolution E
    \/ step = L2Naming.setReverseResolution E ->
    contractType options <> Unknown ->
    owner_check E (contractAddress options) (walletClient options)
      (ENS_REGISTRY (contracts options)) w = Ok true ->
    owner_check E (contractAddress options) (walletClient options)
      (ENS_REGISTRY (contracts options)) (final_world (step options (w, tr)))
    = Ok true ->
    exists call : ContractCall,
      writes (final_trace (step options (w, tr)))
      = writes tr ++ [EvWrite (walletClient options) call]
      /\ reads (final_trace (step options (w, tr)))
         = reads tr ++ owner_check_reads E (contractAddress options)
                          (walletClient options)
                          (ENS_REGISTRY (contracts options)) w
      /\ writes (final_trace (step options (snd (step options (w, tr)))))
         = writes tr ++ [EvWrite (walletClient options) call;
                         EvWrite (walletClient options) call].
Proof.
  intros World E step options w tr Hstep Hct H1 H2.
  assert (Hreads :
            reads (final_trace (step options (w, tr)))
            = reads tr ++ owner_check_reads E (contractAddress options)
                            (walletClient options)
                            (ENS_REGISTRY (contracts options)) w).
  { assert (Hr : reads (owner_check_reads E (contractAddress options)
                          (walletClient options)
                          (ENS_REGISTRY (contracts options)) w)
                 = owner_check_reads E (contractAddress options)
                     (walletClient options)
                     (ENS_REGISTRY (contracts options)) w).
    { unfold owner_check_reads.
      destruct (Utils.address_rejected E (contractAddress options));
        [reflexivity|].
      destruct (env_readContract E _ (Utils.owner_call _) w) as [[?|?|?|]|?];
        reflexivity. }
    destruct Hstep as [-> | ->];
      unfold L1Naming.setReverseResolution, L2Naming.setReverseResolution, bind;
      rewrite isContractOwner_run, H1; simpl;
      destruct (contractType options); try congruence;
      unfold_async; destruct (default false (enableMetrics options));
      destruct_env; trace_simpl; rewrite ?Hr, ?app_nil_r; reflexivity. }
  destruct Hstep as [-> | ->].
  - pose proof (setReverseResolution_L1_writes E options w tr H1) as Hw1.
    destruct (L1Naming.setReverseResolution E options (w, tr))
      as [o [w1 tr1]] eqn:Hrun.
    pose proof (setReverseResolution_L1_writes E options w1 tr1 H2) as Hw2.
    cbv zeta in Hw1, Hw2. unfold final_trace in *. simpl in *.
    destruct (contractType options); try congruence;
      (eexists; split; [exact Hw1|]; split; [exact Hreads|]);
      rewrite Hw2, Hw1, <- app_assoc; reflexivity.
  - pose proof (setReverseResolution_L2_writes E options w tr H1) as Hw1.
    destruct (L2Naming.setReverseResolution E options (w, tr))
      as [o [w1 tr1]] eqn:Hrun.
    pose proof (setReverseResolution_L2_writes E options w1 tr1 H2) as Hw2.
    cbv zeta in Hw1, Hw2. unfold final_trace in *. simpl in *.
    destruct (contractType options); try congruence;
      (eexists; split; [exact Hw1|]; split; [exact Hreads|]);
      rewrite Hw2, Hw1, <- app_assoc; reflexivity.
Qed.

Lemma setReverseResolution_not_idempotent_witness :
  let options :=
    Toy.options "foo.bar.eth" Toy.target (Toy.client Toy.alice) Ownable None false in
  let s := Toy.start Scenario.owned_by_alice in
  exists call : ContractCall,
    writes (final_trace (L1Naming.setReverseResolution Toy.env options s))
    = writes [] ++ [EvWrite (walletClient options) call]
    /\ reads (final_trace (L1Naming.setReverseResolution Toy.env options s))
       = reads [] ++ owner_check_reads Toy.env (contractAddress options)
                       (walletClient options)
                       (ENS_REGISTRY (contracts options)) Scenario.owned_by_alice
    /\ writes (final_trace
                 (L1Naming.setReverseResolution Toy.env options
                    (snd (L1Naming.setReverseResolution Toy.env options s))))
       = writes [] ++ [EvWrite (walletClient options) call;
                       EvWrite (walletClient options) call].
Proof.
  intros options s.
  apply (setReverseResolution_not_idempotent Toy.World Toy.env
           (L1Naming.setReverseResolution Toy.env) options
           Scenario.owned_by_alice []).
  - left. reflexivity.
  - discriminate.
  - vm_compute. reflexivity.
  - vm_compute. reflexivity.
Defined.

(** ** A run that finds nothing to do *)

Lemma fetches_app (l1 l2 : list Event) :
  fetches (l1 ++ l2) = fetches l1 ++ fetches l2.
Proof. unfold fetches. apply filter_app. Qed.

Lemma probe_events_no_fetch (wc : WalletClient) (evs : list Event) :
  Forall (probe_event wc) evs -> fetches evs = [].
Proof.
  induction 1 as [|e evs He _ IH]; [reflexivity|].
  destruct e; simpl in *; try contradiction. exact IH.
Qed.

Lemma owner_check_reads_no_fetch {World : Type} (E : Env World)
      (a : string) (wc : WalletClient) (reg : string) (w : World) :
  fetches (owner_check_reads E a wc reg w) = [].
Proof.
  unfold owner_check_reads.
  destruct (Utils.address_rejected E a); [reflexivity|].
  destruct (env_readContract E wc (Utils.owner_call a) w) as [[?|?|?|]|?];
    reflexivity.
Qed.

(** X10. When the name already exists, already resolves to the target, and
    the caller does not pass the ownership check, [nameContract] of the
    current revision changes nothing: it sends no transaction and posts no
    telemetry, even with [enableMetrics] set.  It still returns
    [success: true], with an empty [transactions] object; that the reverse
    record was not set, and why, is not in the result. *)
Theorem nameContract_nothing_to_do :
  forall (World : Type) (E : Env World) (request : Naming.NameContractOptions)
         (c : ENSContracts) (w : World) (tr : list Event),
    let info := Utils.getNetworkInfo (Naming.chainName request) in
    let l2 := Utils.isL2 info in
    let cid := fst (env_randomUUID E w) in
    let w1 := snd (env_randomUUID E w) in
    env_getContractAddresses E (Utils.networkName info) = Ok c ->
    has_dot (Naming.nc_name request) = true ->
    (forall ct : ContractType,
        record_present E (current_step request cid c ct None) w1
        /\ forward_record_is_target E
             (current_step request cid c ct (current_coin l2 c)) w1) ->
    owner_check E (Naming.nc_contractAddress request)
      (Naming.nc_walletClient request) (ENS_REGISTRY c) w1 = Ok false ->
    exists (r : NameContractResult) (tr1 : list Event),
      Naming.nameContract E request (w, tr) = (Ok r, (w1, tr1))
      /\ success r = true
      /\ transactions r = no_transactions
      /\ writes tr1 = writes tr
      /\ fetches tr1 = fetches tr.
Proof.
  intros World E request c w tr info l2 cid w1 Hc Hdot Hrec Ho.
  unfold Naming.nameContract. cbv zeta.
  assert (Hu : randomUUID E (w, tr) = (Ok cid, (w1, tr))).
  { unfold randomUUID, cid, w1. simpl. destruct (env_randomUUID E w). reflexivity. }
  rewrite (bind_ok _ _ _ _ _ Hu).
  fold info. unfold bind at 1, lift. rewrite Hc.
  destruct (detectContractType_utils_shape E (Naming.nc_contractAddress request)
              (Naming.nc_walletClient request) (ENS_REGISTRY c) w1 tr)
    as (ct & evs & Hd & F & _).
  rewrite (bind_ok _ _ _ _ _ Hd).
  destruct (Hrec ct) as [Hp Hf].
  pose proof (probe_events_no_write _ _ F) as Hnw.
  pose proof (probe_events_no_fetch _ _ F) as Hnf.
  pose proof (owner_check_reads_no_write E (current_step request cid c ct None) w1)
    as Hrw.
  pose proof (owner_check_reads_no_fetch E (Naming.nc_contractAddress request)
                (Naming.nc_walletClient request) (ENS_REGISTRY c) w1) as Hrf.
  fold l2. unfold current_coin in Hf. simpl in Hrw.
  destruct l2; cbn [negb].
  - fold (current_step request cid c ct None).
    fold (current_step request cid c ct (Some (Number_of (COIN_TYPE c)))).
    unfold bind at 1.
    rewrite (bind_ok _ _ _ _ _
               (createSubname_L2_skips E (current_step request cid c ct None)
                  w1 (tr ++ evs) Hdot Hp)).
    rewrite (bind_ok _ _ _ _ _
               (setForwardResolution_skips E
                  (current_step request cid c ct (Some (Number_of (COIN_TYPE c))))
                  w1 _ Hf)).
    rewrite (bind_ok _ _ _ _ _
               (setReverseResolution_L2_skips E
                  (current_step request cid c ct None) w1 _ Ho)).
    unfold ret. simpl.
    eexists; eexists; split; [reflexivity|].
    split; [reflexivity|]. split; [reflexivity|].
    rewrite !writes_app, !fetches_app, Hnw, Hnf, Hrw, Hrf. simpl.
    rewrite !app_nil_r. split; reflexivity.
  - fold (current_step request cid c ct None).
    unfold bind at 1.
    rewrite (bind_ok _ _ _ _ _
               (createSubname_L1_skips E (current_step request cid c ct None)
                  w1 (tr ++ evs) Hdot Hp)).
    rewrite (bind_ok _ _ _ _ _
               (setForwardResolution_skips E
                  (current_step request cid c ct None) w1 _ Hf)).
    rewrite (bind_ok _ _ _ _ _
               (setReverseResolution_L1_skips E
                  (current_step request cid c ct None) w1 _ Ho)).
    unfold ret. simpl.
    eexists; eexists; split; [reflexivity|].
    split; [reflexivity|]. split; [reflexivity|].
    rewrite !writes_app, !fetches_app, Hnw, Hnf, Hrw, Hrf. simpl.
    rewrite !app_nil_r. split; reflexivity.
Qed.

Lemma nameContract_nothing_to_do_witness :
  exists (r : NameContractResult) (tr1 : list Event),
    Naming.nameContract Toy.env
      (Scenario.current_request "foo.bar.eth" Toy.target)
      (Scenario2.named_for_bob, [])
    = (Ok r, (Scenario2.named_for_bob, tr1))
    /\ success r = true
    /\ transactions r = no_transactions
    /\ writes tr1 = writes []
    /\ fetches tr1 = fetches [].
Proof.
  apply (nameContract_nothing_to_do Toy.World Toy.env
           (Scenario.current_request "foo.bar.eth" Toy.target)
           Toy.sepolia Scenario2.named_for_bob []).
  - reflexivity.
  - reflexivity.
  - intros ct. split.
    + reflexivity.
    + exists Toy.target. split; reflexivity.
  - reflexivity.
Defined.

(** ** The reverse record on the secondary network *)

(** X11. The block that sets the reverse record on the secondary network
    never throws, whatever fails inside it.  It sends its transaction
    exactly when the [owner()] read of the target answers, whoever the owner
    is: the answer is not compared with the caller.  The result is the
    [transactions] object it was given, either untouched or with
    [l2ReverseResolution] filled in. *)
Theorem l2_reverse_never_throws :
  forall (World : Type) (E : Env World) (l2wc : WalletClient) (l2c : ENSContracts)
         (a n cid : string) (ct : ContractType) (op : string) (metrics : bool)
         (t : Transactions) (w : World) (tr : list Event),
    (exists t' : Transactions,
        outcome (NamingStandalone.l2_reverse E l2wc l2c a n cid ct op metrics t
                   (w, tr)) = Ok t'
        /\ (t' = t \/ exists tx : string, t' = set_l2ReverseResolution (Some tx) t))
    /\ writes (final_trace
                 (NamingStandalone.l2_reverse E l2wc l2c a n cid ct op metrics t
                    (w, tr)))
       = writes tr ++
         match env_readContract E l2wc (Utils.owner_call a) w with
         | Ok _ => [EvWrite l2wc (l2_setNameForAddr_call l2c a n)]
         | Throw _ => []
         end.
Proof.
  intros World E l2wc l2c a n cid ct op metrics t w tr.
  unfold NamingStandalone.l2_reverse.
  destruct metrics; unfold_async; cbn [fst snd];
    (destruct (env_readContract E l2wc (Utils.owner_call a) w) as [v|e]);
    destruct_env; trace_simpl;
    (split; [eexists; split; [reflexivity|]; eauto|reflexivity]).
Qed.

(** ** Failures before and between the chain calls *)

(** X12. On a chain for which [getContractAddresses] throws, [nameContract]
    of the current revision throws that error before it contacts the chain
    or the metrics endpoint: the trace is left as it was.  The name it
    looks up is the chain name in lower case. *)
Theorem nameContract_unsupported_network :
  forall (World : Type) (E : Env World) (request : Naming.NameContractOptions)
         (e : Exn) (s : St World),
    env_getContractAddresses E (toLowerCase (Naming.chainName request)) = Throw e ->
    outcome (Naming.nameContract E request s) = Throw e
    /\ final_trace (Naming.nameContract E request s) = snd s.
Proof.
  intros World E request e [w tr] H.
  assert (Hname : Utils.networkName
                    (Utils.getNetworkInfo (Naming.chainName request))
                  = toLowerCase (Naming.chainName request)).
  { unfold Utils.getNetworkInfo. destruct (_ || _); reflexivity. }
  assert (Hrun : exists w0 : World,
             Naming.nameContract E request (w, tr) = (Throw e, (w0, tr))).
  { unfold Naming.nameContract. cbv zeta.
    unfold bind at 1, randomUUID. cbn [fst snd].
    destruct (env_randomUUID E w) as [cid w0].
    unfold bind at 1, lift. rewrite Hname, H. exists w0. reflexivity. }
  destruct Hrun as [w0 ->]. split; reflexivity.
Qed.

Lemma nameContract_unsupported_network_witness :
  outcome (Naming.nameContract Toy.env Scenario2.unknown_chain_request
             (Toy.start Scenario.owned_by_alice))
  = Throw (Error "Unsupported network")
  /\ final_trace (Naming.nameContract Toy.env Scenario2.unknown_chain_request
                    (Toy.start Scenario.owned_by_alice))
     = snd (Toy.start Scenario.owned_by_alice).
Proof.
  apply (nameContract_unsupported_network Toy.World Toy.env
           Scenario2.unknown_chain_request (Error "Unsupported network")
           (Toy.start Scenario.owned_by_alice)).
  reflexivity.
Defined.

(** X13. With a client whose reads all fail, classification still answers
    (Unknown), and every naming step fails before it sends anything: the
    steps that read first throw the error of the read, [createSubname]
    throws its own error when the name has no dot, and the reverse step,
    which swallows the failure of [owner()], throws that of the registry
    read unless the address is rejected, in which case it reports
    [not_owner]. *)
Theorem steps_fail_offline :
  forall (World : Type) (E : Env World) (options : StepOptions) (e : Exn)
         (s : St World),
    reads_fail E (walletClient options) e (fst s) ->
    outcome (Utils.detectContractType E (contractAddress options)
               (walletClient options) (ENS_REGISTRY (contracts options)) s)
    = Ok Unknown
    /\ throws_untouched (L1Naming.createSubname E options)
         (if has_dot (name options) then e else invalid_name) s
    /\ throws_untouched (L2Naming.createSubname E options)
         (if has_dot (name options) then e else invalid_name) s
    /\ throws_untouched (L1Naming.setForwardResolution E options) e s
    /\ throws_untouched (L2Naming.setForwardResolution E options) e s
    /\ (if Utils.address_rejected E (contractAddress options)
        then L1Naming.setReverseResolution E options s = (Ok L1Naming.not_owner, s)
             /\ L2Naming.setReverseResolution E options s
                = (Ok L2Naming.not_owner, s)
        else throws_untouched (L1Naming.setReverseResolution E options) e s
             /\ throws_untouched (L2Naming.setReverseResolution E options) e s).
Proof.
  intros World E options e [w tr] Hoff. unfold reads_fail in Hoff. simpl in Hoff.
  unfold throws_untouched.
  split.
  { unfold Utils.detectContractType, bind.
    rewrite isOwnable_run. unfold ownable_probe.
    rewrite Hoff, andb_false_r.
    rewrite isReverseClaimable_run. unfold reverse_probe, registry_names_caller.
    rewrite Hoff, andb_false_r. reflexivity. }
  split.
  { unfold L1Naming.createSubname. rewrite parseNormalizedName_eq.
    destruct (has_dot (name options)); unfold_async; cbn [fst snd];
      rewrite ?Hoff; trace_simpl; auto. }
  split.
  { unfold L2Naming.createSubname. rewrite parseNormalizedName_eq.
    destruct (has_dot (name options)); unfold_async; cbn [fst snd];
      rewrite ?Hoff; trace_simpl; auto. }
  assert (Hfwd : outcome (L1Naming.setForwardResolution E options (w, tr))
                 = Throw e
                 /\ final_world (L1Naming.setForwardResolution E options (w, tr))
                    = fst (w, tr)
                 /\ writes (final_trace
                              (L1Naming.setForwardResolution E options (w, tr)))
                    = writes (snd (w, tr))).
  { unfold L1Naming.setForwardResolution. unfold_async. cbn [fst snd].
    rewrite Hoff. trace_simpl. auto. }
  split; [exact Hfwd|]. split; [exact Hfwd|].
  pose proof (owner_check_reads_no_write E options w) as Hn.
  unfold L1Naming.setReverseResolution, L2Naming.setReverseResolution, bind.
  rewrite !isContractOwner_run. unfold owner_check, owner_check_reads in *.
  destruct (Utils.address_rejected E (contractAddress options)).
  - simpl. rewrite app_nil_r. split; reflexivity.
  - rewrite !Hoff in *. trace_simpl. auto.
Qed.

Lemma steps_fail_offline_witness :
  let options :=
    Toy.options "foo.bar.eth" Toy.target (Toy.client Toy.alice) Ownable None true in
  let s := Toy.start Scenario.owned_by_alice in
  let e := Error "HTTP request failed" in
  outcome (Utils.detectContractType Offline.env (contractAddress options)
             (walletClient options) (ENS_REGISTRY (contracts options)) s)
  = Ok Unknown
  /\ throws_untouched (L1Naming.createSubname Offline.env options)
       (if has_dot (name options) then e else invalid_name) s
  /\ throws_untouched (L2Naming.createSubname Offline.env options)
       (if has_dot (name options) then e else invalid_name) s
  /\ throws_untouched (L1Naming.setForwardResolution Offline.env options) e s
  /\ throws_untouched (L2Naming.setForwardResolution Offline.env options) e s
  /\ (if Utils.address_rejected Offline.env (contractAddress options)
      then L1Naming.setReverseResolution Offline.env options s
           = (Ok L1Naming.not_owner, s)
           /\ L2Naming.setReverseResolution Offline.env options s
              = (Ok L2Naming.not_owner, s)
      else throws_untouched (L1Naming.setReverseResolution Offline.env options) e s
           /\ throws_untouched (L2Naming.setReverseResolution Offline.env options)
                e s).
Proof.
  intros options s e.
  apply (steps_fail_offline Toy.World Offline.env options e s).
  intros c. reflexivity.
Defined.

(** ** What a successful run reports *)

Lemma set_entries_l2 (h1 h2 h3 : option string) (t : Transactions) :
  l2ForwardResolution
    (set_reverseResolution h3 (set_forwardResolution h2 (set_subname h1 t)))
  = l2ForwardResolution t
  /\ l2ReverseResolution
       (set_reverseResolution h3 (set_forwardResolution h2 (set_subname h1 t)))
     = l2ReverseResolution t.
Proof. destruct h1, h2, h3; split; reflexivity. Qed.

Lemma set_entries_reverse (h1 h2 h3 : option string) (t : Transactions) :
  reverseResolution
    (set_reverseResolution h3 (set_forwardResolution h2 (set_subname h1 t)))
  = match h3 with Some _ => h3 | None => reverseResolution t end.
Proof. destruct h1, h2, h3; reflexivity. Qed.

Lemma setReverseResolution_unknown_result {World : Type} (E : Env World)
      (options : StepOptions) (s s' : St World) (r : SetReverseResolutionResult) :
  contractType options = Unknown ->
  L1Naming.setReverseResolution E options s = (Ok r, s')
  \/ L2Naming.setReverseResolution E options s = (Ok r, s') ->
  rr_set r = false.
Proof.
  intros Hct [H|H];
    unfold L1Naming.setReverseResolution, L2Naming.setReverseResolution in H;
    apply bind_inv in H; destruct H as (b & s1 & _ & H);
    rewrite Hct in H; destruct b; simpl in H;
    try (unfold bind, throw in H; discriminate);
    unfold ret in H; inversion H; reflexivity.
Qed.

(** X14. What [nameContract] of the current revision reports when it
    returns: [success] is true, the name, the address and the explorer link
    are those of the request, and the name has a dot.  The entries
    [l2ForwardResolution] and [l2ReverseResolution] are never filled, not
    even on a secondary network, where the transactions are reported under
    the same three keys as on a primary one.  A contract reported as
    Unknown has no reverse resolution transaction. *)
Theorem nameContract_current_result :
  forall (World : Type) (E : Env World) (request : Naming.NameContractOptions)
         (s s' : St World) (r : NameContractResult),
    Naming.nameContract E request s = (Ok r, s') ->
    success r = true
    /\ res_name r = Naming.nc_name request
    /\ res_contractAddress r = Naming.nc_contractAddress request
    /\ explorerUrl r
       = explorer_url (Naming.nc_walletClient request) (Naming.nc_name request)
    /\ has_dot (Naming.nc_name request) = true
    /\ l2ForwardResolution (transactions r) = None
    /\ l2ReverseResolution (transactions r) = None
    /\ (res_contractType r = Unknown -> reverseResolution (transactions r) = None).
Proof.
  intros World E request s s' r H.
  unfold Naming.nameContract in H. cbv zeta in H.
  apply bind_inv in H. destruct H as (cid & s0 & _ & H).
  apply bind_inv in H. destruct H as (c & s1 & _ & H).
  apply bind_inv in H. destruct H as (ct & s2 & _ & H).
  apply bind_inv in H. destruct H as (t & s3 & Ht & H).
  unfold ret in H. inversion H; subst; clear H. simpl.
  assert (Hgen :
            has_dot (Naming.nc_name request) = true
            /\ exists (h1 h2 : option string) (r3 : SetReverseResolutionResult),
                t = set_reverseResolution
                      (recorded (rr_set r3) (rr_transactionHash r3))
                      (set_forwardResolution h2 (set_subname h1 no_transactions))
                /\ (ct = Unknown -> rr_set r3 = false)).
  { destruct (negb (Utils.isL2 (Utils.getNetworkInfo (Naming.chainName request)))).
    - apply bind_inv in Ht. destruct Ht as (r1 & s4 & H1 & Ht).
      apply bind_inv in Ht. destruct Ht as (r2 & s5 & _ & Ht).
      apply bind_inv in Ht. destruct Ht as (r3 & s6 & H3 & Ht).
      unfold ret in Ht. inversion Ht; subst; clear Ht.
      split.
      + destruct (has_dot (Naming.nc_name request)) eqn:Hdot; [reflexivity|].
        rewrite createSubname_L1_no_dot in H1 by exact Hdot. discriminate.
      + eexists; eexists; exists r3. split; [reflexivity|].
        intros Hu. subst ct.
        eapply (setReverseResolution_unknown_result E);
          [|left; exact H3]. reflexivity.
    - apply bind_inv in Ht. destruct Ht as (r1 & s4 & H1 & Ht).
      apply bind_inv in Ht. destruct Ht as (r2 & s5 & _ & Ht).
      apply bind_inv in Ht. destruct Ht as (r3 & s6 & H3 & Ht).
      unfold ret in Ht. inversion Ht; subst; clear Ht.
      split.
      + destruct (has_dot (Naming.nc_name request)) eqn:Hdot; [reflexivity|].
        rewrite createSubname_L2_no_dot in H1 by exact Hdot. discriminate.
      + eexists; eexists; exists r3. split; [reflexivity|].
        intros Hu. subst ct.
        eapply (setReverseResolution_unknown_result E);
          [|right; exact H3]. reflexivity. }
  destruct Hgen as (Hdot & h1 & h2 & r3 & -> & Hu).
  destruct (set_entries_l2 h1 h2 (recorded (rr_set r3) (rr_transactionHash r3))
              no_transactions) as [Hl2f Hl2r].
  repeat (split; [reflexivity|]).
  split; [exact Hdot|]. split; [exact Hl2f|]. split; [exact Hl2r|].
  intros Hct. rewrite set_entries_reverse, (Hu Hct), recorded_false. reflexivity.
Qed.

Lemma nameContract_current_result_witness :
  exists (r : NameContractResult) (s' : St Toy.World),
    Naming.nameContract Toy.env
      (Scenario.current_request "foo.bar.eth" Toy.target)
      (Toy.start Scenario.owned_by_alice) = (Ok r, s')
    /\ success r = true
    /\ res_name r = "foo.bar.eth"%string
    /\ res_contractAddress r = Toy.target
    /\ explorerUrl r
       = explorer_url (Toy.client Toy.alice) "foo.bar.eth"
    /\ has_dot "foo.bar.eth" = true
    /\ l2ForwardResolution (transactions r) = None
    /\ l2ReverseResolution (transactions r) = None
    /\ (res_contractType r = Unknown -> reverseResolution (transactions r) = None).
Proof.
  destruct (Naming.nameContract Toy.env
              (Scenario.current_request "foo.bar.eth" Toy.target)
              (Toy.start Scenario.owned_by_alice)) as [[r|e] s'] eqn:H.
  - exists r, s'. split; [reflexivity|].
    apply (nameContract_current_result Toy.World Toy.env
             (Scenario.current_request "foo.bar.eth" Toy.target)
             (Toy.start Scenario.owned_by_alice) s' r H).
  - vm_compute in H. discriminate.
Defined.

(** ** The first revision against the one with exported steps *)

Lemma nameContract_monolith_staged {World : Type} (E : Env World)
      (m : NamingMonolith.NameContractOptions) :
  NamingMonolith.nameContract E m
  = (let n := NamingMonolith.nc_name m in
     let a := NamingMonolith.nc_contractAddress m in
     let wc := NamingMonolith.l1WalletClient m in
     let c := NamingMonolith.l1Contracts m in
     let op := default default_opType (NamingMonolith.nc_opType m) in
     let* cid :=
       NamingStandalone.correlationId_or_fresh E (NamingMonolith.nc_correlationId m) in
     old_subname E n a wc c cid op (fun ct t1 =>
     old_forward E n a wc c cid op ct t1 (fun t2 =>
     old_reverse E n a wc c cid op ct t2 (fun t3 =>
     old_l2 E n a wc c cid op (NamingMonolith.l2WalletClient m)
       (NamingMonolith.l2Contracts m) ct t3 (fun t4 =>
     ret (named n a wc ct t4)))))).
Proof. reflexivity. Qed.

Lemma nameContract_standalone_staged {World : Type} (E : Env World)
      (m : NamingMonolith.NameContractOptions) :
  NamingStandalone.nameContract E (standalone_request m)
  = (let n := NamingMonolith.nc_name m in
     let a := NamingMonolith.nc_contractAddress m in
     let wc := NamingMonolith.l1WalletClient m in
     let c := NamingMonolith.l1Contracts m in
     let op := default default_opType (NamingMonolith.nc_opType m) in
     let* cid :=
       NamingStandalone.correlationId_or_fresh E (NamingMonolith.nc_correlationId m) in
     new_subname E n a wc c cid op (fun ct t1 =>
     new_forward E n a wc c cid op ct t1 (fun t2 =>
     new_reverse E n a wc c cid op ct t2 (fun t3 =>
     new_l2 E n a wc c cid op (NamingMonolith.l2WalletClient m)
       (NamingMonolith.l2Contracts m) ct t3 (fun t4 =>
     ret (named n a wc ct t4)))))).
Proof. reflexivity. Qed.


Lemma naming_reads_quiet {World : Type} (E : Env World)
      (a : string) (wc : WalletClient) (reg : string) (w : World) :
  writes (naming_reads E a wc reg w) = []
  /\ fetches (naming_reads E a wc reg w) = [].
Proof.
  unfold naming_reads, probe_reads.
  destruct (Utils.address_rejected E a); destruct (reverse_probe E a wc reg w);
    split; reflexivity.
Qed.

Lemma owner_check_reads_quiet {World : Type} (E : Env World)
      (a : string) (wc : WalletClient) (reg : string) (w : World) :
  writes (owner_check_reads E a wc reg w) = []
  /\ fetches (owner_check_reads E a wc reg w) = [].
Proof.
  unfold owner_check_reads.
  destruct (Utils.address_rejected E a); [split; reflexivity|].
  destruct (env_readContract E wc (Utils.owner_call a) w) as [[?|?|?|]|?];
    split; reflexivity.
Qed.

Ltac same_effects_tac Hwr Hf :=
  unfold same_effects; cbn [fst snd];
  rewrite ?writes_app, ?fetches_app, ?Hwr, ?Hf;
  repeat match goal with
         | |- context [writes (naming_reads ?E ?a ?wc ?reg ?w)] =>
             rewrite (proj1 (naming_reads_quiet E a wc reg w))
         | |- context [fetches (naming_reads ?E ?a ?wc ?reg ?w)] =>
             rewrite (proj2 (naming_reads_quiet E a wc reg w))
         | |- context [writes (owner_check_reads ?E ?a ?wc ?reg ?w)] =>
             rewrite (proj1 (owner_check_reads_quiet E a wc reg w))
         | |- context [fetches (owner_check_reads ?E ?a ?wc ?reg ?w)] =>
             rewrite (proj2 (owner_check_reads_quiet E a wc reg w))
         end;
  simpl; rewrite ?app_nil_r; repeat split; reflexivity.

Ltac hashes_agree_tac H :=
  let Ht := fresh "Ht" in
  let H1 := fresh "H1" in
  let H2 := fresh "H2" in
  let H3 := fresh "H3" in
  try (destruct H as (Ht & H1 & H2 & H3); subst);
  unfold hashes_agree, without_empty_hashes, recorded, keep_truthy,
    set_subname, set_forwardResolution, set_reverseResolution,
    set_l2ForwardResolution, set_l2ReverseResolution;
  cbn;
  repeat match goal with
         | |- context [truthy_string ?x] => destruct (truthy_string x)
         end;
  cbn;
  try rewrite H1 by lia; try rewrite H2 by lia; try rewrite H3 by lia;
  repeat split; intros; try reflexivity; try lia; auto.

Ltac stage_env :=
  simpl;
  match goal with
  | |- context [env_writeContract ?E ?wc ?c ?w] =>
      destruct (env_writeContract E wc c w) as [[?|?] ?]
  | |- context [env_waitForTransactionReceipt ?E ?wc ?h ?w] =>
      destruct (env_waitForTransactionReceipt E wc h w) as [[?|?] ?]
  | |- context [env_fetch ?E ?u ?m ?w] =>
      destruct (env_fetch E u m w) as [[?|?] ?]
  end.

Ltac stage_leaf HK Hagree Hwr Hf :=
  simpl;
  first [ apply HK; [hashes_agree_tac Hagree|same_effects_tac Hwr Hf]
        | split; [same_effects_tac Hwr Hf
                 |first [ left; reflexivity | right; split; reflexivity ]] ].

Section StageSimulation.
Context {World : Type} (E : Env World).
Variables (n a : string) (wc : WalletClient) (c : ENSContracts) (cid op : string).
Context {B1 B2 : Type} (g : B1 -> B2 -> Prop).

Lemma subname_stage (Kn : ContractType -> Transactions -> Async World B1)
      (Ko : ContractType -> Transactions -> Async World B2) :
  (forall (ct : ContractType) (tn to : Transactions),
      hashes_agree 1 tn to ->
      forall s1 s2 : St World,
        same_effects s1 s2 -> same_run g (Kn ct tn s1) (Ko ct to s2)) ->
  forall s1 s2 : St World,
    same_effects s1 s2 ->
    same_run g (new_subname E n a wc c cid op Kn s1)
               (old_subname E n a wc c cid op Ko s2).
Proof.
  intros HK [w tr1] [w' tr2] (Hw & Hwr & Hf). simpl in Hw, Hwr, Hf. subst w'.
  assert (Hagree : True) by exact I.
  unfold new_subname, old_subname. cbv zeta.
  change (@NamingMonolith.detectContractType World E)
    with (@NamingStandalone.detectContractType World E).
  unfold bind at 1. rewrite detectContractType_naming_frame.
  unfold NamingStandalone.createSubname, L1Naming.createSubname,
    NamingStandalone.correlationId_or_fresh.
  cbn [refactored_step NamingStandalone.with_correlationId name contractAddress
       walletClient contracts contractType correlationId opType coinType
       enableMetrics default].
  unfold_async. cbn [fst snd].
  destruct (Utils.parseNormalizedName n) as [parsed|e];
    [|stage_leaf HK Hagree Hwr Hf].
  cbn [fst snd].
  destruct (env_readContract E wc (recordExists_call c (namehash E n)) w)
    as [v|e]; [|stage_leaf HK Hagree Hwr Hf].
  rewrite detectContractType_naming_frame. cbn [fst snd].
  destruct (truthy v); cbn [negb]; [stage_leaf HK Hagree Hwr Hf|].
  cbn [fst snd].
  destruct (env_readContract E wc (isWrapped_call c _) w) as [v'|e];
    [|stage_leaf HK Hagree Hwr Hf].
  destruct (truthy v'); repeat stage_env; stage_leaf HK Hagree Hwr Hf.
Qed.

Lemma correlationId_stage (o : option string)
      (Kn : string -> Async World B1) (Ko : string -> Async World B2) :
  (forall (x : string) (s1 s2 : St World),
      same_effects s1 s2 -> same_run g (Kn x s1) (Ko x s2)) ->
  forall s1 s2 : St World,
    same_effects s1 s2 ->
    same_run g (bind (NamingStandalone.correlationId_or_fresh E o) Kn s1)
               (bind (NamingStandalone.correlationId_or_fresh E o) Ko s2).
Proof.
  intros HK [w tr1] [w' tr2] (Hw & Hwr & Hf). simpl in Hw, Hwr, Hf. subst w'.
  destruct o as [x|]; unfold bind; simpl.
  - apply HK. repeat split; assumption.
  - unfold randomUUID. simpl. destruct (env_randomUUID E w) as [u w1].
    apply HK. repeat split; assumption.
Qed.

Lemma forward_stage (ct : ContractType) (tn to : Transactions)
      (Kn : Transactions -> Async World B1) (Ko : Transactions -> Async World B2) :
  hashes_agree 1 tn to ->
  (forall tn' to' : Transactions,
      hashes_agree 2 tn' to' ->
      forall s1 s2 : St World,
        same_effects s1 s2 -> same_run g (Kn tn' s1) (Ko to' s2)) ->
  forall s1 s2 : St World,
    same_effects s1 s2 ->
    same_run g (new_forward E n a wc c cid op ct tn Kn s1)
               (old_forward E n a wc c cid op ct to Ko s2).
Proof.
  intros Hagree HK [w tr1] [w' tr2] (Hw & Hwr & Hf). simpl in Hw, Hwr, Hf.
  subst w'.
  unfold new_forward, old_forward. cbv zeta.
  unfold NamingStandalone.setForwardResolution, L1Naming.setForwardResolution,
    NamingStandalone.correlationId_or_fresh.
  cbn [refactored_step NamingStandalone.with_correlationId name contractAddress
       walletClient contracts contractType correlationId opType coinType
       enableMetrics default current_addr_call new_addr_call].
  unfold_async. cbn [fst snd].
  destruct (env_readContract E wc (addr_call c (namehash E n)) w)
    as [[b|cur|z|]|e]; try (stage_leaf HK Hagree Hwr Hf).
  cbn [fst snd].
  destruct (String.eqb (toLowerCase cur) (toLowerCase a)); cbn [negb];
    repeat stage_env; stage_leaf HK Hagree Hwr Hf.
Qed.

Lemma reverse_stage (ct : ContractType) (tn to : Transactions)
      (Kn : Transactions -> Async World B1) (Ko : Transactions -> Async World B2) :
  hashes_agree 2 tn to ->
  (forall tn' to' : Transactions,
      hashes_agree 3 tn' to' ->
      forall s1 s2 : St World,
        same_effects s1 s2 -> same_run g (Kn tn' s1) (Ko to' s2)) ->
  forall s1 s2 : St World,
    same_effects s1 s2 ->
    same_run g (new_reverse E n a wc c cid op ct tn Kn s1)
               (old_reverse E n a wc c cid op ct to Ko s2).
Proof.
  intros Hagree HK [w tr1] [w' tr2] (Hw & Hwr & Hf). simpl in Hw, Hwr, Hf.
  subst w'.
  unfold new_reverse, old_reverse. cbv zeta.
  unfold NamingStandalone.setReverseResolution, L1Naming.setReverseResolution,
    NamingStandalone.correlationId_or_fresh, NamingMonolith.isContractOwner.
  cbn [refactored_step NamingStandalone.with_correlationId name contractAddress
       walletClient contracts contractType correlationId opType coinType
       enableMetrics default].
  unfold_async. cbn beta iota. rewrite !isContractOwner_run.
  destruct (owner_check E a wc (ENS_REGISTRY c) w) as [[|]|e];
    [|stage_leaf HK Hagree Hwr Hf|stage_leaf HK Hagree Hwr Hf].
  destruct ct; cbn [fst snd];
    repeat stage_env; stage_leaf HK Hagree Hwr Hf.
Qed.

Lemma l2_stage (l2 : option WalletClient) (l2cs : option ENSContracts)
      (ct : ContractType) (tn to : Transactions)
      (Kn : Transactions -> Async World B1) (Ko : Transactions -> Async World B2) :
  (forall (l2wc : WalletClient) (l2c : ENSContracts),
      l2 = Some l2wc -> l2cs = Some l2c ->
      truthy_number (Number_of (COIN_TYPE l2c)) = true) ->
  hashes_agree 3 tn to ->
  (forall tn' to' : Transactions,
      hashes_agree 4 tn' to' ->
      forall s1 s2 : St World,
        same_effects s1 s2 -> same_run g (Kn tn' s1) (Ko to' s2)) ->
  forall s1 s2 : St World,
    same_effects s1 s2 ->
    same_run g (new_l2 E n a wc c cid op l2 l2cs ct tn Kn s1)
               (old_l2 E n a wc c cid op l2 l2cs ct to Ko s2).
Proof.
  intros Hcoin Hagree HK [w tr1] [w' tr2] (Hw & Hwr & Hf). simpl in Hw, Hwr, Hf.
  subst w'.
  unfold new_l2, old_l2. cbv zeta.
  destruct l2 as [l2wc|]; [destruct l2cs as [l2c|]|];
    try (unfold_async; stage_leaf HK Hagree Hwr Hf).
  specialize (Hcoin l2wc l2c eq_refl eq_refl).
  unfold NamingStandalone.setForwardResolution, L1Naming.setForwardResolution,
    NamingStandalone.correlationId_or_fresh, NamingStandalone.l2_reverse.
  cbn [refactored_step NamingStandalone.with_correlationId name contractAddress
       walletClient contracts contractType correlationId opType coinType
       enableMetrics default current_addr_call new_addr_call].
  rewrite Hcoin.
  unfold_async. cbn [fst snd].
  destruct (env_readContract E wc (addr_coin_call c (namehash E n) _) w)
    as [[b|cur|z|]|e]; try (stage_leaf HK Hagree Hwr Hf).
  cbn [fst snd].
  destruct (String.eqb (toLowerCase cur) (toLowerCase a)); cbn [negb].
  - repeat (simpl;
            match goal with
            | |- context [env_readContract E l2wc (Utils.owner_call a) ?w0] =>
                destruct (env_readContract E l2wc (Utils.owner_call a) w0)
                  as [?|?]
            | _ => stage_env
            end);
      stage_leaf HK Hagree Hwr Hf.
  - repeat (simpl;
            match goal with
            | |- context [env_readContract E l2wc (Utils.owner_call a) ?w0] =>
                destruct (env_readContract E l2wc (Utils.owner_call a) w0)
                  as [?|?]
            | _ => stage_env
            end);
      stage_leaf HK Hagree Hwr Hf.
Qed.
End StageSimulation.


Lemma nameContract_same_run {World : Type} (E : Env World)
      (m : NamingMonolith.NameContractOptions) (s : St World) :
  l2_coin_type_set m ->
  same_run (fun new old : NameContractResult =>
              Ok new = result_without_empty_hashes (Ok old))
    (NamingStandalone.nameContract E (standalone_request m) s)
    (NamingMonolith.nameContract E m s).
Proof.
  intros Hcoin.
  rewrite nameContract_standalone_staged, nameContract_monolith_staged.
  cbv zeta.
  apply correlationId_stage; [|repeat split].
  intros cid s1 s2 Hs. revert s1 s2 Hs.
  apply subname_stage.
  intros ct tn to Ha1. apply forward_stage; [exact Ha1|].
  intros tn2 to2 Ha2. apply reverse_stage; [exact Ha2|].
  intros tn3 to3 Ha3. apply l2_stage; [exact Hcoin|exact Ha3|].
  intros tn4 to4 [Ha4 _] s1 s2 Hs. subst tn4.
  split; [exact Hs|reflexivity].
Qed.

(** X15. Cutting the first revision of [nameContract] into exported steps
    preserved what it does.  For a request with telemetry enabled, and a
    secondary network, if any, whose coin type is a number other than zero,
    the two revisions leave the same world, send the same transactions and
    post the same telemetry, in the same order.  Both throw or both return.
    When they throw, the error is the same, or it is the TypeError of
    [toLowerCase] on a record of the secondary coin type that is not a
    string, whose text names [l2CurrentAddr] in the first revision and
    [currentAddr] in the later one.  When they return, the results differ in
    one point only: the later revision does not report an empty transaction
    hash.  The reads are not compared. *)
Theorem nameContract_refactoring_preserves_effects :
  forall (World : Type) (E : Env World) (m : NamingMonolith.NameContractOptions)
         (s : St World),
    l2_coin_type_set m ->
    final_world (NamingStandalone.nameContract E (standalone_request m) s)
    = final_world (NamingMonolith.nameContract E m s)
    /\ writes (final_trace (NamingStandalone.nameContract E (standalone_request m) s))
       = writes (final_trace (NamingMonolith.nameContract E m s))
    /\ fetches (final_trace
                  (NamingStandalone.nameContract E (standalone_request m) s))
       = fetches (final_trace (NamingMonolith.nameContract E m s))
    /\ refactored_outcome
         (outcome (NamingStandalone.nameContract E (standalone_request m) s))
         (outcome (NamingMonolith.nameContract E m s)).
Proof.
  intros World E m s Hcoin.
  pose proof (nameContract_same_run E m s Hcoin) as H.
  destruct (NamingStandalone.nameContract E (standalone_request m) s)
    as [on [wn trn]].
  destruct (NamingMonolith.nameContract E m s) as [oo [wo tro]].
  destruct H as [(Hw & Hwr & Hf) Ho]. simpl in *.
  unfold final_world, final_trace, outcome. simpl.
  repeat (split; [assumption|]).
  exact Ho.
Qed.

Lemma nameContract_refactoring_preserves_effects_witness :
  let m := Scenario2.monolith_request "foo.bar.eth" Toy.target in
  let s := Toy.start Scenario.owned_by_alice in
  final_world (NamingStandalone.nameContract Toy.env (standalone_request m) s)
  = final_world (NamingMonolith.nameContract Toy.env m s)
  /\ writes (final_trace
               (NamingStandalone.nameContract Toy.env (standalone_request m) s))
     = writes (final_trace (NamingMonolith.nameContract Toy.env m s))
  /\ fetches (final_trace
                (NamingStandalone.nameContract Toy.env (standalone_request m) s))
     = fetches (final_trace (NamingMonolith.nameContract Toy.env m s))
  /\ refactored_outcome
       (outcome (NamingStandalone.nameContract Toy.env (standalone_request m) s))
       (outcome (NamingMonolith.nameContract Toy.env m s)).
Proof.
  intros m s.
  apply (nameContract_refactoring_preserves_effects Toy.World Toy.env m s).
  intros l2wc l2c _ H. inversion H. reflexivity.
Defined.
